(** * LLM hallucination prevention: the claim-processing pipeline

    A shallow embedding of the Python back end (fact extractor,
    Wikipedia verifier, contradiction detector, confidence scorer, response
    formatter and the request handlers that chain them) and the properties
    of it stated in the specification.

    Modelling conventions.
    - A Python [dict] with string keys is a [gmap string _]; a fact is a
      [gmap string pyval].
    - A Python [str] is a [string]; the model covers ASCII text.  The
      status emoji are kept as their UTF-8 bytes, none of which is a word
      character, as in Python.
    - A Python [float] is its exact value, a rational ([Q]).  In the
      detector, the verifier and [Scorer] the operations on floats are the
      exact ones: rounding is not modelled there, but division by zero
      raises as it does in Python.  [Scorer64] computes the score with the
      operations of binary64 ([F64]), rounding included.
    - Exceptions are values: a computation that may raise returns a
      [result]; the detector, which owns [session_facts], runs in a state
      and exception monad [M].  The exceptions are those of class
      [Exception], which is what [except Exception] and a bare [except]
      catch in a running request.
    - The request handlers run in a state and exception monad [H] over
      the two objects of the module, [conversations] and the detector.
    - The services outside the repository are parameters: the Wikipedia
      client, the spaCy model, the language model and the identifier
      generator; each may return anything or raise.
    - Calls of the logger are left out. *)

From Stdlib Require Import Ascii String QArith Qround Qabs Qminmax Qpower Lqa.
From stdpp Require Import gmap strings list fin_maps pretty sorting.

Open Scope string_scope.

(** ** Python values, exceptions *)

Inductive pyval :=
| PNone
| PBool (b : bool)
| PStr (s : string).

#[global] Instance pyval_eq_dec : EqDecision pyval.
Proof. solve_decision. Defined.

(** Truth value of an object, as tested by [if x], [not x], [x and y]. *)
Definition truthy (v : pyval) : bool :=
  match v with
  | PNone => false
  | PBool b => b
  | PStr s => negb (String.eqb s "")
  end.

(** [d.get(k)]: the value, or [None] when the key is absent. *)
Definition dict_get (d : gmap string pyval) (k : string) : pyval :=
  default PNone (d !! k).

(** [d.get(k, dflt)]. *)
Definition dict_get_default (d : gmap string pyval) (k : string) (dflt : pyval) : pyval :=
  default dflt (d !! k).

(** [v == w] on Python values, as a boolean. *)
Definition py_eq (v w : pyval) : bool := bool_decide (v = w).

Record exn := Exception { exn_type : string; exn_msg : string }.

(** [str(e)] *)
Definition str_exn (e : exn) : string := exn_msg e.

Definition KeyError (k : string) : exn := Exception "KeyError" ("'" +:+ k +:+ "'").
Definition AttributeError : exn := Exception "AttributeError" "object has no such attribute".
Definition ZeroDivisionError : exn := Exception "ZeroDivisionError" "float division by zero".

Inductive result (A : Type) :=
| Ok (a : A)
| Raise (e : exn).
Arguments Ok {A} a.
Arguments Raise {A} e.

#[global] Instance result_ret : MRet result := fun A a => Ok a.
#[global] Instance result_bind : MBind result := fun A B f m =>
  match m with
  | Ok a => f a
  | Raise e => Raise e
  end.

(** [try: body  except Exception as e: handler(e)] *)
Definition try_except {A} (body : result A) (handler : exn → result A) : result A :=
  match body with
  | Ok a => Ok a
  | Raise e => handler e
  end.

(** [d[k]] where the value is then used as a string: [KeyError] when the
    key is absent, [AttributeError] when a string method is called on a
    value that is not a string. *)
Definition dict_item (d : gmap string pyval) (k : string) : result pyval :=
  match d !! k with
  | Some v => Ok v
  | None => Raise (KeyError k)
  end.

Definition as_str (v : pyval) : result string :=
  match v with
  | PStr s => Ok s
  | _ => Raise AttributeError
  end.

(** ** Strings *)

Module Str.

Definition code (c : ascii) : N := N_of_ascii c.

Definition in_range (lo hi : N) (c : ascii) : bool :=
  ((lo <=? code c) && (code c <=? hi))%N.

Definition is_upper : ascii → bool := in_range 65 90.
Definition is_lower : ascii → bool := in_range 97 122.
Definition is_digit : ascii → bool := in_range 48 57.

(** [str.isspace] on ASCII: tab, LF, VT, FF, CR, the four separators
    FS, GS, RS, US, and the space. *)
Definition is_space (c : ascii) : bool := in_range 9 13 c || in_range 28 32 c.

(** [\w] on ASCII. *)
Definition is_word (c : ascii) : bool :=
  is_upper c || is_lower c || is_digit c || Ascii.eqb c "_".

Definition lower_char (c : ascii) : ascii :=
  if is_upper c then ascii_of_N (code c + 32) else c.

(** [s.lower()] *)
Fixpoint lower (s : string) : string :=
  match s with
  | "" => ""
  | String c s' => String (lower_char c) (lower s')
  end.

(** [needle in hay] *)
Fixpoint contains (needle hay : string) : bool :=
  String.prefix needle hay ||
  match hay with
  | "" => false
  | String _ hay' => contains needle hay'
  end.

(** Removes every character satisfying [p]: [s.replace(',', '')] and
    [re.sub(r'[,\s]', '', s)]. *)
Fixpoint remove (p : ascii → bool) (s : string) : string :=
  match s with
  | "" => ""
  | String c s' => if p c then remove p s' else String c (remove p s')
  end.

Fixpoint split_from (cur : string) (s : string) : list string :=
  match s with
  | "" => if String.eqb cur "" then [] else [cur]
  | String c s' =>
      if is_space c
      then (if String.eqb cur "" then split_from "" s' else cur :: split_from "" s')
      else split_from (cur +:+ String c "") s'
  end.

(** [s.split()]: the maximal runs of non-whitespace characters. *)
Definition split (s : string) : list string := split_from "" s.

Fixpoint lstrip (s : string) : string :=
  match s with
  | "" => ""
  | String c s' => if is_space c then lstrip s' else s
  end.

Fixpoint rstrip (s : string) : string :=
  match s with
  | "" => ""
  | String c s' =>
      let t := rstrip s' in
      if String.eqb t "" && is_space c then "" else String c t
  end.

(** [s.strip()] *)
Definition strip (s : string) : string := rstrip (lstrip s).

(** [s[:n]] *)
Definition take (n : nat) (s : string) : string := String.substring 0 n s.

End Str.

(** ** Regular expressions

    The patterns of the source, matched the way Python's [re] matches
    them: leftmost match, greedy repetition, backtracking. *)

Module Re.

Inductive regex :=
| Eps
| Chr (p : ascii → bool)      (* a literal, a class such as [[A-Z]] or [\d], or [.] *)
| Seq (r1 r2 : regex)
| Alt (r1 r2 : regex)
| Star (r : regex)            (* greedy [r*] *)
| Group (i : nat) (r : regex) (* the capturing group number [i] *)
| Bol                         (* [^] *)
| WordB.                      (* [\b] *)

Definition Plus (r : regex) : regex := Seq r (Star r).
Definition Opt (r : regex) : regex := Alt r Eps.

Fixpoint Times (n : nat) (r : regex) : regex :=
  match n with
  | O => Eps
  | S n' => Seq r (Times n' r)
  end.

(** The literal string [s], as [re.escape(s)] matches it. *)
Fixpoint Lit (s : string) : regex :=
  match s with
  | "" => Eps
  | String c s' => Seq (Chr (Ascii.eqb c)) (Lit s')
  end.

Definition upper : regex := Chr Str.is_upper.           (* [[A-Z]] *)
Definition lowers : regex := Plus (Chr Str.is_lower).   (* [[a-z]+] *)
Definition spaces : regex := Plus (Chr Str.is_space).   (* [\s+] *)
Definition digit : regex := Chr Str.is_digit.           (* [\d] *)
Definition digit_or_dot : regex :=                      (* [[\d.]] *)
  Chr (λ c, Str.is_digit c || Ascii.eqb c ".").
Definition any : regex :=                               (* [.] *)
  Chr (λ c, negb (Ascii.eqb c "010")).

(** A position in the subject: the character before it, its offset, and
    the text from it on. *)
Record cursor := Cursor { before : option ascii; pos : nat; rest : string }.

Definition start (s : string) : cursor := Cursor None 0 s.

Definition next (c : cursor) : option ascii :=
  match rest c with
  | "" => None
  | String a _ => Some a
  end.

Definition word_at (o : option ascii) : bool :=
  match o with
  | Some a => Str.is_word a
  | None => false
  end.

Definition groups := list (nat * string).

Definition group (i : nat) (g : groups) : string :=
  default "" (snd <$> List.find (λ e, Nat.eqb (fst e) i) g).

(** [run r c g k] matches [r] at [c] and passes the end position and the
    groups to the continuation [k]; when [k] fails the match backtracks. *)
Fixpoint run {A} (r : regex) (c : cursor) (g : groups)
    (k : cursor → groups → option A) : option A :=
  match r with
  | Eps => k c g
  | Chr p =>
      match rest c with
      | String a s => if p a then k (Cursor (Some a) (S (pos c)) s) g else None
      | "" => None
      end
  | Seq r1 r2 => run r1 c g (λ c' g', run r2 c' g' k)
  | Alt r1 r2 =>
      match run r1 c g k with
      | Some x => Some x
      | None => run r2 c g k
      end
  | Star r1 =>
      (fix loop (fuel : nat) (c : cursor) (g : groups) : option A :=
         match fuel with
         | O => k c g
         | S fuel' =>
             match run r1 c g (λ c' g',
                     if Nat.eqb (pos c') (pos c) then None else loop fuel' c' g') with
             | Some x => Some x
             | None => k c g
             end
         end) (String.length (rest c)) c g
  | Group i r1 =>
      run r1 c g (λ c' g', k c' ((i, Str.take (pos c' - pos c) (rest c)) :: g'))
  | Bol => if Nat.eqb (pos c) 0 then k c g else None
  | WordB => if xorb (word_at (before c)) (word_at (next c)) then k c g else None
  end.

(** A match: where it starts and ends, and its groups. *)
Record found := Found { m_start : nat; m_end : cursor; m_groups : groups }.

Definition match_at (r : regex) (c : cursor) : option found :=
  run r c [] (λ c' g, Some (Found (pos c) c' g)).

(** [re.match(r, s)] *)
Definition rmatch (r : regex) (s : string) : option found := match_at r (start s).

Fixpoint search_from (r : regex) (b : option ascii) (p : nat) (s : string) : option found :=
  match match_at r (Cursor b p s) with
  | Some m => Some m
  | None =>
      match s with
      | "" => None
      | String a s' => search_from r (Some a) (S p) s'
      end
  end.

(** [re.search(r, s)] *)
Definition search (r : regex) (s : string) : option found := search_from r None 0 s.

Fixpoint findall_from (fuel : nat) (r : regex) (c : cursor) : list string :=
  match fuel with
  | O => []
  | S fuel' =>
      match search_from r (before c) (pos c) (rest c) with
      | None => []
      | Some m =>
          let e := m_end m in
          group 1 (m_groups m) ::
          (if Nat.eqb (pos e) (m_start m)
           then match rest e with
                | "" => []
                | String a s => findall_from fuel' r (Cursor (Some a) (S (pos e)) s)
                end
           else findall_from fuel' r e)
      end
  end.

(** [re.findall(r, s)] for a pattern with one group. *)
Definition findall (r : regex) (s : string) : list string :=
  findall_from (S (String.length s)) r (start s).

(** [re.sub(r, repl, s, count=1)] for a replacement with no backslash,
    which Python inserts as it is.  A replacement with a backslash Python
    expands, or rejects with [re.error] before it searches: the general
    statements about the formatter are made for facts whose replacements
    have none. *)
Definition sub1 (r : regex) (repl : string) (s : string) : string :=
  match search r s with
  | None => s
  | Some m => Str.take (m_start m) s +:+ repl +:+ rest (m_end m)
  end.

End Re.

(** ** Numbers *)

Module Num.

Fixpoint digits_from (acc : N) (s : string) : option N :=
  match s with
  | "" => Some acc
  | String c s' =>
      if Str.is_digit c
      then digits_from (acc * 10 + (Str.code c - 48)) s'
      else None
  end.

(** The value of a string of decimal digits ([None] on any other
    character); the empty string counts as zero here, and its callers
    exclude it where Python does. *)
Definition digits (s : string) : option N := digits_from 0 s.

Fixpoint until_dot (s : string) : string * option string :=
  match s with
  | "" => ("", None)
  | String c s' =>
      if Ascii.eqb c "."
      then ("", Some s')
      else let '(i, f) := until_dot s' in (String c i, f)
  end.

(** [float(s)] for a string [s] of digits and dots, which is all that the
    pattern [[\d.]+] passes to it: [None] stands for the [ValueError]
    raised when [s] has no digit or more than one dot. *)
Definition float (s : string) : option Q :=
  match until_dot s with
  | (i, None) =>
      if String.eqb i "" then None
      else n ← digits i; Some (inject_Z (Z.of_N n))
  | (i, Some f) =>
      if String.eqb i "" && String.eqb f "" then None
      else n ← digits i; m ← digits f;
           let scale := (10 ^ N.of_nat (String.length f))%N in
           Some (Z.of_N (n * scale + m) # Z.to_pos (Z.of_N scale))
  end.

(** [int(s)] for a string of digits. *)
Definition int (s : string) : option Z :=
  if String.eqb s "" then None else Z.of_N <$> digits s.

(** [x / y] on floats. *)
Definition div (x y : Q) : result Q :=
  if Qeq_bool y 0 then Raise ZeroDivisionError else Ok (x / y)%Q.

Definition ltb (x y : Q) : bool := negb (Qle_bool y x).

(** Rounding to the nearest integer, ties to the even one. *)
Definition round_half_even (q : Q) : Z :=
  let f := Qfloor q in
  match (q - inject_Z f ?= 1 # 2)%Q with
  | Lt => f
  | Gt => (f + 1)%Z
  | Eq => if Z.even f then f else (f + 1)%Z
  end.

(** [round(q, 2)] *)
Definition round2 (q : Q) : Q := (inject_Z (round_half_even (q * 100)) / 100)%Q.

(** [f"{q:.1f}"] for [q] that is not negative. *)
Definition format_1f (q : Q) : string :=
  let n := round_half_even (q * 10) in
  pretty (n / 10)%Z +:+ "." +:+ pretty (n mod 10)%Z.

End Num.

(** ** Binary64 arithmetic

    Where the value of a float matters, a finite double is its exact
    value, a rational, and an operation is the exact operation followed by
    the rounding of IEEE 754 binary64: to the nearest double, ties to the
    even mantissa.  The conversion of an integer and the division of two
    integers raise [OverflowError] as in Python.  Infinities and
    subnormal numbers are not represented: [add] and [div] are those of
    Python where the result is zero or has a magnitude between 2^-1022 and
    2^1024, which is where the scorer uses them (a sum of at most 2^53
    weights, a quotient between 0.2 / 2^53 and 1). *)

Module F64.

(** The exponent of the binade of [q], for [q] positive: the floor of
    its binary logarithm. *)
Definition ilog2 (q : Q) : Z :=
  if Qle_bool 1 q then Z.log2 (Qfloor q) else (- Z.log2_up (Qceiling (/ q)))%Z.

(** The distance between the doubles of the binade of [q]. *)
Definition ulp (q : Q) : Q := (2 ^ (ilog2 q - 52))%Q.

Definition round_pos (q : Q) : Q :=
  (inject_Z (Num.round_half_even (q / ulp q)) * ulp q)%Q.

(** The double nearest to [q]. *)
Definition round (q : Q) : Q :=
  match (q ?= 0)%Q with
  | Eq => 0%Q
  | Gt => round_pos q
  | Lt => (- round_pos (- q))%Q
  end.

(** The largest double. *)
Definition max_float : Q := inject_Z (2 ^ 1024 - 2 ^ 971).

Definition OverflowError (msg : string) : exn := Exception "OverflowError" msg.

(** A literal such as [0.6]; [x + y]. *)
Definition literal (q : Q) : Q := round q.
Definition add (x y : Q) : Q := round (x + y).

(** The conversion of the integer operand of a mixed operation. *)
Definition of_int (n : Z) : result Q :=
  let x := round (inject_Z n) in
  if Qle_bool (Qabs x) max_float then Ok x
  else Raise (OverflowError "int too large to convert to float").

(** [x / y] on floats, and [n / m] on integers, which Python rounds
    once from the exact quotient. *)
Definition div (x y : Q) : result Q :=
  if Qeq_bool y 0 then Raise ZeroDivisionError else Ok (round (x / y)).
Definition int_div (n m : Z) : result Q :=
  if Z.eqb m 0 then Raise (Exception "ZeroDivisionError" "division by zero")
  else
    let x := round (inject_Z n / inject_Z m) in
    if Qle_bool (Qabs x) max_float then Ok x
    else Raise (OverflowError "integer division result too large for a float").

(** [round(x, 2)]: the decimal with two places nearest to the exact
    value of [x], ties to the even digit, and then the double nearest to
    that decimal. *)
Definition round2 (x : Q) : Q :=
  round (inject_Z (Num.round_half_even (x * 100)) / 100).

End F64.

(** ** Dictionaries *)

Abbreviation dict := (gmap string pyval).

(** [{**d, k1: v1, ..., kn: vn}]: later keys override earlier ones. *)
Definition dict_update (d : dict) (kvs : list (string * pyval)) : dict :=
  foldl (λ d kv, <[kv.1 := kv.2]> d) d kvs.

(** [{k1: v1, ..., kn: vn}] *)
Definition dict_of (kvs : list (string * pyval)) : dict := dict_update ∅ kvs.

(** A value used as the receiver of a string method. *)
Definition str_method (v : pyval) : result string := as_str v.

(** A value passed where the [re] module expects a string. *)
Definition str_arg (v : pyval) : result string :=
  match v with
  | PStr s => Ok s
  | _ => Raise (Exception "TypeError" "expected string or bytes-like object")
  end.

(** [v in l] *)
Definition py_in (v : pyval) (l : list string) : bool :=
  existsb (λ s, py_eq v (PStr s)) l.

(** ** contradiction_detector.py *)

Module Detector.

(** The detector object: [self.session_facts], [{session_id: [facts]}]. *)
Record ContradictionDetector := { session_facts : gmap string (list dict) }.

(** [ContradictionDetector()] *)
Definition init : ContradictionDetector := {| session_facts := ∅ |}.

(** A method of the detector: from the object before the call to what
    the call returns or raises, and the object after it. *)
Definition M (A : Type) : Type :=
  ContradictionDetector → result A * ContradictionDetector.

#[global] Instance M_ret : MRet M := λ A a self, (Ok a, self).
#[global] Instance M_bind : MBind M := λ A B f m self,
  match m self with
  | (Ok a, self') => f a self'
  | (Raise e, self') => (Raise e, self')
  end.

(** Reading and assigning [self.session_facts]; [lift] runs code that
    does not touch the object. *)
Definition get_session_facts : M (gmap string (list dict)) :=
  λ self, (Ok (session_facts self), self).
Definition set_session_facts (sf : gmap string (list dict)) : M () :=
  λ _, (Ok (), {| session_facts := sf |}).
Definition lift {A} (r : result A) : M A := λ self, (r, self).

(** [for x in l: acc = body(x, acc)] *)
Fixpoint for_each {A B} (l : list A) (body : A → B → M B) (acc : B) : M B :=
  match l with
  | [] => mret acc
  | x :: l' => acc' ← body x acc; for_each l' body acc'
  end.

Definition numeric_types : list string :=
  ["CARDINAL"; "QUANTITY"; "MONEY"; "MEASUREMENT"; "POPULATION"].
Definition entity_types : list string := ["GPE"; "LOC"; "PERSON"; "ORG"].

(** [([\d.]+)] *)
Definition number_re : Re.regex := Re.Group 1 (Re.Plus Re.digit_or_dot).
(** [(\d{4})] *)
Definition year_re : Re.regex := Re.Group 1 (Re.Times 4 Re.digit).
(** A capitalised phrase: [[A-Z][a-z]+], then any number of
    [\s+[A-Z][a-z]+]. *)
Definition proper_noun : Re.regex :=
  Re.Seq Re.upper (Re.Seq Re.lowers
    (Re.Star (Re.Seq Re.spaces (Re.Seq Re.upper Re.lowers)))).
(** The pattern of [_extract_is_statement]: a capitalised phrase as
    group 1, then [\s+is\s+], then [.+] as group 2. *)
Definition is_statement_re : Re.regex :=
  Re.Seq (Re.Group 1 proper_noun)
    (Re.Seq Re.spaces (Re.Seq (Re.Lit "is")
      (Re.Seq Re.spaces (Re.Group 2 (Re.Plus Re.any))))).

Definition _extract_number (text : pyval) : result (option Q) :=
  text ← str_method text;
  let text_clean := Str.remove (Ascii.eqb ",") text in
  let multiplier : Q :=
    (if Str.contains "billion" (Str.lower text) then 1000000000
     else if Str.contains "million" (Str.lower text) then 1000000
     else if Str.contains "thousand" (Str.lower text) then 1000
     else 1)%Q in
  match Re.search number_re text_clean with
  | Some m =>
      match Num.float (Re.group 1 (Re.m_groups m)) with
      | Some x => Ok (Some (x * multiplier)%Q)
      | None => Ok None
      end
  | None => Ok None
  end.

Definition _extract_year (text : pyval) : result (option Z) :=
  text ← str_arg text;
  match Re.search year_re text with
  | Some m => Ok (Num.int (Re.group 1 (Re.m_groups m)))
  | None => Ok None
  end.

Definition _same_subject (sentence1 sentence2 : pyval) : result bool :=
  sentence1 ← str_method sentence1;
  let words1 := take 5 (Str.split (Str.lower sentence1)) in
  sentence2 ← str_method sentence2;
  let words2 := take 5 (Str.split (Str.lower sentence2)) in
  let common : gset string := list_to_set words1 ∩ list_to_set words2 in
  Ok (2 <=? size common)%nat.

Definition _extract_is_statement (sentence : pyval) : result (option (string * string)) :=
  sentence ← str_arg sentence;
  match Re.search is_statement_re sentence with
  | Some m => Ok (Some (Re.group 1 (Re.m_groups m), Re.group 2 (Re.m_groups m)))
  | None => Ok None
  end.

Definition _similar_text (text1 text2 : string) : result bool :=
  let words1 : gset string := list_to_set (Str.split (Str.lower text1)) in
  let words2 : gset string := list_to_set (Str.split (Str.lower text2)) in
  if bool_decide (words1 = ∅) || bool_decide (words2 = ∅) then Ok false
  else
    overlap ← Num.div (inject_Z (Z.of_nat (size (words1 ∩ words2))))
                      (inject_Z (Z.of_nat (size words1 `min` size words2)));
    Ok (Num.ltb (1 # 2)%Q overlap).

Definition _check_numeric_contradiction (fact1 fact2 : dict) : result (option dict) :=
  entity1 ← dict_item fact1 "entity";
  num1 ← _extract_number entity1;
  entity2 ← dict_item fact2 "entity";
  num2 ← _extract_number entity2;
  match num1, num2 with
  | Some num1, Some num2 =>
      sentence1 ← dict_item fact1 "sentence";
      sentence2 ← dict_item fact2 "sentence";
      same ← _same_subject sentence1 sentence2;
      if negb same then Ok None
      else
        ratio ← Num.div (Qabs (num1 - num2)) (Qmax num1 num2);
        let diff_percent := (ratio * 100)%Q in
        if Num.ltb 20%Q diff_percent then
          Ok (Some (dict_of
            [("type", PStr "numeric_contradiction");
             ("severity", PStr (if Num.ltb 50%Q diff_percent then "high" else "medium"));
             ("previous_claim", sentence2);
             ("current_claim", sentence1);
             ("previous_value", entity2);
             ("current_value", entity1);
             ("difference", PStr (Num.format_1f diff_percent +:+ "% difference"));
             ("message", PStr "Contradiction detected: Different values for the same claim")]))
        else Ok None
  | _, _ => Ok None
  end.

Definition _check_date_contradiction (fact1 fact2 : dict) : result (option dict) :=
  entity1 ← dict_item fact1 "entity";
  year1 ← _extract_year entity1;
  entity2 ← dict_item fact2 "entity";
  year2 ← _extract_year entity2;
  match year1, year2 with
  | Some year1, Some year2 =>
      if Z.eqb year1 year2 then Ok None
      else
        sentence1 ← dict_item fact1 "sentence";
        sentence2 ← dict_item fact2 "sentence";
        same ← _same_subject sentence1 sentence2;
        if negb same then Ok None
        else
          Ok (Some (dict_of
            [("type", PStr "date_contradiction");
             ("severity", PStr "high");
             ("previous_claim", sentence2);
             ("current_claim", sentence1);
             ("previous_value", entity2);
             ("current_value", entity1);
             ("difference", PStr (pretty (Z.abs (year1 - year2)) +:+ " years apart"));
             ("message", PStr "Contradiction: Different dates for the same event")]))
  | _, _ => Ok None
  end.

Definition _check_entity_contradiction (fact1 fact2 : dict) : result (option dict) :=
  sentence1 ← dict_item fact1 "sentence";
  pattern1 ← _extract_is_statement sentence1;
  sentence2 ← dict_item fact2 "sentence";
  pattern2 ← _extract_is_statement sentence2;
  match pattern1, pattern2 with
  | Some (subject1, claim1), Some (subject2, claim2) =>
      same_subject ← _similar_text subject1 subject2;
      if negb same_subject then Ok None
      else
        same_claim ← _similar_text claim1 claim2;
        if (same_claim : bool) then Ok None
        else
          Ok (Some (dict_of
            [("type", PStr "entity_contradiction");
             ("severity", PStr "high");
             ("previous_claim", sentence2);
             ("current_claim", sentence1);
             ("message", PStr ("Contradiction: Different information about " +:+ subject1))]))
  | _, _ => Ok None
  end.

Definition _check_fact_pair (fact1 fact2 : dict) : result (option dict) :=
  type1 ← dict_item fact1 "entity_type";
  type2 ← dict_item fact2 "entity_type";
  if negb (py_eq type1 type2) then Ok None
  else if py_in type1 numeric_types then _check_numeric_contradiction fact1 fact2
  else if py_eq type1 (PStr "DATE") then _check_date_contradiction fact1 fact2
  else if py_in type1 entity_types then _check_entity_contradiction fact1 fact2
  else Ok None.

(** The logging calls are left out: they read the object only. *)
Definition add_facts (session_id : string) (facts : list dict) : M () :=
  sf ← get_session_facts;
  _ ← (if bool_decide (session_id ∉ dom sf)
       then set_session_facts (<[session_id := []]> sf)
       else mret ());
  sf ← get_session_facts;
  match sf !! session_id with
  | Some history => set_session_facts (<[session_id := (history ++ facts)%list]> sf)
  | None => lift (Raise (KeyError session_id))
  end.

Definition detect_contradictions (session_id : string) (new_facts : list dict)
    : M (list dict) :=
  sf ← get_session_facts;
  if bool_decide (session_id ∉ dom sf) then mret []
  else
    sf ← get_session_facts;
    match sf !! session_id with
    | None => lift (Raise (KeyError session_id))
    | Some previous_facts =>
        for_each new_facts (λ new_fact contradictions,
          for_each previous_facts (λ old_fact contradictions,
            contradiction ← lift (_check_fact_pair new_fact old_fact);
            match (contradiction : option dict) with
            | Some c => mret (contradictions ++ [c])%list
            | None => mret contradictions
            end) contradictions) []
    end.

Definition get_session_summary (session_id : string) : M (nat * list dict) :=
  sf ← get_session_facts;
  match sf !! session_id with
  | None => mret (0, [])
  | Some facts => mret (length facts, facts)
  end.

Definition clear_session (session_id : string) : M () :=
  sf ← get_session_facts;
  if bool_decide (session_id ∈ dom sf)
  then set_session_facts (delete session_id sf)
  else mret ().

End Detector.

(** ** confidence_scorer.py *)

Module Scorer.

Definition HIGH_CONFIDENCE_THRESHOLD : Q := 0.8.
Definition MEDIUM_CONFIDENCE_THRESHOLD : Q := 0.5.

(** What [score_response] returns; the report of an empty response has
    no ["detailed_facts"]. *)
Record Report := {
  overall_confidence : string;
  confidence_score : Q;
  color : string;
  emoji : string;
  summary : string;
  stats : gmap string nat;
  detailed_facts : option (gmap string (list dict))
}.

(** [sum(1 for f in l if p(f))] *)
Definition count (p : dict → bool) (l : list dict) : nat := length (List.filter p l).

(** [stats[k]] *)
Definition stats_item (stats : gmap string nat) (k : string) : result nat :=
  match stats !! k with
  | Some n => Ok n
  | None => Raise (KeyError k)
  end.

Definition confidence_is (tier : string) (f : dict) : bool :=
  py_eq (dict_get f "confidence") (PStr tier).

Definition _calculate_stats (verified_facts : list dict) : gmap string nat :=
  let total := length verified_facts in
  let verified := count (λ f, py_eq (dict_get f "verified") (PBool true)) verified_facts in
  let unverified := count (λ f, py_eq (dict_get f "verified") (PBool false)
                                && negb (confidence_is "unknown" f)) verified_facts in
  let unknown := count (confidence_is "unknown") verified_facts in
  let high_conf := count (confidence_is "high") verified_facts in
  let medium_conf := count (confidence_is "medium") verified_facts in
  let low_conf := count (confidence_is "low") verified_facts in
  <["low_confidence" := low_conf]> (<["medium_confidence" := medium_conf]>
  (<["high_confidence" := high_conf]> (<["unknown" := unknown]>
  (<["unverified" := unverified]> (<["verified" := verified]>
  (<["total_facts" := total]> ∅)))))).

(** The points a fact adds to [total_points]. *)
Definition points (fact : dict) : Q :=
  let confidence := dict_get_default fact "confidence" (PStr "unknown") in
  if py_eq confidence (PStr "high") then 1.0
  else if py_eq confidence (PStr "medium") then 0.6
  else if py_eq confidence (PStr "low") then 0.2
  else 0.0.

Definition _calculate_confidence_score (stats : gmap string nat)
    (verified_facts : list dict) : result Q :=
  total ← stats_item stats "total_facts";
  if Nat.eqb total 0 then Ok 0.0%Q
  else
    let total_points := foldl (λ total_points fact, total_points + points fact)%Q
                              0.0%Q verified_facts in
    total ← stats_item stats "total_facts";
    Num.div total_points (inject_Z (Z.of_nat total)).

Definition _determine_confidence_level (score : Q) (stats : gmap string nat)
    : result (string * string * string) :=
  low ← stats_item stats "low_confidence";
  total ← stats_item stats "total_facts";
  half ← Num.div (inject_Z (Z.of_nat total)) 2;
  if Num.ltb half (inject_Z (Z.of_nat low)) then Ok ("low", "red", "ðŸ”´")
  else if Qle_bool HIGH_CONFIDENCE_THRESHOLD score then Ok ("high", "green", "ðŸŸ¢")
  else if Qle_bool MEDIUM_CONFIDENCE_THRESHOLD score then Ok ("medium", "yellow", "ðŸŸ¡")
  else Ok ("low", "red", "ðŸ”´").

Definition _generate_summary (stats : gmap string nat) (confidence_level : string)
    : result string :=
  total ← stats_item stats "total_facts";
  verified ← stats_item stats "verified";
  if String.eqb confidence_level "high" then
    Ok ("Highly verified: " +:+ pretty verified +:+ "/" +:+ pretty total
        +:+ " facts confirmed by Wikipedia")
  else if String.eqb confidence_level "medium" then
    Ok ("Partially verified: " +:+ pretty verified +:+ "/" +:+ pretty total
        +:+ " facts confirmed, some uncertain")
  else if String.eqb confidence_level "low" then
    unverified ← stats_item stats "unverified";
    if Nat.ltb 0 unverified then
      Ok ("Low confidence: " +:+ pretty unverified +:+ "/" +:+ pretty total
          +:+ " facts could not be verified")
    else Ok "Uncertain: Unable to verify most claims"
  else Ok "No verifiable facts found".

Definition _categorize_facts (verified_facts : list dict) : gmap string (list dict) :=
  let verified := List.filter (λ f, py_eq (dict_get f "verified") (PBool true)
                                    && confidence_is "high" f) verified_facts in
  let uncertain := List.filter (λ f, py_in (dict_get f "confidence") ["medium"; "unknown"])
                               verified_facts in
  let contradicted := List.filter (λ f, py_eq (dict_get f "verified") (PBool false)
                                        && confidence_is "low" f) verified_facts in
  <["contradicted" := contradicted]> (<["uncertain" := uncertain]>
  (<["verified" := verified]> ∅)).

Definition score_response (verified_facts : list dict) : result Report :=
  match verified_facts with
  | [] =>
      Ok {| overall_confidence := "unknown";
            confidence_score := 0.0;
            color := "gray";
            emoji := "â“";
            summary := "No verifiable facts found";
            stats := <["unknown" := 0]> (<["unverified" := 0]>
                     (<["verified" := 0]> (<["total_facts" := 0]> ∅)));
            detailed_facts := None |}
  | _ =>
      let stats := _calculate_stats verified_facts in
      confidence_score ← _calculate_confidence_score stats verified_facts;
      '(confidence_level, color, emoji) ← _determine_confidence_level confidence_score stats;
      summary ← _generate_summary stats confidence_level;
      Ok {| overall_confidence := confidence_level;
            confidence_score := Num.round2 confidence_score;
            color := color;
            emoji := emoji;
            summary := summary;
            stats := stats;
            detailed_facts := Some (_categorize_facts verified_facts) |}
  end.

End Scorer.

(** ** confidence_scorer.py, the score in binary64

    [Scorer] above takes the floats of the score for exact rationals,
    which the statements about counts, buckets and colours can afford.  In
    this module the literals, the sum, the division, the comparisons and
    the rounding of the score are those of binary64, as Python performs
    them; the statistics, the summary and the buckets, which involve no
    float, are those of [Scorer]. *)

Module Scorer64.

Definition HIGH_CONFIDENCE_THRESHOLD : Q := F64.literal 0.8.
Definition MEDIUM_CONFIDENCE_THRESHOLD : Q := F64.literal 0.5.

(** The points a fact adds to [total_points]. *)
Definition points (fact : dict) : Q :=
  let confidence := dict_get_default fact "confidence" (PStr "unknown") in
  if py_eq confidence (PStr "high") then F64.literal 1.0
  else if py_eq confidence (PStr "medium") then F64.literal 0.6
  else if py_eq confidence (PStr "low") then F64.literal 0.2
  else F64.literal 0.0.

Definition _calculate_confidence_score (stats : gmap string nat)
    (verified_facts : list dict) : result Q :=
  total ← Scorer.stats_item stats "total_facts";
  if Nat.eqb total 0 then Ok (F64.literal 0.0)
  else
    let total_points := foldl (λ total_points fact, F64.add total_points (points fact))
                              (F64.literal 0.0) verified_facts in
    total ← Scorer.stats_item stats "total_facts";
    total ← F64.of_int (Z.of_nat total);
    F64.div total_points total.

Definition _determine_confidence_level (score : Q) (stats : gmap string nat)
    : result (string * string * string) :=
  low ← Scorer.stats_item stats "low_confidence";
  total ← Scorer.stats_item stats "total_facts";
  half ← F64.int_div (Z.of_nat total) 2;
  if Num.ltb half (inject_Z (Z.of_nat low)) then Ok ("low", "red", "ðŸ”´")
  else if Qle_bool HIGH_CONFIDENCE_THRESHOLD score then Ok ("high", "green", "ðŸŸ¢")
  else if Qle_bool MEDIUM_CONFIDENCE_THRESHOLD score then Ok ("medium", "yellow", "ðŸŸ¡")
  else Ok ("low", "red", "ðŸ”´").

Definition score_response (verified_facts : list dict) : result Scorer.Report :=
  match verified_facts with
  | [] =>
      Ok {| Scorer.overall_confidence := "unknown";
            Scorer.confidence_score := F64.literal 0.0;
            Scorer.color := "gray";
            Scorer.emoji := "â“";
            Scorer.summary := "No verifiable facts found";
            Scorer.stats := <["unknown" := 0]> (<["unverified" := 0]>
                            (<["verified" := 0]> (<["total_facts" := 0]> ∅)));
            Scorer.detailed_facts := None |}
  | _ =>
      let stats := Scorer._calculate_stats verified_facts in
      confidence_score ← _calculate_confidence_score stats verified_facts;
      '(confidence_level, color, emoji) ← _determine_confidence_level confidence_score stats;
      summary ← Scorer._generate_summary stats confidence_level;
      Ok {| Scorer.overall_confidence := confidence_level;
            Scorer.confidence_score := F64.round2 confidence_score;
            Scorer.color := color;
            Scorer.emoji := emoji;
            Scorer.summary := summary;
            Scorer.stats := stats;
            Scorer.detailed_facts := Some (Scorer._categorize_facts verified_facts) |}
  end.

End Scorer64.

(** ** refdatabase.py *)

Module Verifier.

(** A page object of the [wikipediaapi] library.  Reading any of its
    attributes may fetch from the network, hence may raise. *)
Record WikipediaPage := {
  page_exists : result bool;
  page_text : result string;
  page_summary : result string;
  page_fullurl : result string;
  page_title : result string
}.

Definition name_types : list string := ["GPE"; "LOC"; "PERSON"; "ORG"].
Definition query_value_types : list string :=
  ["DATE"; "CARDINAL"; "QUANTITY"; "MONEY"; "MEASUREMENT"; "POPULATION";
   "WEIGHT"; "TEMPERATURE"].
Definition content_value_types : list string :=
  ["DATE"; "CARDINAL"; "QUANTITY"; "MEASUREMENT"; "POPULATION"; "MONEY";
   "WEIGHT"; "TEMPERATURE"].

(** Pattern 1, a capitalised phrase at the start of the sentence. *)
Definition leading_subject_re : Re.regex :=
  Re.Seq Re.Bol (Re.Group 1 Detector.proper_noun).
(** Pattern 2, [[Tt]he\s+] and a capitalised phrase. *)
Definition the_subject_re : Re.regex :=
  Re.Seq (Re.Chr (λ c, Ascii.eqb c "T" || Ascii.eqb c "t"))
    (Re.Seq (Re.Lit "he") (Re.Seq Re.spaces (Re.Group 1 Detector.proper_noun))).
(** Pattern 3, any capitalised phrase. *)
Definition any_subject_re : Re.regex := Re.Group 1 Detector.proper_noun.
(** [([\d.]+)\s*(?:million|billion|thousand|meters|feet|km)?] *)
Definition text_number_re : Re.regex :=
  Re.Seq (Re.Group 1 (Re.Plus Re.digit_or_dot))
    (Re.Seq (Re.Star (Re.Chr Str.is_space))
      (Re.Opt (Re.Alt (Re.Lit "million") (Re.Alt (Re.Lit "billion")
        (Re.Alt (Re.Lit "thousand") (Re.Alt (Re.Lit "meters")
          (Re.Alt (Re.Lit "feet") (Re.Lit "km")))))))).

Definition comma_or_space (c : ascii) : bool := Ascii.eqb c "," || Str.is_space c.

Definition _extract_subject_from_sentence (sentence : pyval) : result (option string) :=
  sentence ← str_arg sentence;
  match Re.rmatch leading_subject_re sentence with
  | Some m => Ok (Some (Re.group 1 (Re.m_groups m)))
  | None =>
      match Re.search the_subject_re sentence with
      | Some m => Ok (Some (Re.group 1 (Re.m_groups m)))
      | None =>
          match Re.search any_subject_re sentence with
          | Some m => Ok (Some (Re.group 1 (Re.m_groups m)))
          | None => Ok None
          end
      end
  end.

Definition _create_search_query (entity entity_type sentence : pyval) : result pyval :=
  if py_in entity_type name_types then Ok entity
  else if py_in entity_type query_value_types then
    subject ← _extract_subject_from_sentence sentence;
    match subject with
    | Some s => if String.eqb s "" then Ok (PStr "") else Ok (PStr s)
    | None => Ok (PStr "")
    end
  else Ok entity.

(** The loop over [text_numbers]: a number that does not parse, or a
    division by zero, is skipped by the inner [except]. *)
Definition _check_similar_numbers (entity text : string) : bool :=
  match Re.search Detector.number_re entity with
  | None => false
  | Some number_match =>
      match Num.float (Re.group 1 (Re.m_groups number_match)) with
      | None => false
      | Some value =>
          let text_numbers := Re.findall text_number_re (Str.lower text) in
          existsb (λ text_num,
            match Num.float text_num with
            | None => false
            | Some text_value =>
                match Num.div (Qabs (text_value - value)) value with
                | Ok r => Num.ltb r 0.1%Q
                | Raise _ => false
                end
            end) text_numbers
      end
  end.

Definition _verify_against_content (fact : dict) (page_text page_summary : string)
    : result dict :=
  entity ← dict_item fact "entity";
  entity ← str_method entity;
  let entity := Str.lower entity in
  entity_type ← dict_item fact "entity_type";
  if py_in entity_type name_types then
    if Str.contains entity page_text || Str.contains entity page_summary then
      Ok (dict_of [("verified", PBool true); ("confidence", PStr "high");
                   ("verification_note", PStr "Entity found in Wikipedia")])
    else
      Ok (dict_of [("verified", PBool false); ("confidence", PStr "low");
                   ("verification_note", PStr "Entity not found in Wikipedia page")])
  else if py_in entity_type content_value_types then
    let entity_clean := Str.remove comma_or_space entity in
    let page_text_clean := Str.remove comma_or_space page_text in
    if Str.contains entity_clean page_text_clean then
      Ok (dict_of [("verified", PBool true); ("confidence", PStr "high");
                   ("verification_note",
                    PStr ("Value '" +:+ entity +:+ "' found in Wikipedia"))])
    else if _check_similar_numbers entity page_text then
      Ok (dict_of [("verified", PBool true); ("confidence", PStr "medium");
                   ("verification_note", PStr "Similar value found in Wikipedia")])
    else
      Ok (dict_of [("verified", PBool false); ("confidence", PStr "low");
                   ("verification_note",
                    PStr ("Value '" +:+ entity +:+ "' not found in Wikipedia"))])
  else
    Ok (dict_of [("verified", PBool false); ("confidence", PStr "unknown");
                 ("verification_note", PStr "Could not verify")]).

Section WithWikipedia.

(** [self.wiki.page]: the reference source, outside this repository. *)
Variable wiki_page : string → result WikipediaPage.

(** The four fields every failure path adds to the fact. *)
Definition unverified (fact : dict) (note : string) : dict :=
  dict_update fact [("verified", PBool false); ("confidence", PStr "unknown");
                    ("wikipedia_url", PNone); ("verification_note", PStr note)].

(** The body of the [try] block of [verify_fact], for a search query that
    is valid: every access to the page may raise. *)
Definition search_wikipedia (fact : dict) (search_query : string) : result dict :=
  page ← wiki_page search_query;
  found ← page_exists page;
  if negb found then
    Ok (unverified fact ("No Wikipedia page found for '" +:+ search_query +:+ "'"))
  else
    page_text ← page_text page;
    let page_text := Str.lower page_text in
    page_summary ← page_summary page;
    let page_summary := Str.lower page_summary in
    verification_result ← _verify_against_content fact page_text page_summary;
    fullurl ← page_fullurl page;
    title ← page_title page;
    Ok (dict_update (verification_result ∪ fact)
          [("wikipedia_url", PStr fullurl); ("wikipedia_title", PStr title)]).

Definition verify_fact (fact : dict) : result dict :=
  entity ← dict_item fact "entity";
  entity_type ← dict_item fact "entity_type";
  sentence ← dict_item fact "sentence";
  search_query ← _create_search_query entity entity_type sentence;
  if negb (truthy search_query) then
    Ok (unverified fact "Could not create valid search query")
  else
    search_query ← str_method search_query;
    if (String.length (Str.strip search_query) <? 2)%nat then
      Ok (unverified fact "Could not create valid search query")
    else
      try_except (search_wikipedia fact search_query) (λ e,
        Ok (unverified fact ("Error accessing Wikipedia: " +:+ str_exn e))).

Fixpoint verify_facts (facts : list dict) : result (list dict) :=
  match facts with
  | [] => Ok []
  | fact :: facts' =>
      verified_fact ← verify_fact fact;
      verified_facts ← verify_facts facts';
      Ok (verified_fact :: verified_facts)
  end.

End WithWikipedia.

End Verifier.

(** ** response_formatter.py *)

Module Formatter.

(** An element of [fact_spans]. *)
Record Span := {
  text : string;
  status : string;
  color : string;
  emoji : string;
  confidence : pyval;
  wikipedia_url : pyval;
  note : pyval
}.

(** What [format_response] returns. *)
Record Formatted := {
  original : string;
  html : string;
  markdown : string;
  fact_summary : list dict;
  has_issues : bool
}.

(** [str(v)], as an f-string renders a value. *)
Definition py_str (v : pyval) : string :=
  match v with
  | PNone => "None"
  | PBool true => "True"
  | PBool false => "False"
  | PStr s => s
  end.

(** The loop that fills [contradicted_entities]. *)
Fixpoint contradicted_entities (contradictions : list dict) : result (gset string) :=
  match contradictions with
  | [] => Ok ∅
  | cont :: contradictions' =>
      here ← match cont !! "current_value" with
             | Some v => v ← str_method v; Ok ({[Str.lower v]} : gset string)
             | None => Ok ∅
             end;
      others ← contradicted_entities contradictions';
      Ok (here ∪ others)
  end.

Definition fact_span (contradicted : gset string) (fact : dict) : result Span :=
  entity ← dict_item fact "entity";
  entity ← str_method entity;
  let '(status, color, emoji) :=
    if bool_decide (Str.lower entity ∈ contradicted) then
      ("contradicted", "red", "❌")
    else if truthy (dict_get fact "verified")
            && py_eq (dict_get fact "confidence") (PStr "high") then
      ("verified", "green", "✅")
    else if truthy (dict_get fact "verified")
            && py_eq (dict_get fact "confidence") (PStr "medium") then
      ("uncertain", "yellow", "⚠️")
    else
      ("unverified", "orange", "❓") in
  Ok {| text := entity;
        status := status;
        color := color;
        emoji := emoji;
        confidence := dict_get_default fact "confidence" (PStr "unknown");
        wikipedia_url := dict_get fact "wikipedia_url";
        note := dict_get_default fact "verification_note" (PStr "") |}.

Fixpoint fact_spans (contradicted : gset string) (verified_facts : list dict)
    : result (list Span) :=
  match verified_facts with
  | [] => Ok []
  | fact :: verified_facts' =>
      span ← fact_span contradicted fact;
      spans ← fact_spans contradicted verified_facts';
      Ok (span :: spans)
  end.

Definition _create_fact_spans (verified_facts contradictions : list dict)
    : result (list Span) :=
  contradicted ← contradicted_entities contradictions;
  fact_spans contradicted verified_facts.

Fixpoint insert_span (x : Span) (l : list Span) : list Span :=
  match l with
  | [] => [x]
  | y :: l' =>
      if (String.length (text y) <? String.length (text x))%nat
      then x :: y :: l'
      else y :: insert_span x l'
  end.

(** [sorted(fact_spans, key=lambda x: len(x['text']), reverse=True)]:
    longest text first, spans of equal length in their original order. *)
Definition sorted_spans (fact_spans : list Span) : list Span :=
  foldl (λ sorted x, insert_span x sorted) [] fact_spans.

(** [r'\b' + re.escape(entity) + r'\b'] *)
Definition entity_re (entity : string) : Re.regex :=
  Re.Seq Re.WordB (Re.Seq (Re.Lit entity) Re.WordB).

(** The double quote character, for the attributes below. *)
Definition dq : string := String "034"%char "".

Definition html_span (span : Span) : string :=
  if truthy (wikipedia_url span) then
    "<span class=" +:+ dq +:+ "fact-" +:+ color span +:+ dq
    +:+ " title=" +:+ dq +:+ py_str (note span) +:+ dq
    +:+ " data-url=" +:+ dq +:+ py_str (wikipedia_url span) +:+ dq +:+ ">"
    +:+ emoji span +:+ " " +:+ text span +:+ "</span>"
  else
    "<span class=" +:+ dq +:+ "fact-" +:+ color span +:+ dq
    +:+ " title=" +:+ dq +:+ py_str (note span) +:+ dq +:+ ">"
    +:+ emoji span +:+ " " +:+ text span +:+ "</span>".

Definition _create_html_format (text0 : string) (fact_spans : list Span) : string :=
  foldl (λ formatted span, Re.sub1 (entity_re (text span)) (html_span span) formatted)
        text0 (sorted_spans fact_spans).

Definition _create_markdown_format (text0 : string) (fact_spans : list Span) : string :=
  foldl (λ formatted span,
           Re.sub1 (entity_re (text span)) (emoji span +:+ " " +:+ text span) formatted)
        text0 (sorted_spans fact_spans).

Fixpoint _create_fact_summary (verified_facts : list dict) : result (list dict) :=
  match verified_facts with
  | [] => Ok []
  | fact :: verified_facts' =>
      entity ← dict_item fact "entity";
      entity_type ← dict_item fact "entity_type";
      summary ← _create_fact_summary verified_facts';
      Ok (dict_of [("entity", entity);
                   ("type", entity_type);
                   ("verified", dict_get_default fact "verified" (PBool false));
                   ("confidence", dict_get_default fact "confidence" (PStr "unknown"));
                   ("wikipedia_url", dict_get fact "wikipedia_url");
                   ("note", dict_get_default fact "verification_note" (PStr ""))]
          :: summary)
  end.

Definition format_response (original_text : string)
    (verified_facts contradictions : list dict) : result Formatted :=
  fact_spans ← _create_fact_spans verified_facts contradictions;
  let html_formatted := _create_html_format original_text fact_spans in
  let markdown_formatted := _create_markdown_format original_text fact_spans in
  fact_summary ← _create_fact_summary verified_facts;
  Ok {| original := original_text;
        html := html_formatted;
        markdown := markdown_formatted;
        fact_summary := fact_summary;
        has_issues := (0 <? length contradictions)%nat
                      || existsb (λ f, negb (truthy (dict_get f "verified"))) verified_facts |}.

End Formatter.

(** ** fact_extract.py *)

Module FactExtractor.

(** *** What spaCy returns

    The language model is outside this repository.  Of the document it
    returns, the code reads the entities ([doc.ents]: text, label and token
    range of each), the sentences ([doc.sents]: text and token range) and
    the text of a token range ([doc[i:j].text]). *)
Record Ent := { ent_text : string; label_ : string; ent_start : nat; ent_end : nat }.
Record Sent := { sent_text : string; sent_start : nat; sent_end : nat }.
Record Doc := { ents : list Ent; sents : list Sent; range_text : nat → nat → string }.

(** The text of the sentence [_get_sentence_for_entity] returns: the
    first sentence whose token range includes that of the entity, or the
    token range of the entity when there is none. *)
Definition _get_sentence_for_entity (entity : Ent) (doc : Doc) : string :=
  match List.find (λ sent, (sent_start sent <=? ent_start entity)%nat
                           && (ent_end entity <=? sent_end sent)%nat) (sents doc) with
  | Some sent => sent_text sent
  | None => range_text doc (ent_start entity) (ent_end entity)
  end.

(** *** The patterns, compiled with [re.IGNORECASE] *)

(** A letter matched whatever its case. *)
Definition ChrI (c : ascii) : Re.regex :=
  Re.Chr (λ a, Ascii.eqb (Str.lower_char a) (Str.lower_char c)).

Fixpoint LitI (s : string) : Re.regex :=
  match s with
  | "" => Re.Eps
  | String c s' => Re.Seq (ChrI c) (LitI s')
  end.

(** [(?:w|w1|...|wn)] *)
Fixpoint one_of (w : string) (ws : list string) : Re.regex :=
  match ws with
  | [] => LitI w
  | w' :: ws' => Re.Alt (LitI w) (one_of w' ws')
  end.

(** [[\d,.]+] followed by one space *)
Definition number_chars : Re.regex :=
  Re.Plus (Re.Chr (λ c, Str.is_digit c || Ascii.eqb c "," || Ascii.eqb c ".")).
Definition space : Re.regex := Re.Chr (Ascii.eqb " ").

(** A number, [million], [billion], [thousand] or [hundred], and
    [people] if it follows. *)
Definition population_re : Re.regex :=
  Re.Group 1 (Re.Seq number_chars (Re.Seq space
    (Re.Seq (one_of "million" ["billion"; "thousand"; "hundred"])
            (Re.Opt (LitI " people"))))).
(** A dollar sign and a number. *)
Definition money_re : Re.regex :=
  Re.Group 1 (Re.Seq (Re.Chr (Ascii.eqb "$")) number_chars).
Definition measurement_re : Re.regex :=
  Re.Group 1 (Re.Seq number_chars (Re.Seq space
    (one_of "meters" ["feet"; "kilometers"; "miles"; "km"; "ft"]))).
Definition weight_re : Re.regex :=
  Re.Group 1 (Re.Seq number_chars (Re.Seq space
    (one_of "kg" ["tons"; "pounds"; "grams"]))).
(** A number and [degrees], or the degree sign and [C] or [F]. *)
Definition temperature_re : Re.regex :=
  Re.Group 1 (Re.Seq number_chars (Re.Seq space
    (Re.Alt (LitI "degrees") (Re.Seq (Re.Lit "°") (Re.Alt (ChrI "C") (ChrI "F")))))).

Definition four_digits : Re.regex := Re.Group 1 (Re.Times 4 Re.digit).

(** [in], [during], [since] or [from], white space, and four digits. *)
Definition date_in_re : Re.regex :=
  Re.Seq (one_of "in" ["during"; "since"; "from"]) (Re.Seq Re.spaces four_digits).
(** [established], [built], ..., white space, [in] and white space if
    they follow, and four digits. *)
Definition date_event_re : Re.regex :=
  Re.Seq (one_of "established" ["built"; "founded"; "created"; "born"; "died"])
    (Re.Seq Re.spaces
       (Re.Seq (Re.Opt (Re.Seq (LitI "in") Re.spaces)) four_digits)).

(** *** [re.finditer], [str.find], [str.rfind] and slices *)

Fixpoint finditer_from (fuel : nat) (r : Re.regex) (c : Re.cursor) : list Re.found :=
  match fuel with
  | O => []
  | S fuel' =>
      match Re.search_from r (Re.before c) (Re.pos c) (Re.rest c) with
      | None => []
      | Some m =>
          let e := Re.m_end m in
          m ::
          (if Nat.eqb (Re.pos e) (Re.m_start m)
           then match Re.rest e with
                | "" => []
                | String a s => finditer_from fuel' r (Re.Cursor (Some a) (S (Re.pos e)) s)
                end
           else finditer_from fuel' r e)
      end
  end.

(** [re.finditer(r, s)]: the matches from left to right, each starting
    where the one before ended. *)
Definition finditer (r : Re.regex) (s : string) : list Re.found :=
  finditer_from (S (String.length s)) r (Re.start s).

(** The index of the first [ch] in [s], whose first character has
    index [p]; -1 when there is none. *)
Fixpoint index_from (ch : ascii) (p : nat) (s : string) : Z :=
  match s with
  | "" => -1
  | String a s' => if Ascii.eqb a ch then Z.of_nat p else index_from ch (S p) s'
  end.

(** [s[n:]] *)
Fixpoint drop (n : nat) (s : string) : string :=
  match n, s with
  | S n', String _ s' => drop n' s'
  | _, _ => s
  end.

(** [s.find(ch, start)] *)
Definition find (ch : ascii) (start : nat) (s : string) : Z :=
  if (String.length s <? start)%nat then -1 else index_from ch start (drop start s).

(** The index of the last [ch] among the first [n] characters of [s],
    whose first character has index [p]; [last] when there is none. *)
Fixpoint last_index (ch : ascii) (p n : nat) (s : string) (last : Z) : Z :=
  match n, s with
  | S n', String a s' =>
      last_index ch (S p) n' s' (if Ascii.eqb a ch then Z.of_nat p else last)
  | _, _ => last
  end.

(** [s.rfind(ch, 0, stop)] *)
Definition rfind (ch : ascii) (stop : nat) (s : string) : Z := last_index ch 0 stop s (-1).

(** [s[i:j]] for indices that are not negative. *)
Definition slice (s : string) (i j : Z) : string :=
  String.substring (Z.to_nat i) (Z.to_nat j - Z.to_nat i) s.

(** *** The extractor *)

(** The dictionary built for a fact. *)
Definition fact (sentence entity fact_type : string) : dict :=
  dict_of [("claim", PStr sentence); ("entity", PStr entity);
           ("entity_type", PStr fact_type); ("sentence", PStr sentence)].

(** The sentence around a match: from after the last full stop before
    it to the first full stop after it, stripped. *)
Definition sentence_around (text : string) (m : Re.found) : string :=
  let sent_start := (rfind "." (Re.m_start m) text + 1)%Z in
  let sent_end := find "." (Re.pos (Re.m_end m)) text in
  let sent_end := if (sent_end =? -1)%Z then Z.of_nat (String.length text) else sent_end in
  Str.strip (slice text sent_start sent_end).

Definition numeric_patterns : list (Re.regex * string) :=
  [(population_re, "POPULATION"); (money_re, "MONEY"); (measurement_re, "MEASUREMENT");
   (weight_re, "WEIGHT"); (temperature_re, "TEMPERATURE")].

Definition _extract_numeric_facts (text : string) : list dict :=
  flat_map (λ '(pattern, fact_type),
              List.map (λ m, fact (sentence_around text m)
                                  (Str.strip (Re.group 1 (Re.m_groups m)))
                                  fact_type)
                       (finditer pattern text))
           numeric_patterns.

Definition date_patterns : list (Re.regex * string) :=
  [(date_in_re, "DATE"); (date_event_re, "DATE")].

Definition _extract_date_patterns (text : string) : list dict :=
  flat_map (λ '(pattern, fact_type),
              List.map (λ m, fact (sentence_around text m)
                                  (Re.group 1 (Re.m_groups m))
                                  fact_type)
                       (finditer pattern text))
           date_patterns.

Definition entity_labels : list string :=
  ["PERSON"; "GPE"; "LOC"; "ORG"; "DATE"; "TIME"; "MONEY"; "QUANTITY"; "CARDINAL"].

(** The facts of the named entities of a document. *)
Definition entity_facts (doc : Doc) : list dict :=
  flat_map (λ ent,
              if bool_decide (label_ ent ∈ entity_labels) then
                let sentence := _get_sentence_for_entity ent doc in
                [fact (Str.strip sentence) (ent_text ent) (label_ ent)]
              else [])
           (ents doc).

(** [v[:n]]: a value that is not a string has no slices. *)
Definition str_prefix (n : nat) (v : pyval) : result string :=
  match v with
  | PStr s => Ok (Str.take n s)
  | _ => Raise (Exception "TypeError" "object is not subscriptable")
  end.

(** The key under which a fact is remembered: the entity, a colon, and
    the first fifty characters of the sentence. *)
Definition fact_key (fact : dict) : result string :=
  entity ← dict_item fact "entity";
  sentence ← dict_item fact "sentence";
  sentence ← str_prefix 50 sentence;
  Ok (Formatter.py_str entity +:+ ":" +:+ sentence).

(** The loop that removes duplicates. *)
Fixpoint unique (facts : list dict) (seen : gset string) (unique_facts : list dict)
    : result (list dict) :=
  match facts with
  | [] => Ok unique_facts
  | fact :: facts' =>
      key ← fact_key fact;
      if bool_decide (key ∈ seen) then unique facts' seen unique_facts
      else unique facts' ({[key]} ∪ seen) (unique_facts ++ [fact])%list
  end.

Section WithSpacy.

(** [self.nlp]: the loaded model, or [None] when it could not be
    loaded; applying it to a text may raise. *)
Variable nlp : option (string → result Doc).

Definition extract_facts (text : string) : result (list dict) :=
  match nlp with
  | None => Ok []
  | Some run =>
      doc ← run text;
      let facts := entity_facts doc in
      let numeric_facts := _extract_numeric_facts text in
      let facts := (facts ++ numeric_facts)%list in
      let date_facts := _extract_date_patterns text in
      let facts := (facts ++ date_facts)%list in
      unique facts ∅ []
  end.

End WithSpacy.

End FactExtractor.

(** ** main.py *)

Module Main.

(** An entry of a conversation: [{"role": r, "parts": [text]}]. *)
Record Message := { role : string; parts : list string }.

(** The request body: [session_id] is optional. *)
Record ChatRequest := { message : string; session_id : option string }.

Record ChatResponse := {
  response : string;
  response_session_id : string;
  extracted_facts : list dict;
  confidence_report : Scorer.Report;
  contradictions : list dict;
  formatted_response : Formatter.Formatted
}.

(** What a handler gives back: a value, or an [HTTPException]. *)
Inductive Reply (A : Type) :=
| Response (a : A)
| HTTPException (status_code : nat) (detail : string).
Arguments Response {A} a.
Arguments HTTPException {A} status_code detail.

(** The objects of the module that the handlers read and write: the
    dictionary [conversations] and the detector. *)
Record App := {
  conversations : gmap string (list Message);
  contradiction_detector : Detector.ContradictionDetector
}.

(** The body of a handler: from the objects before to what the body
    returns or raises, and the objects after. *)
Definition H (A : Type) : Type := App → result A * App.

#[global] Instance H_ret : MRet H := λ A a app, (Ok a, app).
#[global] Instance H_bind : MBind H := λ A B f m app,
  match m app with
  | (Ok a, app') => f a app'
  | (Raise e, app') => (Raise e, app')
  end.

Definition get_conversations : H (gmap string (list Message)) :=
  λ app, (Ok (conversations app), app).
Definition set_conversations (c : gmap string (list Message)) : H () :=
  λ app, (Ok (), {| conversations := c;
                    contradiction_detector := contradiction_detector app |}).
(** A call that touches none of the two objects. *)
Definition call {A} (r : result A) : H A := λ app, (r, app).
(** A call of a method of the detector. *)
Definition on_detector {A} (m : Detector.M A) : H A :=
  λ app, let '(r, detector) := m (contradiction_detector app) in
         (r, {| conversations := conversations app;
                contradiction_detector := detector |}).

(** [conversations[session_id]] *)
Definition conversation (session_id : string) : H (list Message) :=
  c ← get_conversations;
  match c !! session_id with
  | Some history => mret history
  | None => call (Raise (KeyError session_id))
  end.

(** [conversations[session_id].append(entry)] *)
Definition append_message (session_id : string) (entry : Message) : H () :=
  history ← conversation session_id;
  c ← get_conversations;
  set_conversations (<[session_id := (history ++ [entry])%list]> c).

Section WithServices.

(** The services outside this repository: the identifier generator,
    the language model ([model.start_chat(history).send_message(m).text]),
    spaCy and Wikipedia. *)
Variable uuid4 : string.
Variable send_message : list Message → string → result string.
Variable nlp : option (string → result FactExtractor.Doc).
Variable wiki_page : string → result Verifier.WikipediaPage.

(** [request.session_id or str(uuid.uuid4())] *)
Definition session_of (request : ChatRequest) : string :=
  match session_id request with
  | Some id => if String.eqb id "" then uuid4 else id
  | None => uuid4
  end.

(** The [try] block of [chat]. *)
Definition chat_body (request : ChatRequest) : H ChatResponse :=
  let session_id := session_of request in
  c ← get_conversations;
  _ ← (if bool_decide (session_id ∉ dom c)
       then set_conversations (<[session_id := []]> c)
       else mret ());
  _ ← append_message session_id {| role := "user"; parts := [message request] |};
  history ← conversation session_id;
  response_text ← call (send_message (removelast history) (message request));
  _ ← append_message session_id {| role := "model"; parts := [response_text] |};
  extracted_facts ← call (FactExtractor.extract_facts nlp response_text);
  verified_facts ← call (Verifier.verify_facts wiki_page extracted_facts);
  contradictions ← on_detector (Detector.detect_contradictions session_id verified_facts);
  _ ← on_detector (Detector.add_facts session_id verified_facts);
  confidence_report ← call (Scorer.score_response verified_facts);
  let confidence_report :=
    if (0 <? length contradictions)%nat then
      {| Scorer.overall_confidence := "low";
         Scorer.confidence_score := Scorer.confidence_score confidence_report;
         Scorer.color := "red";
         Scorer.emoji := "🔴";
         Scorer.summary := "⚠️  " +:+ pretty (length contradictions)
                           +:+ " contradiction(s) detected in conversation";
         Scorer.stats := Scorer.stats confidence_report;
         Scorer.detailed_facts := Scorer.detailed_facts confidence_report |}
    else confidence_report in
  formatted_response ←
    call (Formatter.format_response response_text verified_facts contradictions);
  mret {| response := response_text;
          response_session_id := session_id;
          extracted_facts := verified_facts;
          confidence_report := confidence_report;
          contradictions := contradictions;
          formatted_response := formatted_response |}.

(** [chat]: whatever the body raises becomes an [HTTPException] with
    status 500 and the text of the exception. *)
Definition chat (request : ChatRequest) (app : App) : Reply ChatResponse * App :=
  match chat_body request app with
  | (Ok r, app') => (Response r, app')
  | (Raise e, app') => (HTTPException 500 (str_exn e), app')
  end.

End WithServices.

(** [get_history]: the session id and its history, or 404. *)
Definition get_history (session_id : string) (app : App)
    : Reply (string * list Message) * App :=
  match conversations app !! session_id with
  | None => (HTTPException 404 "Session not found", app)
  | Some history => (Response (session_id, history), app)
  end.

(** [clear_session]: returns the message of the reply. *)
Definition clear_session (session_id : string) : H string :=
  c ← get_conversations;
  _ ← (if bool_decide (session_id ∈ dom c)
       then set_conversations (delete session_id c)
       else mret ());
  _ ← on_detector (Detector.clear_session session_id);
  mret ("Session " +:+ session_id +:+ " cleared").

End Main.

(** ** Claims, sessions and reference sources used in the statements *)

(** A claim as the extractor produces it. *)
Definition claim (entity entity_type sentence : string) : dict :=
  dict_of [("claim", PStr sentence); ("entity", PStr entity);
           ("entity_type", PStr entity_type); ("sentence", PStr sentence)].

(** A claim has its three fields, each a string. *)
Definition is_claim (fact : dict) : bool :=
  match fact !! "entity", fact !! "entity_type", fact !! "sentence" with
  | Some (PStr _), Some (PStr _), Some (PStr _) => true
  | _, _, _ => false
  end.

(** The detector after one call of [add_facts] on a fresh object. *)
Definition session_with (session_id : string) (facts : list dict)
    : Detector.ContradictionDetector :=
  (Detector.add_facts session_id facts Detector.init).2.

Definition tokyo_14 : dict :=
  claim "14 million people" "POPULATION" "Tokyo has 14 million people".
Definition tokyo_38 : dict :=
  claim "38 million people" "POPULATION" "Tokyo has 38 million people".
Definition paris_2 : dict :=
  claim "2 million people" "POPULATION" "Paris has 2 million people".

Definition statue_10kg : dict := claim "10 kg" "WEIGHT" "The statue weighs 10 kg".
Definition statue_50kg : dict := claim "50 kg" "WEIGHT" "The statue weighs 50 kg".
Definition oven_100 : dict :=
  claim "100 degrees" "TEMPERATURE" "The oven reaches 100 degrees".
Definition oven_300 : dict :=
  claim "300 degrees" "TEMPERATURE" "The oven reaches 300 degrees".

Definition sea_level : dict :=
  claim "0 meters" "MEASUREMENT" "The town lies 0 meters above sea level".

(** The dictionary the numeric rule returns. *)
Definition numeric_contradiction
    (severity previous_claim current_claim previous_value current_value difference : string)
    : dict :=
  dict_of [("type", PStr "numeric_contradiction");
           ("severity", PStr severity);
           ("previous_claim", PStr previous_claim);
           ("current_claim", PStr current_claim);
           ("previous_value", PStr previous_value);
           ("current_value", PStr current_value);
           ("difference", PStr difference);
           ("message", PStr "Contradiction detected: Different values for the same claim")].

(** A method that leaves the detector as it found it, whatever it
    returns or raises. *)
Definition reads_only {A} (m : Detector.M A) : Prop :=
  ∀ self, (m self).2 = self.

(** What a scan of one new fact against a history of one old fact
    yields. *)
Definition scan_one (new_fact old_fact : dict) : result (list dict) :=
  match Detector._check_fact_pair new_fact old_fact with
  | Ok (Some c) => Ok [c]
  | Ok None => Ok []
  | Raise e => Raise e
  end.

(** The confidence tiers of the specification, their weights, and the
    tier a verified claim carries: the value under ["confidence"], and
    unknown when it is absent or none of the three names. *)
Inductive Tier := High | Medium | Low | Unknown.

#[global] Instance Tier_eq_dec : EqDecision Tier.
Proof. solve_decision. Defined.

Definition weight (t : Tier) : Q :=
  match t with
  | High => 1.0
  | Medium => 0.6
  | Low => 0.2
  | Unknown => 0.0
  end.

Definition tier_of (fact : dict) : Tier :=
  let confidence := dict_get_default fact "confidence" (PStr "unknown") in
  if py_eq confidence (PStr "high") then High
  else if py_eq confidence (PStr "medium") then Medium
  else if py_eq confidence (PStr "low") then Low
  else Unknown.

Definition count_tier (t : Tier) (facts : list dict) : nat :=
  length (List.filter (λ f, bool_decide (tier_of f = t)) facts).

Definition sum_weights (facts : list dict) : Q :=
  foldr (λ f s, weight (tier_of f) + s)%Q 0%Q facts.

(** The average over all claims of the weight of their tier. *)
Definition average_weight (facts : list dict) : Q :=
  (sum_weights facts / inject_Z (Z.of_nat (length facts)))%Q.

(** The level decision in the order the specification gives it: a strict
    majority of low-tier claims first, then the two thresholds. *)
Definition level_decision (low_count total : nat) (score : Q) : string :=
  if (total <? 2 * low_count)%nat then "low"
  else if Qle_bool 0.8 score then "high"
  else if Qle_bool 0.5 score then "medium"
  else "low".

Definition three_high : list dict :=
  [dict_update (claim "Tokyo" "GPE" "Tokyo is large")
     [("verified", PBool true); ("confidence", PStr "high")];
   dict_update (claim "14 million" "CARDINAL" "Tokyo has 14 million people")
     [("verified", PBool true); ("confidence", PStr "high")];
   dict_update (claim "2020" "DATE" "It was counted in 2020")
     [("verified", PBool true); ("confidence", PStr "high")]].

(** The coupling between the verified flag and the confidence tier of a
    verification result. *)
Definition coupled (result : dict) : bool :=
  match result !! "verified", result !! "confidence" with
  | Some (PBool true), Some (PStr tier) =>
      String.eqb tier "high" || String.eqb tier "medium"
  | Some (PBool false), Some (PStr tier) =>
      String.eqb tier "low" || String.eqb tier "unknown"
  | _, _ => false
  end.

(** The search key [verify_fact] builds for a fact. *)
Definition search_key (fact : dict) : result pyval :=
  entity ← dict_item fact "entity";
  entity_type ← dict_item fact "entity_type";
  sentence ← dict_item fact "sentence";
  Verifier._create_search_query entity entity_type sentence.

(** A result of [verify_fact] on a failure path: the fact with the four
    fields of [unverified], not verified, of unknown confidence, with the
    given note. *)
Definition degraded (fact : dict) (note : string) (result : dict) : Prop :=
  result = Verifier.unverified fact note ∧
  result !! "verified" = Some (PBool false) ∧
  result !! "confidence" = Some (PStr "unknown") ∧
  result !! "verification_note" = Some (PStr note).

(** A reference source with one page; the lookup of "Paris" fails. *)
Definition tokyo_page : Verifier.WikipediaPage :=
  {| Verifier.page_exists := Ok true;
     Verifier.page_text := Ok "Tokyo is the capital of Japan. Its population is 14.1 million.";
     Verifier.page_summary := Ok "Tokyo is the capital of Japan.";
     Verifier.page_fullurl := Ok "https://en.wikipedia.org/wiki/Tokyo";
     Verifier.page_title := Ok "Tokyo" |}.

Definition no_page : Verifier.WikipediaPage :=
  {| Verifier.page_exists := Ok false;
     Verifier.page_text := Ok "";
     Verifier.page_summary := Ok "";
     Verifier.page_fullurl := Ok "";
     Verifier.page_title := Ok "" |}.

Definition small_wiki (title : string) : result Verifier.WikipediaPage :=
  if String.eqb title "Tokyo" then Ok tokyo_page
  else if String.eqb title "Paris" then Raise (Exception "ConnectionError" "timed out")
  else Ok no_page.

(** A response that names the Eiffel Tower and then Eiffel, and the two
    verified facts extracted from it. *)
Definition eiffel_text : string := "The Eiffel Tower was designed by Eiffel.".

Definition eiffel_fact : dict :=
  dict_update (claim "Eiffel" "PERSON" "The Eiffel Tower was designed by Eiffel")
    [("verified", PBool true); ("confidence", PStr "high");
     ("verification_note", PStr "Entity found in Wikipedia");
     ("wikipedia_url", PStr "https://en.wikipedia.org/wiki/Gustave_Eiffel");
     ("wikipedia_title", PStr "Gustave Eiffel")].

Definition eiffel_tower_fact : dict :=
  dict_update (claim "Eiffel Tower" "LOC" "The Eiffel Tower was designed by Eiffel")
    [("verified", PBool true); ("confidence", PStr "high");
     ("verification_note", PStr "Entity found in Wikipedia");
     ("wikipedia_url", PStr "https://en.wikipedia.org/wiki/Eiffel_Tower");
     ("wikipedia_title", PStr "Eiffel Tower")].

Definition eiffel_span : Formatter.Span :=
  {| Formatter.text := "Eiffel";
     Formatter.status := "verified";
     Formatter.color := "green";
     Formatter.emoji := "✅";
     Formatter.confidence := PStr "high";
     Formatter.wikipedia_url := PStr "https://en.wikipedia.org/wiki/Gustave_Eiffel";
     Formatter.note := PStr "Entity found in Wikipedia" |}.

Definition eiffel_tower_span : Formatter.Span :=
  {| Formatter.text := "Eiffel Tower";
     Formatter.status := "verified";
     Formatter.color := "green";
     Formatter.emoji := "✅";
     Formatter.confidence := PStr "high";
     Formatter.wikipedia_url := PStr "https://en.wikipedia.org/wiki/Eiffel_Tower";
     Formatter.note := PStr "Entity found in Wikipedia" |}.

(** Longest text first. *)
Definition longer_first (x y : Formatter.Span) : Prop :=
  (String.length (Formatter.text y) ≤ String.length (Formatter.text x))%nat.

Definition tokyo_span : Formatter.Span :=
  {| Formatter.text := "Tokyo";
     Formatter.status := "verified";
     Formatter.color := "green";
     Formatter.emoji := "✅";
     Formatter.confidence := PStr "high";
     Formatter.wikipedia_url := PStr "https://en.wikipedia.org/wiki/Tokyo";
     Formatter.note := PStr "Entity found in Wikipedia" |}.

(** ** Further definitions used in the statements *)

(** The two loops of [detect_contradictions] as functions of the history
    it reads: the contradictions of one new fact, then of all of them,
    appended to those found so far. *)
Fixpoint scan_history (new_fact : dict) (history : list dict) (found : list dict)
    : result (list dict) :=
  match history with
  | [] => Ok found
  | old_fact :: history' =>
      c ← Detector._check_fact_pair new_fact old_fact;
      scan_history new_fact history'
        (match (c : option dict) with
         | Some c => (found ++ [c])%list
         | None => found
         end)
  end.

Fixpoint scan_all (new_facts history : list dict) (found : list dict)
    : result (list dict) :=
  match new_facts with
  | [] => Ok found
  | new_fact :: new_facts' =>
      found' ← scan_history new_fact history found;
      scan_all new_facts' history found'
  end.

(** What a comparison of two facts comes to: an exception, nothing, or a
    contradiction of some kind and severity. *)
Inductive Verdict :=
| Raised
| Consistent
| Contradicts (kind severity : option pyval).

Definition verdict (r : result (option dict)) : Verdict :=
  match r with
  | Raise _ => Raised
  | Ok None => Consistent
  | Ok (Some c) => Contradicts (c !! "type") (c !! "severity")
  end.

(** A fact whose sentence ends in blanks after "is". *)
Definition paris_is_blank : dict := claim "Paris" "GPE" "Paris is  ".

(** Three low-tier facts and two high-tier ones. *)
Definition mostly_low : list dict :=
  [dict_update (claim "Atlantis" "GPE" "Atlantis is large")
     [("verified", PBool false); ("confidence", PStr "low")];
   dict_update (claim "999 billion" "CARDINAL" "Atlantis has 999 billion people")
     [("verified", PBool false); ("confidence", PStr "low")];
   dict_update (claim "1457" "DATE" "Atlantis was founded in 1457")
     [("verified", PBool false); ("confidence", PStr "low")];
   dict_update (claim "Tokyo" "GPE" "Tokyo is large")
     [("verified", PBool true); ("confidence", PStr "high")];
   dict_update (claim "Japan" "GPE" "Tokyo is in Japan")
     [("verified", PBool true); ("confidence", PStr "high")]].

(** The keys [verify_fact] writes. *)
Definition verification_keys : list string :=
  ["verified"; "confidence"; "wikipedia_url"; "verification_note"; "wikipedia_title"].

(** What [verify_fact] lays over a fact: the four fields of a failure
    path, or the five of a page that was found and checked. *)
Definition failure_fields (note : string) : dict :=
  dict_of [("verified", PBool false); ("confidence", PStr "unknown");
           ("wikipedia_url", PNone); ("verification_note", PStr note)].

Definition checked_fields (verified : bool) (tier note url title : string) : dict :=
  dict_of [("verified", PBool verified); ("confidence", PStr tier);
           ("verification_note", PStr note);
           ("wikipedia_url", PStr url); ("wikipedia_title", PStr title)].

(** The results of the small reference source on the two claims. *)
Definition tokyo_14_verified : dict :=
  checked_fields true "medium" "Similar value found in Wikipedia"
    "https://en.wikipedia.org/wiki/Tokyo" "Tokyo" ∪ tokyo_14.

Definition paris_2_failed : dict :=
  failure_fields "Error accessing Wikipedia: timed out" ∪ paris_2.

(** A contradiction the formatter can read: its current value, when it
    has one, is a string. *)
Definition readable (contradiction : dict) : Prop :=
  contradiction !! "current_value" = None ∨
  ∃ value, contradiction !! "current_value" = Some (PStr value).

(** [entity] is, ignoring case, the current value of one of the
    contradictions. *)
Definition named_by (contradictions : list dict) (entity : string) : Prop :=
  ∃ contradiction value,
    contradiction ∈ contradictions ∧
    contradiction !! "current_value" = Some (PStr value) ∧
    Str.lower value = Str.lower entity.

(** The span of the claim of 38 million, once contradicted. *)
Definition tokyo_38_span : Formatter.Span :=
  {| Formatter.text := "38 million people";
     Formatter.status := "contradicted";
     Formatter.color := "red";
     Formatter.emoji := "❌";
     Formatter.confidence := PStr "unknown";
     Formatter.wikipedia_url := PNone;
     Formatter.note := PStr "" |}.

Definition tokyo_38_contradiction : dict :=
  numeric_contradiction "high" "Tokyo has 14 million people"
    "Tokyo has 38 million people" "14 million people" "38 million people"
    "63.2% difference".

(** A replacement that [re.sub] inserts as it is: one with no backslash
    (a backslash starts an escape that [re.sub] expands or rejects). *)
Definition plain (repl : string) : bool :=
  forallb (λ c, negb (Ascii.eqb c "092")) (list_ascii_of_string repl).

(** ** What a pattern matches

    [Re.run] explores, with backtracking, the ways a pattern matches from
    a cursor.  [matches r c g c' g'] is the relation it explores: [r] matches
    from the cursor [c] to the cursor [c'] and turns the groups [g] into
    [g']. *)
Inductive iterated (R : Re.cursor → Re.groups → Re.cursor → Re.groups → Prop)
    : Re.cursor → Re.groups → Re.cursor → Re.groups → Prop :=
| iterated_none c g : iterated R c g c g
| iterated_more c g c1 g1 c2 g2 :
    R c g c1 g1 → iterated R c1 g1 c2 g2 → iterated R c g c2 g2.

Fixpoint matches (r : Re.regex)
    : Re.cursor → Re.groups → Re.cursor → Re.groups → Prop :=
  match r with
  | Re.Eps => λ c g c' g', c' = c ∧ g' = g
  | Re.Chr p => λ c g c' g',
      ∃ a s, Re.rest c = String a s ∧ p a = true ∧
             c' = Re.Cursor (Some a) (S (Re.pos c)) s ∧ g' = g
  | Re.Seq r1 r2 => λ c g c' g',
      ∃ c1 g1, matches r1 c g c1 g1 ∧ matches r2 c1 g1 c' g'
  | Re.Alt r1 r2 => λ c g c' g', matches r1 c g c' g' ∨ matches r2 c g c' g'
  | Re.Star r1 => iterated (matches r1)
  | Re.Group i r1 => λ c g c' g',
      ∃ g1, matches r1 c g c' g1 ∧
            g' = (i, Str.take (Re.pos c' - Re.pos c) (Re.rest c)) :: g1
  | Re.Bol => λ c g c' g', Re.pos c = 0%nat ∧ c' = c ∧ g' = g
  | Re.WordB => λ c g c' g',
      xorb (Re.word_at (Re.before c)) (Re.word_at (Re.next c)) = true ∧ c' = c ∧ g' = g
  end.

(** A cursor of a text: the text from it on, at its offset. *)
Definition cursor_of (text : string) (c : Re.cursor) : Prop :=
  ∃ pre, text = pre +:+ Re.rest c ∧ Re.pos c = String.length pre.

(** [mid] is what lies between two cursors. *)
Definition between (c c' : Re.cursor) (mid : string) : Prop :=
  Re.rest c = mid +:+ Re.rest c' ∧ Re.pos c' = (Re.pos c + String.length mid)%nat.

(** A string of four digits. *)
Definition four_digit_string (s : string) : bool :=
  Nat.eqb (String.length s) 4 && forallb Str.is_digit (list_ascii_of_string s).

(** A text with a year and a height, and the facts the patterns find
    in it. *)
Definition tower_text : string :=
  "The tower was built in 1889. It is 330 meters tall.".
Definition tower_height : dict :=
  claim "330 meters" "MEASUREMENT" "It is 330 meters tall".
Definition tower_year : dict :=
  claim "1889" "DATE" "The tower was built in 1889".

(** The facts [extract_facts] collects before it removes duplicates:
    those of the named entities, the numeric ones, the dates. *)
Definition candidates (doc : FactExtractor.Doc) (text : string) : list dict :=
  (FactExtractor.entity_facts doc ++ FactExtractor._extract_numeric_facts text
   ++ FactExtractor._extract_date_patterns text)%list.

(** The entity types the extractor can give a fact. *)
Definition extracted_types : list string :=
  (FactExtractor.entity_labels
   ++ ["POPULATION"; "MONEY"; "MEASUREMENT"; "WEIGHT"; "TEMPERATURE"; "DATE"])%list.

(** What spaCy could return for [tower_text]: the year as an entity, and
    the two sentences. *)
Definition tower_doc : FactExtractor.Doc :=
  {| FactExtractor.ents :=
       [{| FactExtractor.ent_text := "1889"; FactExtractor.label_ := "DATE";
           FactExtractor.ent_start := 5; FactExtractor.ent_end := 6 |}];
     FactExtractor.sents :=
       [{| FactExtractor.sent_text := "The tower was built in 1889.";
           FactExtractor.sent_start := 0; FactExtractor.sent_end := 7 |};
        {| FactExtractor.sent_text := "It is 330 meters tall.";
           FactExtractor.sent_start := 7; FactExtractor.sent_end := 13 |}];
     FactExtractor.range_text := λ _ _, "" |}.

Definition tower_nlp (text : string) : result FactExtractor.Doc := Ok tower_doc.

Definition failing_nlp (text : string) : result FactExtractor.Doc :=
  Raise (Exception "ValueError" "Text exceeds maximum length").

Definition tower_entity : dict :=
  claim "1889" "DATE" "The tower was built in 1889.".

(** ** A turn of the conversation *)

Definition user_message (text : string) : Main.Message :=
  {| Main.role := "user"; Main.parts := [text] |}.
Definition model_message (text : string) : Main.Message :=
  {| Main.role := "model"; Main.parts := [text] |}.

(** The conversation and the fact history of a session, empty when the
    session is not known. *)
Definition history_of (app : Main.App) (session_id : string) : list Main.Message :=
  default [] (Main.conversations app !! session_id).
Definition facts_of (app : Main.App) (session_id : string) : list dict :=
  default [] (Detector.session_facts (Main.contradiction_detector app) !! session_id).

(** The objects after a turn that got as far as the given conversation
    and fact history of the session. *)
Definition after_turn (app : Main.App) (session_id : string)
    (history : list Main.Message) (detector : Detector.ContradictionDetector) : Main.App :=
  {| Main.conversations := <[session_id := history]> (Main.conversations app);
     Main.contradiction_detector := detector |}.

(** The report of a turn: the one of the scorer, set to low when there
    are contradictions. *)
Definition adjusted (report : Scorer.Report) (contradictions : list dict) : Scorer.Report :=
  if (0 <? length contradictions)%nat then
    {| Scorer.overall_confidence := "low";
       Scorer.confidence_score := Scorer.confidence_score report;
       Scorer.color := "red";
       Scorer.emoji := "🔴";
       Scorer.summary := "⚠️  " +:+ pretty (length contradictions)
                         +:+ " contradiction(s) detected in conversation";
       Scorer.stats := Scorer.stats report;
       Scorer.detailed_facts := Scorer.detailed_facts report |}
  else report.

(** Services for a turn: a model that answers [tower_text], one that
    raises, a request on session [s], and the objects at start-up. *)
Definition tower_model (history : list Main.Message) (message : string) : result string :=
  Ok tower_text.
Definition blocked_model (history : list Main.Message) (message : string) : result string :=
  Raise (Exception "ValueError" "The response was blocked").
Definition ask_tower : Main.ChatRequest :=
  {| Main.message := "How tall is the tower?"; Main.session_id := Some "s" |}.
Definition at_start : Main.App :=
  {| Main.conversations := ∅; Main.contradiction_detector := Detector.init |}.
(** The objects after a turn on session [s] that left a claim about
    Tokyo. *)
Definition after_tokyo : Main.App :=
  {| Main.conversations :=
       {[ "s" := [user_message "How many people live in Tokyo?";
                  model_message "Tokyo has 14 million people"] ]};
     Main.contradiction_detector := session_with "s" [tokyo_14] |}.

(** A fact of type TIME, which the extractor keeps, and a reference
    source with a page under every title. *)
Definition train_time : dict := claim "10:30" "TIME" "The train leaves at 10:30".
Definition tokyo_everywhere (title : string) : result Verifier.WikipediaPage :=
  Ok tokyo_page.
Definition train_time_checked : dict :=
  checked_fields false "unknown" "Could not verify"
    "https://en.wikipedia.org/wiki/Tokyo" "Tokyo" ∪ train_time.

(** ** The score in binary64 *)

(** The weights of the tiers as doubles, their sum, added from left to
    right, and their average, every operation rounded as binary64 rounds
    it. *)
Definition weight64 (t : Tier) : Q := F64.literal (weight t).

Definition sum_weights64 (facts : list dict) : Q :=
  foldl (λ s f, F64.add s (weight64 (tier_of f))) (F64.literal 0.0) facts.

Definition average_weight64 (facts : list dict) : Q :=
  match facts with
  | [] => F64.literal 0.0
  | _ => F64.round (sum_weights64 facts / F64.round (inject_Z (Z.of_nat (length facts))))
  end.

(** Verification results that carry the given tiers, and what the
    report says of them: the level, and the score as a reduced fraction. *)
Definition with_tiers (tiers : list string) : list dict :=
  (λ tier, dict_of [("confidence", PStr tier)]) <$> tiers.

Definition level_and_score (verified_facts : list dict) : option (string * Q) :=
  match Scorer64.score_response verified_facts with
  | Ok report => Some (Scorer.overall_confidence report, Qred (Scorer.confidence_score report))
  | Raise _ => None
  end.

Definition medium_and_low : list dict := with_tiers ["medium"; "medium"; "medium"; "low"].
Definition high_and_medium : list dict :=
  with_tiers ["high"; "high"; "high"; "medium"; "medium"; "medium"].
Definition mixed_eight : list dict :=
  with_tiers ["high"; "high"; "high"; "high"; "high"; "medium"; "medium"; "unknown"].

(** ** Facts the formatter can mark

    The formatter gives [re.sub] a replacement built from the entity, the
    note and the link of a fact.  [re.sub] inserts a replacement that has
    no backslash as it is; one that has a backslash it expands, or rejects
    with [re.error].  A fact is fit for marking when none of the three has
    a backslash. *)
Definition markup_plain (fact : dict) : bool :=
  plain (Formatter.py_str (dict_get fact "entity"))
  && plain (Formatter.py_str (dict_get_default fact "verification_note" (PStr "")))
  && plain (Formatter.py_str (dict_get fact "wikipedia_url")).

(** The replacements of a span, in HTML and in Markdown. *)
Definition replacements_plain (span : Formatter.Span) : bool :=
  plain (Formatter.html_span span)
  && plain (Formatter.emoji span +:+ " " +:+ Formatter.text span).

(** ** A turn that repeats a claim of value zero

    The model answers with the sentence of [sea_level], spaCy finds no
    entity in it, and the session already holds that claim. *)
Definition sea_text : string := "The town lies 0 meters above sea level".
Definition sea_model (history : list Main.Message) (message : string) : result string :=
  Ok sea_text.
Definition blank_nlp (text : string) : result FactExtractor.Doc :=
  Ok {| FactExtractor.ents := []; FactExtractor.sents := [];
        FactExtractor.range_text := λ _ _, "" |}.
Definition sea_fact : dict := FactExtractor.fact sea_text "0 meters" "MEASUREMENT".
Definition sea_fact_unverified : dict :=
  failure_fields "No Wikipedia page found for 'The'" ∪ sea_fact.
Definition after_sea_level : Main.App :=
  {| Main.conversations := ∅;
     Main.contradiction_detector := session_with "s" [sea_level] |}.

(** * Properties *)

(** Closes a goal [lhs = rhs] between closed terms by evaluation. *)
Ltac by_evaluation :=
  lazymatch goal with
  | |- _ = ?rhs => vm_cast_no_check (eq_refl rhs)
  end.

(** ** The detector and its session store *)

Section DetectorState.
Import Detector.

Lemma reads_only_ret {A} (a : A) : reads_only (mret a).
Proof. intros self. reflexivity. Qed.

Lemma reads_only_lift {A} (r : result A) : reads_only (lift r).
Proof. intros self. reflexivity. Qed.

Lemma reads_only_get : reads_only get_session_facts.
Proof. intros self. reflexivity. Qed.

Lemma reads_only_bind {A B} (m : M A) (f : A → M B) :
  reads_only m → (∀ a, reads_only (f a)) → reads_only (m ≫= f).
Proof.
  intros Hm Hf self. unfold mbind, M_bind.
  specialize (Hm self). destruct (m self) as [[a | e] self']; simpl in Hm; subst self'.
  - apply Hf.
  - reflexivity.
Qed.

Lemma reads_only_for_each {A B} (l : list A) (body : A → B → M B) :
  (∀ x acc, reads_only (body x acc)) → ∀ acc, reads_only (for_each l body acc).
Proof.
  intros Hbody. induction l as [| x l IH]; intros acc; simpl.
  - apply reads_only_ret.
  - apply reads_only_bind; [apply Hbody | intros acc'; apply IH].
Qed.

Create HintDb frame.
#[local] Hint Resolve reads_only_ret reads_only_lift reads_only_get : frame.

Lemma reads_only_detect (session_id : string) (new_facts : list dict) :
  reads_only (detect_contradictions session_id new_facts).
Proof.
  unfold detect_contradictions.
  apply reads_only_bind; [auto with frame |]. intros sf.
  case_bool_decide; [auto with frame |].
  apply reads_only_bind; [auto with frame |]. intros sf'.
  destruct (sf' !! session_id) as [previous_facts |]; [| auto with frame].
  apply reads_only_for_each. intros new_fact acc.
  apply reads_only_for_each. intros old_fact acc'.
  apply reads_only_bind; [auto with frame |].
  intros [c |]; auto with frame.
Qed.

Lemma reads_only_summary (session_id : string) :
  reads_only (get_session_summary session_id).
Proof.
  unfold get_session_summary.
  apply reads_only_bind; [auto with frame |]. intros sf.
  destruct (sf !! session_id); auto with frame.
Qed.

(** A session that is not in the store yields no contradiction. *)
Lemma detect_unknown_session self session_id new_facts :
  session_facts self !! session_id = None →
  detect_contradictions session_id new_facts self = (Ok [], self).
Proof.
  intros Hnone. unfold detect_contradictions, mbind, M_bind, get_session_facts.
  rewrite bool_decide_eq_true_2; [reflexivity |].
  by apply not_elem_of_dom.
Qed.

Lemma clear_session_spec self session_id :
  clear_session session_id self =
  (Ok (), {| session_facts := delete session_id (session_facts self) |}).
Proof.
  unfold clear_session, mbind, M_bind, get_session_facts.
  case_bool_decide as Hin; [reflexivity |].
  apply not_elem_of_dom in Hin. rewrite delete_id by done.
  by destruct self.
Qed.

Lemma add_facts_spec self session_id facts :
  add_facts session_id facts self =
  (Ok (), {| session_facts :=
     <[session_id := (default [] (session_facts self !! session_id) ++ facts)%list]>
       (session_facts self) |}).
Proof.
  unfold add_facts, mbind, M_bind, get_session_facts, set_session_facts.
  case_bool_decide as Hin; simpl.
  - apply not_elem_of_dom in Hin. rewrite Hin, lookup_insert_eq. simpl.
    by rewrite insert_insert_eq.
  - apply elem_of_dom in Hin as [history Hh].
    by rewrite Hh.
Qed.

(** One new fact against a history of one fact. *)
Lemma detect_one self session_id new_fact old_fact :
  session_facts self !! session_id = Some [old_fact] →
  detect_contradictions session_id [new_fact] self = (scan_one new_fact old_fact, self).
Proof.
  intros Hsome. unfold detect_contradictions, mbind, M_bind, get_session_facts.
  rewrite bool_decide_eq_false_2.
  2: { intros Hnot. apply Hnot, elem_of_dom. by eexists. }
  rewrite Hsome. unfold for_each, mbind, M_bind, lift, scan_one.
  destruct (_check_fact_pair new_fact old_fact) as [[c |] | e]; reflexivity.
Qed.

Lemma session_with_lookup session_id facts :
  session_facts (session_with session_id facts) !! session_id = Some facts.
Proof.
  unfold session_with. rewrite add_facts_spec. simpl.
  by rewrite lookup_insert_eq, lookup_empty.
Qed.

End DetectorState.

Section DetectorClaims.
Import Detector.

(** C10.  [detect_contradictions] only reads the detector: whatever the
    session id and the new facts, and whether the call returns or raises,
    the object after the call, hence [session_facts] for every session, is
    the object before it.  The same holds for [get_session_summary]. *)
Theorem detect_contradictions_reads_only
    (self : ContradictionDetector) (session_id : string) (new_facts : list dict) :
  (detect_contradictions session_id new_facts self).2 = self ∧
  session_facts (detect_contradictions session_id new_facts self).2 = session_facts self ∧
  (get_session_summary session_id self).2 = self.
Proof.
  split; [apply reads_only_detect |].
  split; [by rewrite reads_only_detect | apply reads_only_summary].
Qed.

(** [add_facts] and [clear_session] are the methods that do change the
    history. *)
Lemma add_facts_mutates :
  session_facts (add_facts "s" [tokyo_14] init).2 !! "s" = Some [tokyo_14] ∧
  session_facts init !! "s" = None.
Proof. split; [apply session_with_lookup | apply lookup_empty]. Qed.

Lemma clear_session_mutates :
  session_facts (clear_session "s" (session_with "s" [tokyo_14])).2 !! "s" = None ∧
  session_facts (session_with "s" [tokyo_14]) !! "s" = Some [tokyo_14].
Proof.
  split; [| apply session_with_lookup].
  rewrite clear_session_spec. apply lookup_delete_eq.
Qed.

(** C7.  [clear_session] returns, removes the history of its session and
    no other, and a [detect_contradictions] on that session afterwards
    returns the empty list, as it does on a detector that never saw the
    session. *)
Theorem clear_then_detect
    (self : ContradictionDetector) (session_id : string) (new_facts : list dict) :
  let cleared := (clear_session session_id self).2 in
  (clear_session session_id self).1 = Ok () ∧
  session_facts cleared !! session_id = None ∧
  (∀ other, other ≠ session_id →
     session_facts cleared !! other = session_facts self !! other) ∧
  detect_contradictions session_id new_facts cleared = (Ok [], cleared) ∧
  (detect_contradictions session_id new_facts cleared).1
  = (detect_contradictions session_id new_facts init).1.
Proof.
  rewrite clear_session_spec. simpl.
  assert (Hgone : delete session_id (session_facts self) !! session_id = None)
    by apply lookup_delete_eq.
  split; [reflexivity |]. split; [exact Hgone |].
  split; [intros other Hne; by apply lookup_delete_ne |].
  rewrite !detect_unknown_session; [done | apply lookup_empty | exact Hgone].
Qed.

Lemma scan_tokyo_38 :
  scan_one tokyo_38 tokyo_14 =
  Ok [numeric_contradiction "high" "Tokyo has 14 million people"
        "Tokyo has 38 million people" "14 million people" "38 million people"
        "63.2% difference"].
Proof. by_evaluation. Qed.

(** The history contradicts the new claim before the clear, and no
    longer after it. *)
Lemma clear_forgets_tokyo :
  (detect_contradictions "s" [tokyo_38] (session_with "s" [tokyo_14])).1 =
  Ok [numeric_contradiction "high" "Tokyo has 14 million people"
        "Tokyo has 38 million people" "14 million people" "38 million people"
        "63.2% difference"] ∧
  (detect_contradictions "s" [tokyo_38]
     (clear_session "s" (session_with "s" [tokyo_14])).2).1 = Ok [].
Proof.
  split.
  - rewrite (detect_one _ _ _ tokyo_14) by apply session_with_lookup.
    apply scan_tokyo_38.
  - rewrite clear_session_spec. simpl.
    rewrite detect_unknown_session; [done | apply lookup_delete_eq].
Qed.

Lemma scan_tokyo_paris :
  scan_one paris_2 tokyo_14 =
  Ok [numeric_contradiction "high" "Tokyo has 14 million people"
        "Paris has 2 million people" "14 million people" "2 million people"
        "85.7% difference"].
Proof. by_evaluation. Qed.

Lemma same_subject_tokyo_paris :
  _same_subject (PStr "Tokyo has 14 million people")
                (PStr "Paris has 2 million people") = Ok true.
Proof. by_evaluation. Qed.

(** C1, as stated, fails: with "Tokyo has 14 million people" in the
    history, the new claim "Paris has 2 million people" does not yield the
    empty list. *)
Lemma tokyo_paris_not_empty :
  (detect_contradictions "s" [paris_2] (session_with "s" [tokyo_14])).1 ≠ Ok [].
Proof.
  rewrite (detect_one _ _ _ tokyo_14) by apply session_with_lookup.
  rewrite scan_tokyo_paris. discriminate.
Qed.

(** C1, amended.  The two sentences share three of their first five
    lower-cased words (has, million, people), so the subject heuristic
    passes, and on any session whose history is the Tokyo claim the Paris
    claim yields one numeric contradiction of severity high. *)
Theorem tokyo_paris_one_contradiction
    (self : ContradictionDetector) (session_id : string) :
  session_facts self !! session_id = Some [tokyo_14] →
  _same_subject (PStr "Tokyo has 14 million people")
                (PStr "Paris has 2 million people") = Ok true ∧
  detect_contradictions session_id [paris_2] self =
  (Ok [numeric_contradiction "high" "Tokyo has 14 million people"
         "Paris has 2 million people" "14 million people" "2 million people"
         "85.7% difference"], self).
Proof.
  intros Hhistory. split; [apply same_subject_tokyo_paris |].
  rewrite (detect_one _ _ _ tokyo_14) by exact Hhistory.
  by rewrite scan_tokyo_paris.
Qed.

Lemma tokyo_paris_one_contradiction_witness :
  session_facts (session_with "s" [tokyo_14]) !! "s" = Some [tokyo_14] ∧
  _same_subject (PStr "Tokyo has 14 million people")
                (PStr "Paris has 2 million people") = Ok true ∧
  detect_contradictions "s" [paris_2] (session_with "s" [tokyo_14]) =
  (Ok [numeric_contradiction "high" "Tokyo has 14 million people"
         "Paris has 2 million people" "14 million people" "2 million people"
         "85.7% difference"], session_with "s" [tokyo_14]).
Proof.
  split; [by_evaluation |].
  apply (tokyo_paris_one_contradiction (session_with "s" [tokyo_14]) "s").
  by_evaluation.
Defined.

End DetectorClaims.

Section NumericRule.
Import Detector.

(** The pairs [_check_fact_pair] hands to the numeric rule are those of
    the five types of its list. *)
Lemma numeric_types_dispatch fact1 fact2 t :
  t ∈ numeric_types →
  fact1 !! "entity_type" = Some (PStr t) →
  fact2 !! "entity_type" = Some (PStr t) →
  _check_fact_pair fact1 fact2 = _check_numeric_contradiction fact1 fact2.
Proof.
  intros Ht H1 H2. unfold _check_fact_pair, dict_item. rewrite H1, H2.
  unfold numeric_types in Ht.
  repeat (apply elem_of_cons in Ht as [-> | Ht]); try reflexivity.
  by apply elem_of_nil in Ht.
Qed.

(** A pair of WEIGHT facts, or of TEMPERATURE facts, matches none of
    the three rules. *)
Lemma weight_temperature_dispatch fact1 fact2 t :
  t = "WEIGHT" ∨ t = "TEMPERATURE" →
  fact1 !! "entity_type" = Some (PStr t) →
  fact2 !! "entity_type" = Some (PStr t) →
  _check_fact_pair fact1 fact2 = Ok None.
Proof.
  intros Ht H1 H2. unfold _check_fact_pair, dict_item. rewrite H1, H2.
  destruct Ht as [-> | ->]; reflexivity.
Qed.

(** The numeric rule on a pair whose values parse and whose sentences
    pass the subject heuristic: the relative difference in percent, a
    contradiction when it exceeds 20, severity high when it exceeds 50 and
    medium otherwise; and a [ZeroDivisionError] when the larger value is
    zero. *)
Lemma numeric_rule fact1 fact2 entity1 entity2 sentence1 sentence2 a b :
  fact1 !! "entity" = Some entity1 → fact2 !! "entity" = Some entity2 →
  fact1 !! "sentence" = Some sentence1 → fact2 !! "sentence" = Some sentence2 →
  _extract_number entity1 = Ok (Some a) → _extract_number entity2 = Ok (Some b) →
  _same_subject sentence1 sentence2 = Ok true →
  _check_numeric_contradiction fact1 fact2 =
  if Qeq_bool (Qmax a b) 0 then Raise ZeroDivisionError
  else
    let diff_percent := (Qabs (a - b) / Qmax a b * 100)%Q in
    if Num.ltb 20%Q diff_percent then
      Ok (Some (dict_of
        [("type", PStr "numeric_contradiction");
         ("severity", PStr (if Num.ltb 50%Q diff_percent then "high" else "medium"));
         ("previous_claim", sentence2);
         ("current_claim", sentence1);
         ("previous_value", entity2);
         ("current_value", entity1);
         ("difference", PStr (Num.format_1f diff_percent +:+ "% difference"));
         ("message", PStr "Contradiction detected: Different values for the same claim")]))
    else Ok None.
Proof.
  intros He1 He2 Hs1 Hs2 Ha Hb Hsame.
  unfold _check_numeric_contradiction, dict_item.
  rewrite He1, He2, Hs1, Hs2. simpl. rewrite Ha. simpl. rewrite Hb. simpl.
  rewrite Hsame. simpl. unfold Num.div.
  destruct (Qeq_bool (Qmax a b) 0); reflexivity.
Qed.

(** The example of the specification: 14 million then 38 million. *)
Lemma tokyo_14_then_38 self session_id :
  session_facts self !! session_id = Some [tokyo_14] →
  detect_contradictions session_id [tokyo_38] self =
  (Ok [numeric_contradiction "high" "Tokyo has 14 million people"
         "Tokyo has 38 million people" "14 million people" "38 million people"
         "63.2% difference"], self).
Proof.
  intros Hhistory. rewrite (detect_one _ _ _ tokyo_14) by exact Hhistory.
  by rewrite scan_tokyo_38.
Qed.

Lemma sea_level_parses : _extract_number (PStr "0 meters") = Ok (Some (0 * 1)%Q).
Proof. by_evaluation. Qed.

Lemma scan_sea_level : scan_one sea_level sea_level = Raise ZeroDivisionError.
Proof. by_evaluation. Qed.

(** C6, where the code departs from it.  Two MEASUREMENT claims "0
    meters" in the same sentence both parse to zero and pass the subject
    heuristic; the relative difference divides by their maximum, and the
    detector raises [ZeroDivisionError] instead of reporting that they do
    not differ. *)
Theorem zero_values_raise :
  _extract_number (PStr "0 meters") = Ok (Some (0 * 1)%Q) ∧
  _same_subject (PStr "The town lies 0 meters above sea level")
                (PStr "The town lies 0 meters above sea level") = Ok true ∧
  _check_numeric_contradiction sea_level sea_level = Raise ZeroDivisionError ∧
  (detect_contradictions "s" [sea_level] (session_with "s" [sea_level])).1
  = Raise ZeroDivisionError.
Proof.
  split; [apply sea_level_parses |]. split; [by_evaluation |]. split; [by_evaluation |].
  rewrite (detect_one _ _ _ sea_level) by apply session_with_lookup.
  apply scan_sea_level.
Qed.

Lemma scan_statue : scan_one statue_50kg statue_10kg = Ok [].
Proof. by_evaluation. Qed.

Lemma scan_oven : scan_one oven_300 oven_100 = Ok [].
Proof. by_evaluation. Qed.

(** C2, where the code departs from it.  WEIGHT and TEMPERATURE are not
    in the list of types [_check_fact_pair] sends to the numeric rule: two
    claims about the same statue, 10 kg then 50 kg, and two about the same
    oven, 100 then 300 degrees, yield no contradiction, although the
    numeric rule applied to either pair reports one of severity high. *)
Theorem weight_and_temperature_not_compared :
  (detect_contradictions "s" [statue_50kg] (session_with "s" [statue_10kg])).1 = Ok [] ∧
  _check_numeric_contradiction statue_50kg statue_10kg =
  Ok (Some (numeric_contradiction "high" "The statue weighs 10 kg"
              "The statue weighs 50 kg" "10 kg" "50 kg" "80.0% difference")) ∧
  (detect_contradictions "s" [oven_300] (session_with "s" [oven_100])).1 = Ok [] ∧
  _check_numeric_contradiction oven_300 oven_100 =
  Ok (Some (numeric_contradiction "high" "The oven reaches 100 degrees"
              "The oven reaches 300 degrees" "100 degrees" "300 degrees"
              "66.7% difference")).
Proof.
  split.
  { rewrite (detect_one _ _ _ statue_10kg) by apply session_with_lookup.
    apply scan_statue. }
  split; [by_evaluation |].
  split; [| by_evaluation].
  rewrite (detect_one _ _ _ oven_100) by apply session_with_lookup.
  apply scan_oven.
Qed.

End NumericRule.

(** ** Rounding to binary64 *)

Section Binary64.
Import F64.
Local Open Scope Q_scope.

Lemma pow2_pos e : 0 < 2 ^ e.
Proof. apply Qpower_0_lt. reflexivity. Qed.

Lemma pow2_Z (n : Z) : (0 <= n)%Z -> inject_Z (2 ^ n) == 2 ^ n.
Proof. intros Hn. apply (Zpower_Qpower 2 n Hn). Qed.

Lemma pow2_plus a b : 2 ^ (a + b) == 2 ^ a * 2 ^ b.
Proof. apply Qpower_plus. discriminate. Qed.

Lemma pow2_le a b : (a <= b)%Z -> 2 ^ a <= 2 ^ b.
Proof. intros H. apply Qpower_le_compat_l; [exact H | discriminate]. Qed.

Lemma pow2_lt_inv a b : 2 ^ a < 2 ^ b -> (a < b)%Z.
Proof. intros H. apply (Qpower_lt_compat_l_inv 2); [exact H | reflexivity]. Qed.

(** [ilog2 q] is the exponent of the binade of [q]. *)
Lemma ilog2_spec q : 0 < q -> 2 ^ ilog2 q <= q /\ q < 2 ^ (ilog2 q + 1).
Proof.
  intros Hq. unfold ilog2. destruct (Qle_bool 1 q) eqn:H1.
  - apply Qle_bool_iff in H1.
    assert (1 <= Qfloor q)%Z as Hn.
    { rewrite <- (Qfloor_Z 1). apply Qfloor_resp_le. exact H1. }
    destruct (Z.log2_spec (Qfloor q)) as [Hlo Hhi]; [lia |].
    pose proof (Z.log2_nonneg (Qfloor q)) as Hnn.
    split.
    + rewrite <- pow2_Z by exact Hnn.
      apply Qle_trans with (inject_Z (Qfloor q)); [| apply Qfloor_le].
      rewrite <- Zle_Qle. exact Hlo.
    + rewrite <- pow2_Z by lia.
      apply Qlt_le_trans with (inject_Z (Qfloor q + 1)); [apply Qlt_floor |].
      rewrite <- Zle_Qle. lia.
  - assert (q < 1) as Hlt.
    { apply Qnot_le_lt. intros H. apply Qle_bool_iff in H. congruence. }
    set (x := / q). set (c := Qceiling x).
    assert (q * x == 1) as Hqx.
    { unfold x. apply Qmult_inv_r. intros H0. rewrite H0 in Hq. exact (Qlt_irrefl 0 Hq). }
    assert (0 < x) as Hx by (apply Qinv_lt_0_compat; exact Hq).
    assert (1 < x) as Hx1.
    { unfold x. apply Qlt_shift_inv_l; [exact Hq |]. lra. }
    assert (1 < c)%Z as Hc.
    { pose proof (Qle_ceiling x) as H. fold c in H.
      rewrite Zlt_Qlt. change (inject_Z 1) with 1. lra. }
    destruct (Z.log2_up_spec c Hc) as [Hlo Hhi].
    pose proof (Z.log2_up_pos c Hc) as Hpos.
    set (U := Z.log2_up c) in *.
    split.
    + rewrite Qpower_opp. apply Qle_shift_inv_r; [apply pow2_pos |].
      rewrite <- Hqx. apply Qmult_le_l; [exact Hq |].
      apply Qle_trans with (inject_Z c); [apply Qle_ceiling |].
      rewrite <- pow2_Z by lia. rewrite <- Zle_Qle. exact Hhi.
    + replace (- U + 1)%Z with (- (U - 1))%Z by lia.
      rewrite Qpower_opp. apply Qlt_shift_inv_l; [apply pow2_pos |].
      rewrite <- Hqx. apply Qmult_lt_l; [exact Hq |].
      apply Qle_lt_trans with (inject_Z (c - 1)); [| apply Qceiling_lt].
      rewrite <- pow2_Z by lia. rewrite <- Zle_Qle.
      replace (U - 1)%Z with (Z.pred U) by lia. lia.
Qed.

Lemma ilog2_mono x y : 0 < x -> x <= y -> (ilog2 x <= ilog2 y)%Z.
Proof.
  intros Hx Hxy.
  destruct (ilog2_spec x Hx) as [Hlo _].
  destruct (ilog2_spec y) as [_ Hhi]; [lra |].
  assert (ilog2 x < ilog2 y + 1)%Z; [| lia].
  apply pow2_lt_inv. lra.
Qed.

Lemma round_half_even_mono x y : x <= y -> (Num.round_half_even x <= Num.round_half_even y)%Z.
Proof.
  intros Hxy.
  pose proof (Qfloor_resp_le x y Hxy) as Hf.
  pose proof (Qfloor_le x) as Hx1. pose proof (Qlt_floor x) as Hx2.
  pose proof (Qfloor_le y) as Hy1. pose proof (Qlt_floor y) as Hy2.
  rewrite inject_Z_plus in Hx2, Hy2. change (inject_Z 1) with 1 in Hx2, Hy2.
  unfold Num.round_half_even.
  destruct (Z.eq_dec (Qfloor x) (Qfloor y)) as [Heq | Hne].
  - rewrite <- Heq in *.
    destruct (Qcompare_spec (x - inject_Z (Qfloor x)) (1 # 2)) as [Hx | Hx | Hx];
      destruct (Qcompare_spec (y - inject_Z (Qfloor x)) (1 # 2)) as [Hy | Hy | Hy];
      try destruct (Z.even (Qfloor x)); try lia; lra.
  - assert (Qfloor x + 1 <= Qfloor y)%Z as Hlt by lia.
    destruct (Qcompare (x - inject_Z (Qfloor x)) (1 # 2));
      destruct (Qcompare (y - inject_Z (Qfloor y)) (1 # 2));
      try destruct (Z.even (Qfloor x)); try destruct (Z.even (Qfloor y)); lia.
Qed.

Lemma round_half_even_Z z : Num.round_half_even (inject_Z z) = z.
Proof.
  unfold Num.round_half_even. rewrite Qfloor_Z.
  destruct (Qcompare_spec (inject_Z z - inject_Z z) (1 # 2)) as [H | H | H];
    [lra | reflexivity | lra].
Qed.

Lemma round_half_even_comp x y : x == y -> Num.round_half_even x = Num.round_half_even y.
Proof.
  intros H. unfold Num.round_half_even. rewrite (Qfloor_comp x y H).
  assert ((x - inject_Z (Qfloor y) ?= 1 # 2) = (y - inject_Z (Qfloor y) ?= 1 # 2)) as ->.
  { apply Qcompare_comp; [rewrite H |]; reflexivity. }
  reflexivity.
Qed.

Lemma round_half_even_between (q : Q) (a b : Z) :
  inject_Z a <= q -> q <= inject_Z b -> (a <= Num.round_half_even q <= b)%Z.
Proof.
  intros Ha Hb. split.
  - rewrite <- (round_half_even_Z a). apply round_half_even_mono. exact Ha.
  - rewrite <- (round_half_even_Z b). apply round_half_even_mono. exact Hb.
Qed.

(** The mantissa: what is rounded lies between 2^52 and 2^53. *)
Lemma scaled_bounds q :
  0 < q -> inject_Z (2 ^ 52) <= q / ulp q /\ q / ulp q <= inject_Z (2 ^ 53).
Proof.
  intros Hq. destruct (ilog2_spec q Hq) as [Hlo Hhi]. unfold ulp.
  pose proof (pow2_pos (ilog2 q - 52)) as Hpos.
  assert (2 ^ ilog2 q == inject_Z (2 ^ 52) * 2 ^ (ilog2 q - 52)) as H52.
  { rewrite pow2_Z by lia. rewrite <- pow2_plus. apply Qpower_comp; [reflexivity | lia]. }
  assert (2 ^ (ilog2 q + 1) == inject_Z (2 ^ 53) * 2 ^ (ilog2 q - 52)) as H53.
  { rewrite pow2_Z by lia. rewrite <- pow2_plus. apply Qpower_comp; [reflexivity | lia]. }
  split.
  - apply Qle_shift_div_l; [exact Hpos |]. rewrite <- H52. exact Hlo.
  - apply Qle_shift_div_r; [exact Hpos |]. rewrite <- H53. lra.
Qed.

Lemma round_pos_bounds q :
  0 < q -> 2 ^ ilog2 q <= round_pos q /\ round_pos q <= 2 ^ (ilog2 q + 1).
Proof.
  intros Hq. destruct (scaled_bounds q Hq) as [Hlo Hhi].
  destruct (round_half_even_between _ _ _ Hlo Hhi) as [Hm1 Hm2].
  unfold round_pos, ulp in *.
  pose proof (pow2_pos (ilog2 q - 52)) as Hpos.
  assert (2 ^ ilog2 q == inject_Z (2 ^ 52) * 2 ^ (ilog2 q - 52)) as H52.
  { rewrite pow2_Z by lia. rewrite <- pow2_plus. apply Qpower_comp; [reflexivity | lia]. }
  assert (2 ^ (ilog2 q + 1) == inject_Z (2 ^ 53) * 2 ^ (ilog2 q - 52)) as H53.
  { rewrite pow2_Z by lia. rewrite <- pow2_plus. apply Qpower_comp; [reflexivity | lia]. }
  rewrite H52, H53. split.
  - apply Qmult_le_compat_r; [| lra]. rewrite <- Zle_Qle. exact Hm1.
  - apply Qmult_le_compat_r; [| lra]. rewrite <- Zle_Qle. exact Hm2.
Qed.

Lemma round_pos_mono x y : 0 < x -> x <= y -> round_pos x <= round_pos y.
Proof.
  intros Hx Hxy. assert (0 < y) as Hy by lra.
  pose proof (ilog2_mono x y Hx Hxy) as Hi.
  destruct (Z.eq_dec (ilog2 x) (ilog2 y)) as [Heq | Hne].
  - unfold round_pos, ulp. rewrite Heq.
    pose proof (pow2_pos (ilog2 y - 52)) as Hpos.
    apply Qmult_le_compat_r; [| lra]. rewrite <- Zle_Qle.
    apply round_half_even_mono.
    apply Qle_shift_div_l; [exact Hpos |].
    unfold Qdiv. rewrite <- Qmult_assoc, (Qmult_comm (/ _)), Qmult_inv_r by lra.
    lra.
  - destruct (round_pos_bounds x Hx) as [_ Hhi].
    destruct (round_pos_bounds y Hy) as [Hlo _].
    apply Qle_trans with (2 ^ (ilog2 x + 1)); [exact Hhi |].
    apply Qle_trans with (2 ^ ilog2 y); [| exact Hlo].
    apply pow2_le. lia.
Qed.

Lemma round_nonneg q : 0 <= q -> 0 <= round q.
Proof.
  intros Hq. unfold round. destruct (Qcompare_spec q 0) as [H | H | H].
  - lra.
  - lra.
  - destruct (round_pos_bounds q H) as [Hlo _].
    pose proof (pow2_pos (ilog2 q)). lra.
Qed.

Lemma round_mono x y : 0 <= x -> x <= y -> round x <= round y.
Proof.
  intros Hx Hxy. unfold round at 1. destruct (Qcompare_spec x 0) as [H | H | H].
  - apply round_nonneg. lra.
  - lra.
  - unfold round. destruct (Qcompare_spec y 0) as [H' | H' | H']; [lra | lra |].
    apply round_pos_mono; assumption.
Qed.

Lemma pow2_le_inv a b : 2 ^ a <= 2 ^ b -> (a <= b)%Z.
Proof. intros H. apply (Qpower_le_compat_l_inv 2); [exact H | reflexivity]. Qed.

Lemma inv_unique u v : u * v == 1 -> / u == v.
Proof.
  intros H.
  assert (~ u == 0) as Hnz.
  { intros H0. rewrite H0 in H. rewrite Qmult_0_l in H. discriminate. }
  rewrite <- (Qmult_1_l (/ u)), <- H. field. exact Hnz.
Qed.

(** The integers up to 2^53 are doubles. *)
Lemma round_Z (k : Z) : (0 <= k <= 2 ^ 53)%Z -> round (inject_Z k) == inject_Z k.
Proof.
  intros [Hk0 Hk53].
  destruct (Z.eq_dec k 0%Z) as [-> | Hne]; [reflexivity |].
  assert (0 < inject_Z k) as Hq.
  { change 0 with (inject_Z 0). rewrite <- Zlt_Qlt. lia. }
  unfold round. destruct (Qcompare_spec (inject_Z k) 0) as [H | H | _]; [lra | lra |].
  destruct (ilog2_spec (inject_Z k) Hq) as [Hlo Hhi].
  set (i := ilog2 (inject_Z k)) in *.
  assert (0 <= i)%Z as Hi0.
  { assert (0 < i + 1)%Z; [| lia]. apply pow2_lt_inv.
    apply Qle_lt_trans with (inject_Z k); [| exact Hhi].
    change (2 ^ 0) with (inject_Z 1). rewrite <- Zle_Qle. lia. }
  assert (i <= 53)%Z as Hi53.
  { apply pow2_le_inv. apply Qle_trans with (inject_Z k); [exact Hlo |].
    rewrite <- pow2_Z by lia. rewrite <- Zle_Qle. exact Hk53. }
  destruct (Z.eq_dec i 53%Z) as [Heq | Hlt].
  - assert (k = 2 ^ 53)%Z as ->.
    { rewrite Heq in Hlo. rewrite <- pow2_Z in Hlo by lia.
      rewrite <- Zle_Qle in Hlo. lia. }
    apply Qeq_bool_eq. vm_compute. reflexivity.
  - unfold round_pos, ulp. fold i.
    assert (2 ^ (i - 52) * inject_Z (2 ^ (52 - i)) == 1) as Hinv.
    { rewrite pow2_Z by lia. rewrite <- pow2_plus.
      replace (i - 52 + (52 - i))%Z with 0%Z by lia. reflexivity. }
    assert (inject_Z k / 2 ^ (i - 52) == inject_Z (k * 2 ^ (52 - i))) as Hscaled.
    { rewrite inject_Z_mult. unfold Qdiv. rewrite (inv_unique _ _ Hinv). reflexivity. }
    rewrite (round_half_even_comp _ _ Hscaled), round_half_even_Z.
    rewrite inject_Z_mult, <- Qmult_assoc, (Qmult_comm (inject_Z (2 ^ (52 - i)))), Hinv.
    apply Qmult_1_r.
Qed.

Lemma Qle_bool_comp a x y : x == y -> Qle_bool a x = Qle_bool a y.
Proof.
  intros H. destruct (Qle_bool a y) eqn:Hy.
  - apply Qle_bool_iff. apply Qle_bool_iff in Hy. rewrite H. exact Hy.
  - destruct (Qle_bool a x) eqn:Hx; [| reflexivity].
    apply Qle_bool_iff in Hx. rewrite H in Hx. apply Qle_bool_iff in Hx. congruence.
Qed.

Lemma ilog2_comp x y : x == y -> ilog2 x = ilog2 y.
Proof.
  intros H. unfold ilog2. rewrite (Qle_bool_comp 1 x y H).
  rewrite (Qfloor_comp x y H).
  assert (/ x == / y) as Hinv by (rewrite H; reflexivity).
  rewrite (Qceiling_comp _ _ Hinv). reflexivity.
Qed.

Lemma round_pos_comp x y : x == y -> round_pos x == round_pos y.
Proof.
  intros H. unfold round_pos, ulp. rewrite (ilog2_comp x y H).
  assert (x / 2 ^ (ilog2 y - 52) == y / 2 ^ (ilog2 y - 52)) as Hs by (rewrite H; reflexivity).
  rewrite (round_half_even_comp _ _ Hs). reflexivity.
Qed.

Lemma round_comp x y : x == y -> round x == round y.
Proof.
  intros H. unfold round.
  assert ((x ?= 0) = (y ?= 0)) as -> by (apply Qcompare_comp; [exact H | reflexivity]).
  destruct (y ?= 0).
  - reflexivity.
  - apply Qopp_comp. apply round_pos_comp. rewrite H. reflexivity.
  - apply round_pos_comp. exact H.
Qed.

(** A number with a mantissa of at most 53 bits is a double. *)
Lemma round_dyadic (k e : Z) :
  (0 <= k <= 2 ^ 53)%Z -> round (inject_Z k * 2 ^ e) == inject_Z k * 2 ^ e.
Proof.
  intros [Hk0 Hk53]. pose proof (pow2_pos e) as He.
  destruct (Z.eq_dec k 0%Z) as [-> | Hne].
  { rewrite (round_comp _ 0) by apply Qmult_0_l. rewrite Qmult_0_l. reflexivity. }
  set (v := inject_Z k * 2 ^ e).
  assert (1 <= inject_Z k) as Hk1.
  { change 1 with (inject_Z 1). rewrite <- Zle_Qle. lia. }
  assert (0 < v) as Hv.
  { unfold v. apply Qlt_le_trans with (1 * 2 ^ e); [lra |].
    apply Qmult_le_compat_r; lra. }
  unfold round. destruct (Qcompare_spec v 0) as [H | H | _]; [lra | lra |].
  destruct (ilog2_spec v Hv) as [Hlo Hhi].
  set (i := ilog2 v) in *.
  assert (inject_Z k <= 2 ^ 53) as Hk53'.
  { rewrite <- pow2_Z by lia. rewrite <- Zle_Qle. exact Hk53. }
  assert (i <= e + 53)%Z as Hi.
  { apply pow2_le_inv. apply Qle_trans with v; [exact Hlo |].
    rewrite pow2_plus, (Qmult_comm (2 ^ e)). unfold v.
    apply Qmult_le_compat_r; lra. }
  assert (e <= i)%Z as Hi'.
  { assert (e < i + 1)%Z; [| lia]. apply pow2_lt_inv.
    apply Qle_lt_trans with v; [| exact Hhi].
    unfold v. rewrite <- (Qmult_1_l (2 ^ e)) at 1.
    apply Qmult_le_compat_r; lra. }
  unfold round_pos, ulp. fold i.
  assert (2 ^ (i - 52) * 2 ^ (52 - i) == 1) as Hinv.
  { rewrite <- pow2_plus. replace (i - 52 + (52 - i))%Z with 0%Z by lia. reflexivity. }
  assert (v / 2 ^ (i - 52) == inject_Z k * 2 ^ (e + (52 - i))) as Hscaled.
  { unfold Qdiv. rewrite (inv_unique _ _ Hinv). unfold v.
    rewrite <- Qmult_assoc, <- pow2_plus. reflexivity. }
  destruct (Z.eq_dec i (e + 53)%Z) as [Heq | Hlt].
  - assert (inject_Z k == 2 ^ 53) as Hk.
    { apply Qle_antisym; [exact Hk53' |].
      apply Qmult_lt_0_le_reg_r with (2 ^ e); [exact He |].
      rewrite <- pow2_plus. replace (53 + e)%Z with i by lia. exact Hlo. }
    assert (v / 2 ^ (i - 52) == inject_Z (2 ^ 52)) as Hscaled'.
    { rewrite Hscaled, Hk, <- pow2_plus, pow2_Z by lia.
      replace (53 + (e + (52 - i)))%Z with 52%Z by lia. reflexivity. }
    rewrite (round_half_even_comp _ _ Hscaled'), round_half_even_Z.
    unfold v. rewrite Hk, pow2_Z, <- !pow2_plus by lia.
    replace (52 + (i - 52))%Z with (53 + e)%Z by lia. reflexivity.
  - assert (v / 2 ^ (i - 52) == inject_Z (k * 2 ^ (e + (52 - i)))) as Hscaled'.
    { rewrite Hscaled, inject_Z_mult, pow2_Z by lia. reflexivity. }
    rewrite (round_half_even_comp _ _ Hscaled'), round_half_even_Z.
    rewrite inject_Z_mult, pow2_Z by lia. unfold v.
    rewrite <- Qmult_assoc, <- pow2_plus.
    replace (e + (52 - i) + (i - 52))%Z with e by lia. reflexivity.
Qed.

(** Rounding a double changes nothing. *)
Lemma round_round q : 0 <= q -> round (round q) == round q.
Proof.
  intros Hq. unfold round at 2 3.
  destruct (Qcompare_spec q 0) as [H | H | H]; [reflexivity | lra |].
  unfold round_pos. apply round_dyadic.
  pose proof (scaled_bounds q H) as [Hlo Hhi].
  destruct (round_half_even_between _ _ _ Hlo Hhi) as [Hm1 Hm2]. lia.
Qed.

End Binary64.

(** ** The confidence scorer *)

Section ScorerClaims.
Import Scorer.

Lemma points_weight fact : points fact = weight (tier_of fact).
Proof.
  unfold points, tier_of.
  destruct (py_eq _ (PStr "high")); [reflexivity |].
  destruct (py_eq _ (PStr "medium")); [reflexivity |].
  destruct (py_eq _ (PStr "low")); reflexivity.
Qed.

Lemma total_points_sum facts : ∀ acc,
  (foldl (λ total_points fact, total_points + points fact) acc facts
   == acc + sum_weights facts)%Q.
Proof.
  induction facts as [| fact facts IH]; intros acc; simpl.
  - ring.
  - rewrite IH, points_weight. ring.
Qed.

Lemma inject_length_cons {A} (x : A) (l : list A) :
  (inject_Z (Z.of_nat (length (x :: l))) == inject_Z (Z.of_nat (length l)) + 1)%Q.
Proof.
  simpl length. rewrite Nat2Z.inj_succ, <- Z.add_1_r, inject_Z_plus. reflexivity.
Qed.

Lemma inject_length_pos {A} (x : A) (l : list A) :
  (0 < inject_Z (Z.of_nat (length (x :: l))))%Q.
Proof.
  rewrite inject_length_cons.
  assert (0 <= inject_Z (Z.of_nat (length l)))%Q; [| lra].
  change 0%Q with (inject_Z 0). rewrite <- Zle_Qle. lia.
Qed.

(** The unrounded score: it never raises, and is the average weight. *)
Lemma calculate_confidence_score_spec facts :
  ∃ score, _calculate_confidence_score (_calculate_stats facts) facts = Ok score ∧
           (score == average_weight facts)%Q.
Proof.
  destruct facts as [| fact facts].
  - exists 0.0%Q. split; reflexivity.
  - eexists. split.
    + unfold _calculate_confidence_score.
      change (stats_item (_calculate_stats (fact :: facts)) "total_facts")
        with (Ok (length (fact :: facts))).
      unfold mbind, result_bind. simpl Nat.eqb. cbv iota.
      unfold Num.div. reflexivity.
    + unfold average_weight. rewrite total_points_sum. field.
      pose proof (inject_length_pos fact facts). lra.
Qed.

(** The code counts the low tier as the specification does. *)
Lemma count_low facts :
  count (confidence_is "low") facts = count_tier Low facts.
Proof.
  unfold count, count_tier. f_equal. apply List.filter_ext. intros f.
  unfold confidence_is, tier_of, dict_get, dict_get_default, py_eq.
  destruct (f !! "confidence") as [[| b | s] |]; simpl; try reflexivity.
  repeat case_bool_decide; simplify_eq; try reflexivity; try done.
Qed.

Lemma half_lt (total low_count : nat) :
  Num.ltb (inject_Z (Z.of_nat total) / 2) (inject_Z (Z.of_nat low_count))
  = (total <? 2 * low_count)%nat.
Proof.
  unfold Num.ltb, Qle_bool, Qdiv, Qmult, Qinv, inject_Z. simpl.
  destruct (Nat.ltb_spec total (low_count + (low_count + 0))) as [Hlt | Hge].
  - apply negb_true_iff, Z.leb_gt. lia.
  - apply negb_false_iff, Z.leb_le. lia.
Qed.

Lemma determine_confidence_level_spec facts score :
  ∃ color emoji,
    _determine_confidence_level score (_calculate_stats facts)
    = Ok (level_decision (count_tier Low facts) (length facts) score, color, emoji).
Proof.
  unfold _determine_confidence_level.
  change (stats_item (_calculate_stats facts) "low_confidence")
    with (Ok (count (confidence_is "low") facts)).
  change (stats_item (_calculate_stats facts) "total_facts")
    with (Ok (length facts)).
  unfold mbind, result_bind, Num.div.
  change (Qeq_bool 2 0) with false. cbv iota.
  rewrite half_lt, count_low. unfold level_decision.
  change HIGH_CONFIDENCE_THRESHOLD with 0.8%Q.
  change MEDIUM_CONFIDENCE_THRESHOLD with 0.5%Q.
  destruct (length facts <? 2 * count_tier Low facts)%nat; [by eexists _, _ |].
  destruct (Qle_bool 0.8 score); [by eexists _, _ |].
  destruct (Qle_bool 0.5 score); by eexists _, _.
Qed.

Lemma generate_summary_returns facts low_count total score :
  ∃ summary,
    _generate_summary (_calculate_stats facts) (level_decision low_count total score)
    = Ok summary.
Proof.
  unfold _generate_summary.
  change (stats_item (_calculate_stats facts) "total_facts") with (Ok (length facts)).
  change (stats_item (_calculate_stats facts) "verified")
    with (Ok (count (λ f, py_eq (dict_get f "verified") (PBool true)) facts)).
  change (stats_item (_calculate_stats facts) "unverified")
    with (Ok (count (λ f, py_eq (dict_get f "verified") (PBool false)
                          && negb (confidence_is "unknown" f)) facts)).
  unfold mbind, result_bind, level_decision.
  destruct (total <? 2 * low_count)%nat; simpl.
  { destruct (Nat.ltb 0 _); by eexists. }
  destruct (Qle_bool 0.8 score); simpl; [by eexists |].
  destruct (Qle_bool 0.5 score); simpl; [by eexists |].
  destruct (Nat.ltb 0 _); by eexists.
Qed.

(** What [score_response] returns on a response that has facts. *)
Lemma score_response_spec fact facts :
  ∃ score report,
    _calculate_confidence_score (_calculate_stats (fact :: facts)) (fact :: facts)
    = Ok score ∧
    (score == average_weight (fact :: facts))%Q ∧
    score_response (fact :: facts) = Ok report ∧
    overall_confidence report
    = level_decision (count_tier Low (fact :: facts)) (length (fact :: facts)) score ∧
    confidence_score report = Num.round2 score.
Proof.
  destruct (calculate_confidence_score_spec (fact :: facts)) as (score & Hscore & Havg).
  destruct (determine_confidence_level_spec (fact :: facts) score)
    as (color & emoji & Hlevel).
  destruct (generate_summary_returns (fact :: facts)
              (count_tier Low (fact :: facts)) (length (fact :: facts)) score)
    as (summary & Hsummary).
  exists score. eexists. split; [exact Hscore |]. split; [exact Havg |].
  unfold score_response. rewrite Hscore. unfold mbind at 1, result_bind at 1.
  rewrite Hlevel. unfold mbind at 1, result_bind at 1.
  rewrite Hsummary. unfold mbind, result_bind.
  split; [reflexivity |]. split; reflexivity.
Qed.

End ScorerClaims.

(** ** The score in binary64 *)

Section Scorer64Claims.
Local Open Scope Q_scope.

Lemma weight64_bounds t : 0 <= weight64 t <= 1.
Proof. destruct t; split; apply Qle_bool_iff; vm_compute; reflexivity. Qed.

Lemma points64_weight fact : Scorer64.points fact = weight64 (tier_of fact).
Proof.
  unfold Scorer64.points, tier_of.
  destruct (py_eq _ (PStr "high")); [reflexivity |].
  destruct (py_eq _ (PStr "medium")); [reflexivity |].
  destruct (py_eq _ (PStr "low")); reflexivity.
Qed.

Lemma total_points64 facts : ∀ acc,
  foldl (λ total_points fact, F64.add total_points (Scorer64.points fact)) acc facts
  = foldl (λ s f, F64.add s (weight64 (tier_of f))) acc facts.
Proof.
  induction facts as [| fact facts IH]; intros acc; [reflexivity |].
  simpl. rewrite points64_weight. apply IH.
Qed.

(** Up to 2^53 weights the float sum of [k] of them is at most [k]. *)
Lemma sum_weights64_bounds facts : ∀ acc (k : Z),
  0 <= acc <= inject_Z k → (0 ≤ k)%Z →
  (k + Z.of_nat (length facts) ≤ 2 ^ 53)%Z →
  0 <= foldl (λ s f, F64.add s (weight64 (tier_of f))) acc facts
    <= inject_Z (k + Z.of_nat (length facts)).
Proof.
  induction facts as [| fact facts IH]; intros acc k [Hlo Hhi] Hk Hlen.
  - simpl. rewrite Z.add_0_r. by split.
  - simpl foldl. simpl length in *.
    replace (k + Z.of_nat (S (length facts)))%Z
      with (k + 1 + Z.of_nat (length facts))%Z in * by lia.
    pose proof (weight64_bounds (tier_of fact)) as [Hw0 Hw1].
    apply IH; [| lia | exact Hlen]. unfold F64.add. split.
    + apply round_nonneg. lra.
    + rewrite <- (round_Z (k + 1)) by lia.
      apply round_mono; [lra |]. rewrite inject_Z_plus.
      change (inject_Z 1) with 1. lra.
Qed.

Lemma max_float_large : inject_Z (2 ^ 53) <= F64.max_float.
Proof. unfold F64.max_float. rewrite <- Zle_Qle. by vm_compute. Qed.

(** The conversion of a length is exact up to 2^53. *)
Lemma of_int_exact (n : Z) :
  (0 ≤ n ≤ 2 ^ 53)%Z →
  F64.of_int n = Ok (F64.round (inject_Z n)) ∧ F64.round (inject_Z n) == inject_Z n.
Proof.
  intros Hn. pose proof (round_Z n Hn) as Hexact. split; [| exact Hexact].
  unfold F64.of_int.
  assert (Qle_bool (Qabs (F64.round (inject_Z n))) F64.max_float = true) as ->; [| done].
  apply Qle_bool_iff. rewrite Hexact, Qabs_pos.
  - apply Qle_trans with (inject_Z (2 ^ 53)); [| apply max_float_large].
    rewrite <- Zle_Qle. lia.
  - change 0 with (inject_Z 0). rewrite <- Zle_Qle. lia.
Qed.

Lemma round_one : F64.round 1 == 1.
Proof. apply (round_Z 1). lia. Qed.

(** The unrounded score of a response that has claims: the float average
    of the weights, which lies between 0 and 1. *)
Lemma calculate_confidence_score64_spec fact facts :
  (Z.of_nat (length (fact :: facts)) ≤ 2 ^ 53)%Z →
  ∃ score,
    Scorer64._calculate_confidence_score (Scorer._calculate_stats (fact :: facts))
      (fact :: facts) = Ok score ∧
    score = average_weight64 (fact :: facts) ∧
    0 <= score <= 1 ∧
    F64.round score == score.
Proof.
  intros Hlen. set (l := fact :: facts) in *.
  destruct (of_int_exact (Z.of_nat (length l))) as [Hconv Hexact]; [lia |].
  assert (1 <= inject_Z (Z.of_nat (length l))) as Hpos.
  { change 1 with (inject_Z 1). rewrite <- Zle_Qle. subst l. simpl length. lia. }
  destruct (sum_weights64_bounds l 0 0) as [Hs0 Hs1].
  { split; apply Qle_refl. } { lia. } { lia. }
  rewrite Z.add_0_l in Hs1.
  assert (0 <= sum_weights64 l / F64.round (inject_Z (Z.of_nat (length l))) <= 1) as [Hq0 Hq1].
  { unfold sum_weights64. change (F64.literal 0.0) with 0. rewrite Hexact. split.
    - apply Qle_shift_div_l; lra.
    - apply Qle_shift_div_r; lra. }
  exists (average_weight64 l). split; [| split; [reflexivity | split]].
  - unfold Scorer64._calculate_confidence_score.
    change (Scorer.stats_item (Scorer._calculate_stats l) "total_facts")
      with (Ok (length l)).
    unfold mbind at 1, result_bind at 1. subst l. simpl Nat.eqb. cbv iota.
    unfold mbind at 1, result_bind at 1. rewrite Hconv.
    unfold mbind, result_bind, F64.div.
    assert (Qeq_bool (F64.round (inject_Z (Z.of_nat (length (fact :: facts))))) 0 = false)
      as ->.
    { destruct (Qeq_bool _ 0) eqn:Hzero; [| reflexivity].
      apply Qeq_bool_eq in Hzero. rewrite Hexact in Hzero. lra. }
    rewrite total_points64. reflexivity.
  - subst l. unfold average_weight64. split.
    + apply round_nonneg. exact Hq0.
    + rewrite <- round_one. apply round_mono; [exact Hq0 | exact Hq1].
  - subst l. unfold average_weight64. apply round_round. exact Hq0.
Qed.

(** A double is at least the double nearest to a threshold exactly when
    it is at least the threshold. *)
Lemma threshold_exact (t score : Q) :
  0 <= t → t <= F64.round t → F64.round score == score →
  Qle_bool (F64.literal t) score = Qle_bool t score.
Proof.
  intros Ht Hup Hscore. unfold F64.literal.
  destruct (Qle_bool t score) eqn:Hexact.
  - apply Qle_bool_iff. apply Qle_bool_iff in Hexact.
    rewrite <- Hscore. by apply round_mono.
  - destruct (Qle_bool (F64.round t) score) eqn:Hfloat; [| reflexivity].
    apply Qle_bool_iff in Hfloat.
    assert (Qle_bool t score = true); [| congruence].
    apply Qle_bool_iff. lra.
Qed.

(** Half of a length is exact up to 2^53. *)
Lemma int_div_half (n : nat) :
  (Z.of_nat n ≤ 2 ^ 53)%Z →
  ∃ half, F64.int_div (Z.of_nat n) 2 = Ok half ∧ half == inject_Z (Z.of_nat n) / 2.
Proof.
  intros Hn. unfold F64.int_div. change (Z.eqb 2 0) with false. cbv iota.
  assert (inject_Z (Z.of_nat n) / inject_Z 2 == inject_Z (Z.of_nat n) * 2 ^ (-1)) as Hform.
  { reflexivity. }
  assert (F64.round (inject_Z (Z.of_nat n) / inject_Z 2) == inject_Z (Z.of_nat n) / 2)
    as Hexact.
  { rewrite (round_comp _ _ Hform). rewrite round_dyadic by lia. reflexivity. }
  assert (0 <= inject_Z (Z.of_nat n)) as Hpos.
  { change 0 with (inject_Z 0). rewrite <- Zle_Qle. lia. }
  assert (inject_Z (Z.of_nat n) <= inject_Z (2 ^ 53)) as Hle.
  { rewrite <- Zle_Qle. lia. }
  eexists. split; [| exact Hexact].
  assert (Qle_bool (Qabs (F64.round (inject_Z (Z.of_nat n) / inject_Z 2))) F64.max_float
          = true) as ->; [| reflexivity].
  apply Qle_bool_iff. rewrite Hexact, Qabs_pos.
  - pose proof max_float_large. apply Qle_trans with (inject_Z (2 ^ 53)); [| done].
    apply Qle_shift_div_r; [reflexivity |]. lra.
  - apply Qle_shift_div_l; [reflexivity |]. lra.
Qed.

Lemma determine_confidence_level64_spec facts score :
  (Z.of_nat (length facts) ≤ 2 ^ 53)%Z →
  F64.round score == score →
  ∃ color emoji,
    Scorer64._determine_confidence_level score (Scorer._calculate_stats facts)
    = Ok (level_decision (count_tier Low facts) (length facts) score, color, emoji).
Proof.
  intros Hlen Hscore. unfold Scorer64._determine_confidence_level.
  change (Scorer.stats_item (Scorer._calculate_stats facts) "low_confidence")
    with (Ok (Scorer.count (Scorer.confidence_is "low") facts)).
  change (Scorer.stats_item (Scorer._calculate_stats facts) "total_facts")
    with (Ok (length facts)).
  unfold mbind, result_bind.
  destruct (int_div_half (length facts) Hlen) as (half & -> & Hhalf).
  assert (Num.ltb half (inject_Z (Z.of_nat (Scorer.count (Scorer.confidence_is "low") facts)))
          = (length facts <? 2 * count_tier Low facts)%nat) as ->.
  { rewrite <- count_low, <- half_lt. unfold Num.ltb. f_equal.
    apply Qle_bool_comp. exact Hhalf. }
  unfold level_decision, Scorer64.HIGH_CONFIDENCE_THRESHOLD,
    Scorer64.MEDIUM_CONFIDENCE_THRESHOLD.
  rewrite !threshold_exact;
    [| by apply Qle_bool_iff | by apply Qle_bool_iff | exact Hscore
     | by apply Qle_bool_iff | by apply Qle_bool_iff | exact Hscore ].
  destruct (length facts <? 2 * count_tier Low facts)%nat; [by eexists _, _ |].
  destruct (Qle_bool 0.8 score); [by eexists _, _ |].
  destruct (Qle_bool 0.5 score); by eexists _, _.
Qed.

(** What [score_response] returns on a response that has claims. *)
Lemma score_response64_spec fact facts :
  (Z.of_nat (length (fact :: facts)) ≤ 2 ^ 53)%Z →
  ∃ score report,
    Scorer64._calculate_confidence_score (Scorer._calculate_stats (fact :: facts))
      (fact :: facts) = Ok score ∧
    score = average_weight64 (fact :: facts) ∧
    0 <= score <= 1 ∧
    Scorer64.score_response (fact :: facts) = Ok report ∧
    Scorer.overall_confidence report
    = level_decision (count_tier Low (fact :: facts)) (length (fact :: facts)) score ∧
    Scorer.confidence_score report = F64.round2 score.
Proof.
  intros Hlen.
  destruct (calculate_confidence_score64_spec fact facts Hlen)
    as (score & Hscore & Havg & Hunit & Hdouble).
  destruct (determine_confidence_level64_spec (fact :: facts) score Hlen Hdouble)
    as (color & emoji & Hlevel).
  destruct (generate_summary_returns (fact :: facts)
              (count_tier Low (fact :: facts)) (length (fact :: facts)) score)
    as (summary & Hsummary).
  exists score. eexists. split; [exact Hscore |]. split; [exact Havg |].
  split; [exact Hunit |].
  unfold Scorer64.score_response. rewrite Hscore. unfold mbind at 1, result_bind at 1.
  rewrite Hlevel. unfold mbind at 1, result_bind at 1.
  rewrite Hsummary. unfold mbind, result_bind.
  split; [reflexivity |]. split; reflexivity.
Qed.

(** Rounding to two decimals keeps a score between 0 and 1. *)
Lemma round2_64_bounds (q : Q) : 0 <= q <= 1 → 0 <= F64.round2 q <= 1.
Proof.
  intros [Hlo Hhi]. unfold F64.round2.
  destruct (round_half_even_between (q * 100) 0 100) as [Hz0 Hz100].
  { change (inject_Z 0) with 0. lra. }
  { change (inject_Z 100) with 100. lra. }
  rewrite Zle_Qle in Hz0, Hz100.
  change (inject_Z 0) with 0 in Hz0. change (inject_Z 100) with 100 in Hz100.
  assert (0 <= inject_Z (Num.round_half_even (q * 100)) / 100 <= 1) as [Hq0 Hq1].
  { split; [apply Qle_shift_div_l | apply Qle_shift_div_r]; lra. }
  split.
  - by apply round_nonneg.
  - rewrite <- round_one. by apply round_mono.
Qed.

(** The rounding of binary64 shows in the report.  Three medium
    claims and a low one have the exact average 0.5, the float average is
    just under it, and the level is low; three high and three medium claims
    have the exact average 0.8, and the level is medium; five high, two
    medium and an unknown claim have the exact average 0.775, and the score
    of the report is 0.77. *)
Lemma medium_and_low_report :
  (average_weight medium_and_low == 0.5) ∧
  level_and_score medium_and_low = Some ("low", Qred (F64.literal 0.5)).
Proof. split; [reflexivity | by vm_compute]. Qed.

Lemma high_and_medium_report :
  (average_weight high_and_medium == 0.8) ∧
  level_and_score high_and_medium = Some ("medium", Qred (F64.literal 0.8)).
Proof. split; [reflexivity | by vm_compute]. Qed.

Lemma mixed_eight_report :
  (average_weight mixed_eight == 0.775) ∧
  level_and_score mixed_eight = Some ("medium", Qred (F64.literal 0.77)).
Proof. split; [reflexivity | by vm_compute]. Qed.

(** C3.  For a list of verified claims that is not empty (and has at
    most 2^53 claims, so that half of its length is a double) the level is
    decided in this order: low when the low-tier claims are more than half
    of all claims, whatever the score; otherwise high when the score is at
    least 0.8, medium when it is at least 0.5, and low below that.
    [_determine_confidence_level] decides so for every double it is given,
    and [score_response] gives it the score it computed, the binary64
    average of the tier weights. *)
Theorem level_decision_order (verified_facts : list dict) :
  verified_facts ≠ [] →
  (Z.of_nat (length verified_facts) ≤ 2 ^ 53)%Z →
  (∀ score, F64.round score == score →
     ∃ color emoji,
       Scorer64._determine_confidence_level score (Scorer._calculate_stats verified_facts)
       = Ok (if (length verified_facts <? 2 * count_tier Low verified_facts)%nat then "low"
             else if Qle_bool 0.8 score then "high"
             else if Qle_bool 0.5 score then "medium"
             else "low", color, emoji)) ∧
  ∃ score report,
    Scorer64._calculate_confidence_score (Scorer._calculate_stats verified_facts)
      verified_facts = Ok score ∧
    score = average_weight64 verified_facts ∧
    Scorer64.score_response verified_facts = Ok report ∧
    Scorer.overall_confidence report
    = (if (length verified_facts <? 2 * count_tier Low verified_facts)%nat then "low"
       else if Qle_bool 0.8 score then "high"
       else if Qle_bool 0.5 score then "medium"
       else "low").
Proof.
  intros Hne Hlen. split.
  { intros score Hdouble.
    exact (determine_confidence_level64_spec verified_facts score Hlen Hdouble). }
  destruct verified_facts as [| fact facts]; [done |].
  destruct (score_response64_spec fact facts Hlen)
    as (score & report & Hscore & Havg & _ & Hreport & Hlevel & _).
  exists score, report. by rewrite Hlevel.
Qed.

Lemma level_decision_order_witness :
  high_and_medium ≠ [] ∧
  (Z.of_nat (length high_and_medium) ≤ 2 ^ 53)%Z ∧
  (∀ score, F64.round score == score →
     ∃ color emoji,
       Scorer64._determine_confidence_level score (Scorer._calculate_stats high_and_medium)
       = Ok (if (length high_and_medium <? 2 * count_tier Low high_and_medium)%nat then "low"
             else if Qle_bool 0.8 score then "high"
             else if Qle_bool 0.5 score then "medium"
             else "low", color, emoji)) ∧
  ∃ score report,
    Scorer64._calculate_confidence_score (Scorer._calculate_stats high_and_medium)
      high_and_medium = Ok score ∧
    score = average_weight64 high_and_medium ∧
    Scorer64.score_response high_and_medium = Ok report ∧
    Scorer.overall_confidence report
    = (if (length high_and_medium <? 2 * count_tier Low high_and_medium)%nat then "low"
       else if Qle_bool 0.8 score then "high"
       else if Qle_bool 0.5 score then "medium"
       else "low").
Proof.
  split; [discriminate |]. split; [by vm_compute |].
  apply (level_decision_order high_and_medium); [discriminate | by vm_compute].
Defined.

(** C4.  For every list of verified claims (of at most 2^53 claims)
    [score_response] returns a report whose score lies between 0 and 1: it
    is the binary64 average over the claims of the weight of their tier
    (1.0, 0.6, 0.2 and 0.0 for high, medium, low and unknown), rounded to
    two decimals.  For the empty list the score is 0.0 and the level
    unknown. *)
Theorem score_in_unit_interval (verified_facts : list dict) :
  (Z.of_nat (length verified_facts) ≤ 2 ^ 53)%Z →
  (∃ score report,
     Scorer64._calculate_confidence_score (Scorer._calculate_stats verified_facts)
       verified_facts = Ok score ∧
     score = average_weight64 verified_facts ∧
     0 <= score <= 1 ∧
     Scorer64.score_response verified_facts = Ok report ∧
     Scorer.confidence_score report = F64.round2 score ∧
     0 <= Scorer.confidence_score report <= 1) ∧
  (∃ report,
     Scorer64.score_response [] = Ok report ∧
     Scorer.confidence_score report = 0 ∧
     Scorer.overall_confidence report = "unknown").
Proof.
  intros Hlen. split; [| by eexists].
  destruct verified_facts as [| fact facts].
  - exists 0. eexists. split; [reflexivity |]. split; [reflexivity |].
    split; [split; unfold Qle; simpl; lia |]. split; [reflexivity |].
    split; [reflexivity | split; unfold Qle; simpl; lia].
  - destruct (score_response64_spec fact facts Hlen)
      as (score & report & Hscore & Havg & Hunit & Hreport & _ & Hrounded).
    exists score, report. rewrite Hrounded.
    split; [exact Hscore |]. split; [exact Havg |]. split; [exact Hunit |].
    split; [exact Hreport |]. split; [reflexivity |]. by apply round2_64_bounds.
Qed.

Lemma score_in_unit_interval_witness :
  (Z.of_nat (length mixed_eight) ≤ 2 ^ 53)%Z ∧
  (∃ score report,
     Scorer64._calculate_confidence_score (Scorer._calculate_stats mixed_eight)
       mixed_eight = Ok score ∧
     score = average_weight64 mixed_eight ∧
     0 <= score <= 1 ∧
     Scorer64.score_response mixed_eight = Ok report ∧
     Scorer.confidence_score report = F64.round2 score ∧
     0 <= Scorer.confidence_score report <= 1) ∧
  (∃ report,
     Scorer64.score_response [] = Ok report ∧
     Scorer.confidence_score report = 0 ∧
     Scorer.overall_confidence report = "unknown").
Proof.
  split; [by vm_compute |].
  apply (score_in_unit_interval mixed_eight). by vm_compute.
Defined.

End Scorer64Claims.

(** ** The verifier *)

Section VerifierClaims.
Import Verifier.

Variable wiki_page : string → result WikipediaPage.

Lemma unverified_degraded fact note : degraded fact note (unverified fact note).
Proof.
  unfold degraded, unverified, dict_update. simpl.
  split; [reflexivity |]. by simplify_map_eq.
Qed.

Lemma unverified_coupled fact note : coupled (unverified fact note) = true.
Proof.
  destruct (unverified_degraded fact note) as (_ & Hv & Hc & _).
  unfold coupled. by rewrite Hv, Hc.
Qed.

Lemma verify_against_content_coupled fact page_text page_summary verification_result :
  _verify_against_content fact page_text page_summary = Ok verification_result →
  coupled verification_result = true.
Proof.
  unfold _verify_against_content, dict_item, str_method, as_str.
  destruct (fact !! "entity") as [[| b | entity] |]; simpl; try discriminate.
  destruct (fact !! "entity_type") as [entity_type |]; simpl; try discriminate.
  repeat match goal with
         | |- context [if ?c then _ else _] => destruct c
         end;
    intros [= <-]; reflexivity.
Qed.

Lemma merged_coupled (verification_result fact : dict) (url title : pyval) :
  coupled verification_result = true →
  coupled (dict_update (verification_result ∪ fact)
             [("wikipedia_url", url); ("wikipedia_title", title)]) = true.
Proof.
  unfold coupled, dict_update. simpl. intros Hc.
  rewrite !lookup_insert_ne by done.
  destruct (verification_result !! "verified") as [v |] eqn:Hv; [| done].
  destruct (verification_result !! "confidence") as [c |] eqn:Hconf.
  - by rewrite (lookup_union_Some_l _ _ _ _ Hv), (lookup_union_Some_l _ _ _ _ Hconf).
  - by destruct v as [| [|] |].
Qed.

Lemma search_wikipedia_coupled fact search_query result :
  search_wikipedia wiki_page fact search_query = Ok result → coupled result = true.
Proof.
  unfold search_wikipedia, mbind, result_bind.
  destruct (wiki_page search_query) as [page |]; [| discriminate].
  destruct (page_exists page) as [[|] |]; simpl; try discriminate.
  2: { intros [= <-]. apply unverified_coupled. }
  destruct (page_text page) as [text |]; [| discriminate].
  destruct (page_summary page) as [summary |]; [| discriminate].
  destruct (_verify_against_content fact _ _) as [vr |] eqn:Hvr; [| discriminate].
  destruct (page_fullurl page) as [url |]; [| discriminate].
  destruct (page_title page) as [title |]; [| discriminate].
  intros [= <-]. apply merged_coupled. by eapply verify_against_content_coupled.
Qed.

Lemma verify_fact_coupled fact result :
  verify_fact wiki_page fact = Ok result → coupled result = true.
Proof.
  unfold verify_fact, mbind, result_bind.
  destruct (dict_item fact "entity") as [entity |]; [| discriminate].
  destruct (dict_item fact "entity_type") as [entity_type |]; [| discriminate].
  destruct (dict_item fact "sentence") as [sentence |]; [| discriminate].
  destruct (_create_search_query entity entity_type sentence) as [query |]; [| discriminate].
  destruct (truthy query); simpl.
  2: { intros [= <-]. apply unverified_coupled. }
  destruct (str_method query) as [q |]; [| discriminate].
  destruct (String.length (Str.strip q) <? 2)%nat.
  { intros [= <-]. apply unverified_coupled. }
  unfold try_except.
  destruct (search_wikipedia wiki_page fact q) as [r | e] eqn:Hlookup.
  - intros [= <-]. by eapply search_wikipedia_coupled.
  - intros [= <-]. apply unverified_coupled.
Qed.

Lemma verify_facts_coupled facts : ∀ results,
  verify_facts wiki_page facts = Ok results →
  Forall (λ result, coupled result = true) results.
Proof.
  induction facts as [| fact facts IH]; intros results; simpl.
  - intros [= <-]. constructor.
  - unfold mbind, result_bind.
    destruct (verify_fact wiki_page fact) as [r |] eqn:Hr; [| discriminate].
    destruct (verify_facts wiki_page facts) as [rs |]; [| discriminate].
    intros [= <-]. constructor; [by eapply verify_fact_coupled | by apply IH].
Qed.

(** The search key of a claim is a string. *)
Lemma create_search_query_str entity entity_type sentence :
  ∃ query,
    _create_search_query (PStr entity) (PStr entity_type) (PStr sentence)
    = Ok (PStr query).
Proof.
  unfold _create_search_query, _extract_subject_from_sentence, str_arg, mbind, result_bind.
  destruct (py_in _ name_types); [by eexists |].
  destruct (py_in _ query_value_types); [| by eexists].
  destruct (Re.rmatch _ _); [| destruct (Re.search the_subject_re _);
                                [| destruct (Re.search any_subject_re _)]];
    try (destruct (String.eqb _ _)); by eexists.
Qed.

Lemma is_claim_fields fact :
  is_claim fact = true →
  ∃ entity entity_type sentence,
    fact !! "entity" = Some (PStr entity) ∧
    fact !! "entity_type" = Some (PStr entity_type) ∧
    fact !! "sentence" = Some (PStr sentence).
Proof.
  unfold is_claim.
  destruct (fact !! "entity") as [[| | entity] |]; try discriminate.
  destruct (fact !! "entity_type") as [[| | entity_type] |]; try discriminate.
  destruct (fact !! "sentence") as [[| | sentence] |]; try discriminate.
  by eexists _, _, _.
Qed.

(** [verify_fact] on a claim, path by path. *)
Lemma verify_fact_paths fact :
  is_claim fact = true →
  ∃ query,
    search_key fact = Ok (PStr query) ∧
    verify_fact wiki_page fact =
    Ok (if (String.length (Str.strip query) <? 2)%nat
        then unverified fact "Could not create valid search query"
        else match search_wikipedia wiki_page fact query with
             | Ok result => result
             | Raise e => unverified fact ("Error accessing Wikipedia: " +:+ str_exn e)
             end).
Proof.
  intros Hclaim.
  destruct (is_claim_fields fact Hclaim) as (entity & entity_type & sentence & He & Ht & Hs).
  destruct (create_search_query_str entity entity_type sentence) as [query Hq].
  exists query. unfold search_key, verify_fact, dict_item.
  rewrite He, Ht, Hs. unfold mbind, result_bind. rewrite Hq. split; [reflexivity |].
  destruct query as [| c query]; [reflexivity |].
  simpl truthy. cbv iota. simpl str_method. cbv iota.
  destruct (String.length (Str.strip (String c query)) <? 2)%nat; [reflexivity |].
  unfold try_except. by destruct (search_wikipedia wiki_page fact (String c query)).
Qed.

Lemma verify_facts_returns facts :
  forallb is_claim facts = true →
  ∃ results, verify_facts wiki_page facts = Ok results ∧ length results = length facts.
Proof.
  induction facts as [| fact facts IH]; simpl.
  - by eexists.
  - intros [Hfact Hfacts]%andb_true_iff.
    destruct (verify_fact_paths fact Hfact) as (query & _ & Hr).
    destruct (IH Hfacts) as (results & Hrs & Hlen).
    rewrite Hr, Hrs. unfold mbind, result_bind.
    eexists. split; [reflexivity |]. simpl. by rewrite Hlen.
Qed.

End VerifierClaims.

Section VerifierTheorems.
Import Verifier.

(** C5.  [verify_fact] never raises on a claim, whatever the reference
    source does.  It builds a search key and returns a result; when the
    key is empty or shorter than two characters, when the lookup raises,
    and when the page does not exist, the result is the claim marked not
    verified, of unknown confidence, with a note that says why; the note of
    an exception ends with the message of the exception.  [verify_facts]
    returns one result for each claim. *)
Theorem verify_fact_never_raises
    (wiki_page : string → result WikipediaPage) (fact : dict) (facts : list dict) :
  is_claim fact = true →
  forallb is_claim facts = true →
  (∃ query result,
     search_key fact = Ok (PStr query) ∧
     verify_fact wiki_page fact = Ok result ∧
     ((String.length (Str.strip query) < 2)%nat →
        degraded fact "Could not create valid search query" result) ∧
     ((2 ≤ String.length (Str.strip query))%nat →
        ∀ e, search_wikipedia wiki_page fact query = Raise e →
             degraded fact ("Error accessing Wikipedia: " +:+ str_exn e) result) ∧
     ((2 ≤ String.length (Str.strip query))%nat →
        ∀ page, wiki_page query = Ok page → page_exists page = Ok false →
                degraded fact ("No Wikipedia page found for '" +:+ query +:+ "'") result)) ∧
  (∃ results,
     verify_facts wiki_page facts = Ok results ∧ length results = length facts).
Proof.
  intros Hclaim Hclaims. split; [| by apply verify_facts_returns].
  destruct (verify_fact_paths wiki_page fact Hclaim) as (query & Hkey & Hresult).
  exists query. eexists. split; [exact Hkey |]. split; [exact Hresult |].
  destruct (Nat.ltb_spec (String.length (Str.strip query)) 2) as [Hshort | Hlong].
  - split; [intros _; apply unverified_degraded |]. split; intros; lia.
  - split; [intros; lia |]. split.
    + intros _ e ->. apply unverified_degraded.
    + intros _ page Hpage Hmissing. unfold search_wikipedia, mbind, result_bind.
      rewrite Hpage, Hmissing. simpl. apply unverified_degraded.
Qed.

Lemma verify_fact_never_raises_witness :
  is_claim paris_2 = true ∧
  forallb is_claim [tokyo_14; paris_2] = true ∧
  (∃ query result,
     search_key paris_2 = Ok (PStr query) ∧
     verify_fact small_wiki paris_2 = Ok result ∧
     ((String.length (Str.strip query) < 2)%nat →
        degraded paris_2 "Could not create valid search query" result) ∧
     ((2 ≤ String.length (Str.strip query))%nat →
        ∀ e, search_wikipedia small_wiki paris_2 query = Raise e →
             degraded paris_2 ("Error accessing Wikipedia: " +:+ str_exn e) result) ∧
     ((2 ≤ String.length (Str.strip query))%nat →
        ∀ page, small_wiki query = Ok page → page_exists page = Ok false →
                degraded paris_2 ("No Wikipedia page found for '" +:+ query +:+ "'") result)) ∧
  (∃ results,
     verify_facts small_wiki [tokyo_14; paris_2] = Ok results ∧
     length results = length [tokyo_14; paris_2]).
Proof.
  split; [vm_compute; reflexivity |]. split; [vm_compute; reflexivity |].
  apply (verify_fact_never_raises small_wiki paris_2 [tokyo_14; paris_2]);
    vm_compute; reflexivity.
Defined.

(** The lookup of "Paris" raises, and the claim comes back degraded with
    the message of the exception in its note. *)
Lemma paris_lookup_fails :
  search_wikipedia small_wiki paris_2 "Paris" = Raise (Exception "ConnectionError" "timed out") ∧
  verify_fact small_wiki paris_2 =
  Ok (unverified paris_2 "Error accessing Wikipedia: timed out").
Proof. split; by_evaluation. Qed.

(** C9.  Every result of [verify_fact], and every element of a result of
    [verify_facts], couples the flag and the tier: verified comes with
    high or medium, not verified with low or unknown.  On a claim
    [verify_fact] does return such a result. *)
Theorem verified_flag_matches_tier
    (wiki_page : string → result WikipediaPage) (fact : dict) (facts : list dict) :
  (∀ result, verify_fact wiki_page fact = Ok result → coupled result = true) ∧
  (∀ results, verify_facts wiki_page facts = Ok results →
              Forall (λ result, coupled result = true) results) ∧
  (is_claim fact = true →
   ∃ result, verify_fact wiki_page fact = Ok result ∧ coupled result = true).
Proof.
  split; [intros result; apply verify_fact_coupled |].
  split; [apply verify_facts_coupled |].
  intros Hclaim. destruct (verify_fact_paths wiki_page fact Hclaim) as (query & _ & Hr).
  eexists. split; [exact Hr |]. by eapply verify_fact_coupled.
Qed.

Lemma verified_flag_matches_tier_witness :
  is_claim tokyo_14 = true ∧
  ∃ result, verify_fact small_wiki tokyo_14 = Ok result ∧ coupled result = true.
Proof.
  split; [vm_compute; reflexivity |].
  apply (verified_flag_matches_tier small_wiki tokyo_14 []). vm_compute; reflexivity.
Defined.

(** The four combinations the invariant excludes are rejected. *)
Lemma coupled_excludes :
  coupled (dict_of [("verified", PBool true); ("confidence", PStr "low")]) = false ∧
  coupled (dict_of [("verified", PBool true); ("confidence", PStr "unknown")]) = false ∧
  coupled (dict_of [("verified", PBool false); ("confidence", PStr "high")]) = false ∧
  coupled (dict_of [("verified", PBool false); ("confidence", PStr "medium")]) = false.
Proof. repeat split; by_evaluation. Qed.

Lemma tokyo_verified_medium :
  verify_fact small_wiki tokyo_14 =
  Ok (dict_update
        (dict_of [("verified", PBool true); ("confidence", PStr "medium");
                  ("verification_note", PStr "Similar value found in Wikipedia")]
         ∪ tokyo_14)
        [("wikipedia_url", PStr "https://en.wikipedia.org/wiki/Tokyo");
         ("wikipedia_title", PStr "Tokyo")]).
Proof. by_evaluation. Qed.

End VerifierTheorems.

(** ** The formatter *)

Section FormatterClaims.
Import Formatter.

Lemma insert_span_perm x l : insert_span x l ≡ₚ x :: l.
Proof.
  induction l as [| y l IH]; simpl; [done |].
  destruct (String.length (text y) <? String.length (text x))%nat; [done |].
  rewrite IH. apply Permutation_swap.
Qed.

Lemma insert_span_sorted x l :
  StronglySorted longer_first l → StronglySorted longer_first (insert_span x l).
Proof.
  induction 1 as [| y l Hsorted IH Hall]; simpl.
  - repeat constructor.
  - destruct (Nat.ltb_spec (String.length (text y)) (String.length (text x))) as [Hlt | Hge].
    + constructor; [by constructor |].
      constructor; [unfold longer_first; lia |].
      eapply Forall_impl; [exact Hall |]. unfold longer_first. intros z Hz. lia.
    + constructor; [exact IH |].
      rewrite insert_span_perm. by constructor.
Qed.

Lemma foldl_insert_span spans : ∀ sorted,
  StronglySorted longer_first sorted →
  StronglySorted longer_first (foldl (λ sorted x, insert_span x sorted) sorted spans) ∧
  foldl (λ sorted x, insert_span x sorted) sorted spans ≡ₚ (sorted ++ spans)%list.
Proof.
  induction spans as [| x spans IH]; intros sorted Hsorted; simpl.
  - by rewrite app_nil_r.
  - destruct (IH (insert_span x sorted) (insert_span_sorted x sorted Hsorted)) as [Hs Hp].
    split; [exact Hs |]. rewrite Hp, insert_span_perm. simpl.
    apply Permutation_middle.
Qed.

(** The spans are processed longest text first, each of them once. *)
Lemma sorted_spans_longest_first spans :
  StronglySorted longer_first (sorted_spans spans) ∧ sorted_spans spans ≡ₚ spans.
Proof. apply (foldl_insert_span spans []). constructor. Qed.

(** C8, where the code departs from it.  In "The Eiffel Tower was
    designed by Eiffel." the longer entity is marked first; the pattern of
    the shorter one then finds its first occurrence inside the text just
    inserted for the longer one.  The marker, and in HTML the whole
    wrapper, of "Eiffel" ends up inside that of "Eiffel Tower", and the
    occurrence of "Eiffel" on its own is left unmarked. *)
Theorem shorter_entity_marked_inside_longer :
  _create_fact_spans [eiffel_fact; eiffel_tower_fact] []
  = Ok [eiffel_span; eiffel_tower_span] ∧
  sorted_spans [eiffel_span; eiffel_tower_span] = [eiffel_tower_span; eiffel_span] ∧
  _create_markdown_format eiffel_text [eiffel_span; eiffel_tower_span]
  = "The ✅ ✅ Eiffel Tower was designed by Eiffel." ∧
  _create_html_format eiffel_text [eiffel_span; eiffel_tower_span]
  = "The <span class=" +:+ dq +:+ "fact-green" +:+ dq
    +:+ " title=" +:+ dq +:+ "Entity found in Wikipedia" +:+ dq
    +:+ " data-url=" +:+ dq +:+ "https://en.wikipedia.org/wiki/Eiffel_Tower" +:+ dq
    +:+ ">✅ <span class=" +:+ dq +:+ "fact-green" +:+ dq
    +:+ " title=" +:+ dq +:+ "Entity found in Wikipedia" +:+ dq
    +:+ " data-url=" +:+ dq +:+ "https://en.wikipedia.org/wiki/Gustave_Eiffel" +:+ dq
    +:+ ">✅ Eiffel</span> Tower</span> was designed by Eiffel.".
Proof. repeat split; by_evaluation. Qed.

(** Two facts with the same entity text mark its first occurrence twice
    and its second occurrence not at all. *)
Lemma same_entity_marked_twice :
  _create_markdown_format "Tokyo is large. Tokyo is old."
    [tokyo_span; tokyo_span]
  = "✅ ✅ Tokyo is large. Tokyo is old.".
Proof. by_evaluation. Qed.

End FormatterClaims.

(** * Further properties of the code *)

(** ** The detector *)

Section DetectorExtras.
Import Detector.

Lemma bind_run {A B} (m : M A) (f : A → M B) self :
  (m ≫= f) self
  = match m self with
    | (Ok a, self') => f a self'
    | (Raise e, self') => (Raise e, self')
    end.
Proof. reflexivity. Qed.

Lemma for_each_history new_fact history : ∀ found self,
  for_each history (λ old_fact contradictions,
    contradiction ← lift (_check_fact_pair new_fact old_fact);
    match (contradiction : option dict) with
    | Some c => mret (contradictions ++ [c])%list
    | None => mret contradictions
    end) found self
  = (scan_history new_fact history found, self).
Proof.
  induction history as [| old_fact history IH]; intros found self; simpl.
  - reflexivity.
  - rewrite !bind_run. unfold lift at 1. unfold mbind, result_bind.
    destruct (_check_fact_pair new_fact old_fact) as [[c |] | e].
    + apply IH.
    + apply IH.
    + reflexivity.
Qed.

Lemma for_each_new_facts new_facts history : ∀ found self,
  for_each new_facts (λ new_fact contradictions,
    for_each history (λ old_fact contradictions,
      contradiction ← lift (_check_fact_pair new_fact old_fact);
      match (contradiction : option dict) with
      | Some c => mret (contradictions ++ [c])%list
      | None => mret contradictions
      end) contradictions) found self
  = (scan_all new_facts history found, self).
Proof.
  induction new_facts as [| new_fact new_facts IH]; intros found self; simpl.
  - reflexivity.
  - rewrite bind_run, for_each_history. unfold mbind, result_bind.
    destruct (scan_history new_fact history found) as [found' | e].
    + apply IH.
    + reflexivity.
Qed.

(** [detect_contradictions] on a session with a history is the scan of
    that history. *)
Lemma detect_scan self session_id new_facts history :
  session_facts self !! session_id = Some history →
  detect_contradictions session_id new_facts self = (scan_all new_facts history [], self).
Proof.
  intros Hsome. unfold detect_contradictions.
  rewrite bind_run. unfold get_session_facts at 1. cbv beta iota.
  rewrite bool_decide_eq_false_2.
  2: { intros Hnot. apply Hnot, elem_of_dom. by eexists. }
  rewrite bind_run. unfold get_session_facts at 1. cbv beta iota.
  rewrite Hsome. apply for_each_new_facts.
Qed.

Lemma detect_default self session_id new_facts :
  (detect_contradictions session_id new_facts self).1
  = match session_facts self !! session_id with
    | Some history => scan_all new_facts history []
    | None => Ok []
    end.
Proof.
  destruct (session_facts self !! session_id) as [history |] eqn:Hs.
  - by rewrite (detect_scan _ _ _ history).
  - by rewrite detect_unknown_session.
Qed.

Lemma scan_history_length new_fact history : ∀ found cs,
  scan_history new_fact history found = Ok cs →
  (length found ≤ length cs ≤ length found + length history)%nat.
Proof.
  induction history as [| old_fact history IH]; intros found cs; simpl.
  - intros [= <-]. lia.
  - unfold mbind, result_bind.
    destruct (_check_fact_pair new_fact old_fact) as [[c |] | e]; [| | discriminate].
    + intros H. apply IH in H. rewrite length_app in H. simpl in H. lia.
    + intros H. apply IH in H. lia.
Qed.

Lemma scan_all_length new_facts history : ∀ found cs,
  scan_all new_facts history found = Ok cs →
  (length found ≤ length cs ≤ length found + length new_facts * length history)%nat.
Proof.
  induction new_facts as [| new_fact new_facts IH]; intros found cs; simpl.
  - intros [= <-]. lia.
  - unfold mbind, result_bind.
    destruct (scan_history new_fact history found) as [found' | e] eqn:Hh; [| discriminate].
    intros H. apply IH in H. apply scan_history_length in Hh. lia.
Qed.

(** The contradictions found so far are a prefix of the result. *)
Lemma scan_history_found new_fact history : ∀ found,
  scan_history new_fact history found
  = match scan_history new_fact history [] with
    | Ok cs => Ok (found ++ cs)%list
    | Raise e => Raise e
    end.
Proof.
  induction history as [| old_fact history IH]; intros found; simpl.
  - by rewrite app_nil_r.
  - unfold mbind, result_bind.
    destruct (_check_fact_pair new_fact old_fact) as [[c |] | e]; [| | reflexivity].
    + rewrite (IH (found ++ [c])%list), (IH [c]).
      destruct (scan_history new_fact history []); [| reflexivity].
      by rewrite <- app_assoc.
    + apply IH.
Qed.

Lemma scan_all_found new_facts history : ∀ found,
  scan_all new_facts history found
  = match scan_all new_facts history [] with
    | Ok cs => Ok (found ++ cs)%list
    | Raise e => Raise e
    end.
Proof.
  induction new_facts as [| new_fact new_facts IH]; intros found; simpl.
  - by rewrite app_nil_r.
  - unfold mbind, result_bind.
    rewrite (scan_history_found _ _ found).
    destruct (scan_history new_fact history []) as [cs |]; [| reflexivity].
    rewrite (IH (found ++ cs)%list), (IH cs).
    destruct (scan_all new_facts history []); [| reflexivity].
    by rewrite <- app_assoc.
Qed.

Lemma scan_all_app new_facts1 new_facts2 history : ∀ found,
  scan_all (new_facts1 ++ new_facts2) history found
  = found' ← scan_all new_facts1 history found; scan_all new_facts2 history found'.
Proof.
  induction new_facts1 as [| new_fact new_facts1 IH]; intros found; simpl.
  - reflexivity.
  - unfold mbind, result_bind.
    destruct (scan_history new_fact history found); [apply IH | reflexivity].
Qed.

End DetectorExtras.

Section DetectorHistory.
Import Detector.

(** X1.  [add_facts] never raises and appends: the history of the
    session becomes what it was (nothing, for a new session) followed by
    the new facts, the other sessions keep theirs, and two calls in a row
    amount to one call with the two lists joined. *)
Theorem add_facts_accumulates
    (self : ContradictionDetector) (session_id : string) (facts1 facts2 : list dict) :
  (add_facts session_id facts1 self).1 = Ok () ∧
  session_facts (add_facts session_id facts1 self).2 !! session_id
  = Some (default [] (session_facts self !! session_id) ++ facts1)%list ∧
  (∀ other, other ≠ session_id →
     session_facts (add_facts session_id facts1 self).2 !! other
     = session_facts self !! other) ∧
  add_facts session_id facts2 (add_facts session_id facts1 self).2
  = add_facts session_id (facts1 ++ facts2) self.
Proof.
  rewrite !add_facts_spec. simpl.
  split; [reflexivity |]. split; [apply lookup_insert_eq |].
  split; [intros other Hne; by apply lookup_insert_ne |].
  by rewrite lookup_insert_eq, insert_insert_eq, app_assoc.
Qed.

(** X2.  [get_session_summary] reports what the calls before it left:
    after an [add_facts] the count and the list are those of the old
    history followed by the new facts, and after a [clear_session] they
    are 0 and the empty list, as for a session never seen. *)
Theorem summary_follows_history
    (self : ContradictionDetector) (session_id : string) (facts : list dict) :
  let history := default [] (session_facts self !! session_id) in
  (get_session_summary session_id (add_facts session_id facts self).2).1
  = Ok (length history + length facts, (history ++ facts)%list) ∧
  (get_session_summary session_id (clear_session session_id self).2).1 = Ok (0, []) ∧
  (get_session_summary session_id self).1 = Ok (length history, history).
Proof.
  rewrite add_facts_spec, clear_session_spec. simpl.
  unfold get_session_summary. rewrite !bind_run. unfold get_session_facts. simpl.
  rewrite lookup_insert_eq, lookup_delete_eq.
  split; [by rewrite length_app |]. split; [reflexivity |].
  by destruct (session_facts self !! session_id).
Qed.

(** X3.  When [detect_contradictions] returns, it returns at most one
    contradiction for each pair of a new fact and a fact of the history of
    the session: none for an empty list of new facts, none for a session
    with no history. *)
Theorem detect_count_bound
    (self : ContradictionDetector) (session_id : string) (new_facts cs : list dict) :
  (detect_contradictions session_id new_facts self).1 = Ok cs →
  (length cs ≤ length new_facts * length (default [] (session_facts self !! session_id)))%nat.
Proof.
  rewrite detect_default.
  destruct (session_facts self !! session_id) as [history |]; simpl.
  - intros H. apply scan_all_length in H. simpl in H. lia.
  - intros [= <-]. simpl. lia.
Qed.

Lemma detect_tokyo_38_run :
  (detect_contradictions "s" [tokyo_38] (session_with "s" [tokyo_14])).1
  = Ok [numeric_contradiction "high" "Tokyo has 14 million people"
          "Tokyo has 38 million people" "14 million people" "38 million people"
          "63.2% difference"].
Proof. by_evaluation. Qed.

Lemma detect_paris_2_run :
  (detect_contradictions "s" [paris_2] (session_with "s" [tokyo_14])).1
  = Ok [numeric_contradiction "high" "Tokyo has 14 million people"
          "Paris has 2 million people" "14 million people" "2 million people"
          "85.7% difference"].
Proof. by_evaluation. Qed.

Lemma detect_count_bound_witness :
  (detect_contradictions "s" [tokyo_38] (session_with "s" [tokyo_14])).1
  = Ok [numeric_contradiction "high" "Tokyo has 14 million people"
          "Tokyo has 38 million people" "14 million people" "38 million people"
          "63.2% difference"] ∧
  (length [numeric_contradiction "high" "Tokyo has 14 million people"
             "Tokyo has 38 million people" "14 million people" "38 million people"
             "63.2% difference"]
   ≤ length [tokyo_38]
     * length (default [] (session_facts (session_with "s" [tokyo_14]) !! "s")))%nat.
Proof.
  split; [apply detect_tokyo_38_run |].
  apply (detect_count_bound (session_with "s" [tokyo_14]) "s" [tokyo_38]).
  apply detect_tokyo_38_run.
Defined.

(** X4.  Detection goes new fact by new fact: when it returns for two
    lists of new facts, it returns for the two joined, with the
    contradictions of the first followed by those of the second. *)
Theorem detect_concat
    (self : ContradictionDetector) (session_id : string)
    (new_facts1 new_facts2 cs1 cs2 : list dict) :
  (detect_contradictions session_id new_facts1 self).1 = Ok cs1 →
  (detect_contradictions session_id new_facts2 self).1 = Ok cs2 →
  (detect_contradictions session_id (new_facts1 ++ new_facts2) self).1
  = Ok (cs1 ++ cs2)%list.
Proof.
  rewrite !detect_default.
  destruct (session_facts self !! session_id) as [history |].
  - intros H1 H2. rewrite scan_all_app, H1. unfold mbind, result_bind.
    by rewrite scan_all_found, H2.
  - by intros [= <-] [= <-].
Qed.

Lemma detect_concat_witness :
  (detect_contradictions "s" [tokyo_38] (session_with "s" [tokyo_14])).1
  = Ok [numeric_contradiction "high" "Tokyo has 14 million people"
          "Tokyo has 38 million people" "14 million people" "38 million people"
          "63.2% difference"] ∧
  (detect_contradictions "s" [paris_2] (session_with "s" [tokyo_14])).1
  = Ok [numeric_contradiction "high" "Tokyo has 14 million people"
          "Paris has 2 million people" "14 million people" "2 million people"
          "85.7% difference"] ∧
  (detect_contradictions "s" ([tokyo_38] ++ [paris_2]) (session_with "s" [tokyo_14])).1
  = Ok ([numeric_contradiction "high" "Tokyo has 14 million people"
           "Tokyo has 38 million people" "14 million people" "38 million people"
           "63.2% difference"]
        ++ [numeric_contradiction "high" "Tokyo has 14 million people"
              "Paris has 2 million people" "14 million people" "2 million people"
              "85.7% difference"])%list.
Proof.
  split; [apply detect_tokyo_38_run |]. split; [apply detect_paris_2_run |].
  apply (detect_concat (session_with "s" [tokyo_14]) "s" [tokyo_38] [paris_2]).
  - apply detect_tokyo_38_run.
  - apply detect_paris_2_run.
Defined.

End DetectorHistory.

Section DetectorRules.
Import Detector.

Lemma extract_number_str entity : ∃ o, _extract_number (PStr entity) = Ok o.
Proof.
  unfold _extract_number. simpl. unfold mbind, result_bind.
  destruct (Re.search number_re _); [| by eexists].
  destruct (Num.float _); by eexists.
Qed.

Lemma extract_year_str entity : ∃ o, _extract_year (PStr entity) = Ok o.
Proof.
  unfold _extract_year. simpl. unfold mbind, result_bind.
  destruct (Re.search year_re _); by eexists.
Qed.

Lemma extract_is_statement_str sentence :
  ∃ o, _extract_is_statement (PStr sentence) = Ok o.
Proof.
  unfold _extract_is_statement. simpl. unfold mbind, result_bind.
  destruct (Re.search is_statement_re _); by eexists.
Qed.

Lemma same_subject_str sentence1 sentence2 :
  ∃ b, _same_subject (PStr sentence1) (PStr sentence2) = Ok b ∧
       _same_subject (PStr sentence2) (PStr sentence1) = Ok b.
Proof.
  unfold _same_subject. simpl. unfold mbind, result_bind.
  eexists. split; [reflexivity |].
  by rewrite (comm_L (∩) (list_to_set (take 5 (Str.split (Str.lower sentence2))))).
Qed.

Lemma similar_text_comm text1 text2 : _similar_text text1 text2 = _similar_text text2 text1.
Proof.
  unfold _similar_text.
  rewrite (orb_comm (bool_decide (list_to_set (Str.split (Str.lower text1)) = ∅))).
  rewrite (comm_L (∩) (list_to_set (Str.split (Str.lower text1)))).
  by rewrite Nat.min_comm.
Qed.

Lemma similar_text_returns text1 text2 : ∃ b, _similar_text text1 text2 = Ok b.
Proof.
  unfold _similar_text.
  destruct (bool_decide _ || bool_decide _) eqn:Hempty; [by eexists |].
  apply orb_false_iff in Hempty as [H1 H2].
  apply bool_decide_eq_false in H1, H2.
  unfold Num.div, mbind, result_bind.
  destruct (Qeq_bool _ 0) eqn:Hz; [| by eexists].
  exfalso. apply Qeq_bool_eq in Hz. unfold Qeq in Hz. simpl in Hz.
  assert (∀ X : gset string, X ≠ ∅ → size X ≠ 0) as Hsize.
  { intros X HX Hs. apply HX, leibniz_equiv. by apply size_empty_iff. }
  apply Hsize in H1, H2. lia.
Qed.

Lemma ltb_comp x y z : (y == z)%Q → Num.ltb x y = Num.ltb x z.
Proof. intros H. unfold Num.ltb. by rewrite H. Qed.

Lemma numeric_shape fact1 fact2 c :
  _check_numeric_contradiction fact1 fact2 = Ok (Some c) →
  c !! "type" = Some (PStr "numeric_contradiction") ∧
  (c !! "severity" = Some (PStr "high") ∨ c !! "severity" = Some (PStr "medium")) ∧
  c !! "previous_claim" = fact2 !! "sentence" ∧
  c !! "current_claim" = fact1 !! "sentence" ∧
  c !! "previous_value" = fact2 !! "entity" ∧
  c !! "current_value" = fact1 !! "entity" ∧
  (∃ d, c !! "difference" = Some (PStr d)) ∧
  (∃ msg, c !! "message" = Some (PStr msg)).
Proof.
  unfold _check_numeric_contradiction, dict_item, mbind, result_bind.
  repeat (case_match; try discriminate).
  all: intros [= <-]; simplify_eq.
  all: repeat split; try reflexivity; try (by left); try (by right); by eexists.
Qed.

Lemma date_shape fact1 fact2 c :
  _check_date_contradiction fact1 fact2 = Ok (Some c) →
  c !! "type" = Some (PStr "date_contradiction") ∧
  c !! "severity" = Some (PStr "high") ∧
  c !! "previous_claim" = fact2 !! "sentence" ∧
  c !! "current_claim" = fact1 !! "sentence" ∧
  c !! "previous_value" = fact2 !! "entity" ∧
  c !! "current_value" = fact1 !! "entity" ∧
  (∃ d, c !! "difference" = Some (PStr d)) ∧
  (∃ msg, c !! "message" = Some (PStr msg)).
Proof.
  unfold _check_date_contradiction, dict_item, mbind, result_bind.
  repeat (case_match; try discriminate).
  all: intros [= <-]; simplify_eq.
  all: repeat split; try reflexivity; by eexists.
Qed.

Lemma entity_shape fact1 fact2 c :
  _check_entity_contradiction fact1 fact2 = Ok (Some c) →
  c !! "type" = Some (PStr "entity_contradiction") ∧
  c !! "severity" = Some (PStr "high") ∧
  c !! "previous_claim" = fact2 !! "sentence" ∧
  c !! "current_claim" = fact1 !! "sentence" ∧
  c !! "previous_value" = None ∧
  c !! "current_value" = None ∧
  c !! "difference" = None ∧
  (∃ msg, c !! "message" = Some (PStr msg)).
Proof.
  unfold _check_entity_contradiction, dict_item, mbind, result_bind.
  repeat (case_match; try discriminate).
  all: intros [= <-]; simplify_eq.
  all: repeat split; try reflexivity; by eexists.
Qed.

Lemma check_fact_pair_rule fact1 fact2 c :
  _check_fact_pair fact1 fact2 = Ok (Some c) →
  fact1 !! "entity_type" = fact2 !! "entity_type" ∧
  (_check_numeric_contradiction fact1 fact2 = Ok (Some c) ∨
   _check_date_contradiction fact1 fact2 = Ok (Some c) ∨
   _check_entity_contradiction fact1 fact2 = Ok (Some c)).
Proof.
  unfold _check_fact_pair, dict_item, mbind, result_bind.
  destruct (fact1 !! "entity_type") as [type1 |]; [| discriminate].
  destruct (fact2 !! "entity_type") as [type2 |]; [| discriminate].
  unfold py_eq at 1. case_bool_decide as Heq; cbv [negb]; [subst type2 | discriminate].
  destruct (py_in type1 numeric_types); [intros H; split; [done | by left] |].
  destruct (py_eq type1 (PStr "DATE")); [intros H; split; [done | by right; left] |].
  destruct (py_in type1 entity_types); [| discriminate].
  intros H; split; [done | by right; right].
Qed.

(** X5.  Every contradiction [_check_fact_pair] returns is between two
    facts of the same entity type and says which rule found it: its
    sentences are those of the two facts, its severity is high or medium,
    and it carries the two values and a difference when the rule is numeric
    or date, and none of them when it is the entity rule. *)
Theorem contradiction_shape (fact1 fact2 c : dict) :
  _check_fact_pair fact1 fact2 = Ok (Some c) →
  fact1 !! "entity_type" = fact2 !! "entity_type" ∧
  c !! "previous_claim" = fact2 !! "sentence" ∧
  c !! "current_claim" = fact1 !! "sentence" ∧
  (c !! "severity" = Some (PStr "high") ∨ c !! "severity" = Some (PStr "medium")) ∧
  (∃ msg, c !! "message" = Some (PStr msg)) ∧
  (((c !! "type" = Some (PStr "numeric_contradiction") ∨
     c !! "type" = Some (PStr "date_contradiction")) ∧
    c !! "previous_value" = fact2 !! "entity" ∧
    c !! "current_value" = fact1 !! "entity" ∧
    (∃ d, c !! "difference" = Some (PStr d))) ∨
   (c !! "type" = Some (PStr "entity_contradiction") ∧
    c !! "previous_value" = None ∧
    c !! "current_value" = None ∧
    c !! "difference" = None)).
Proof.
  intros H. apply check_fact_pair_rule in H as [Htypes [H | [H | H]]].
  - apply numeric_shape in H as (? & ? & ? & ? & ? & ? & ? & ?). eauto 15.
  - apply date_shape in H as (? & ? & ? & ? & ? & ? & ? & ?). eauto 15.
  - apply entity_shape in H as (? & ? & ? & ? & ? & ? & ? & ?). eauto 15.
Qed.

Lemma contradiction_shape_witness :
  _check_fact_pair tokyo_38 tokyo_14
  = Ok (Some (numeric_contradiction "high" "Tokyo has 14 million people"
                "Tokyo has 38 million people" "14 million people" "38 million people"
                "63.2% difference")) ∧
  let c := numeric_contradiction "high" "Tokyo has 14 million people"
             "Tokyo has 38 million people" "14 million people" "38 million people"
             "63.2% difference" in
  tokyo_38 !! "entity_type" = tokyo_14 !! "entity_type" ∧
  c !! "previous_claim" = tokyo_14 !! "sentence" ∧
  c !! "current_claim" = tokyo_38 !! "sentence" ∧
  (c !! "severity" = Some (PStr "high") ∨ c !! "severity" = Some (PStr "medium")) ∧
  (∃ msg, c !! "message" = Some (PStr msg)) ∧
  (((c !! "type" = Some (PStr "numeric_contradiction") ∨
     c !! "type" = Some (PStr "date_contradiction")) ∧
    c !! "previous_value" = tokyo_14 !! "entity" ∧
    c !! "current_value" = tokyo_38 !! "entity" ∧
    (∃ d, c !! "difference" = Some (PStr d))) ∨
   (c !! "type" = Some (PStr "entity_contradiction") ∧
    c !! "previous_value" = None ∧
    c !! "current_value" = None ∧
    c !! "difference" = None)).
Proof.
  split; [by_evaluation |].
  apply (contradiction_shape tokyo_38 tokyo_14). by_evaluation.
Defined.

End DetectorRules.

Section DetectorSymmetry.
Import Detector.

Lemma numeric_symmetric fact1 fact2 entity1 entity2 sentence1 sentence2 :
  fact1 !! "entity" = Some (PStr entity1) → fact1 !! "sentence" = Some (PStr sentence1) →
  fact2 !! "entity" = Some (PStr entity2) → fact2 !! "sentence" = Some (PStr sentence2) →
  verdict (_check_numeric_contradiction fact1 fact2)
  = verdict (_check_numeric_contradiction fact2 fact1).
Proof.
  intros He1 Hs1 He2 Hs2. unfold _check_numeric_contradiction, dict_item.
  rewrite He1, He2, Hs1, Hs2.
  destruct (extract_number_str entity1) as [o1 Ho1].
  destruct (extract_number_str entity2) as [o2 Ho2].
  unfold mbind, result_bind. rewrite Ho1, Ho2.
  destruct o1 as [a |], o2 as [b |]; try reflexivity.
  destruct (same_subject_str sentence1 sentence2) as (same & H12 & H21).
  rewrite H12, H21. destruct same; [| reflexivity]. cbv [negb].
  rewrite (Qabs_Qminus b a). unfold Num.div.
  rewrite (Qeqb_comp _ _ (Q.max_comm b a) 0%Q 0%Q (Qeq_refl 0%Q)).
  destruct (Qeq_bool (Qmax a b) 0%Q) eqn:Hz; [reflexivity |].
  assert (Hd : (Qabs (a - b) / Qmax b a * 100 == Qabs (a - b) / Qmax a b * 100)%Q).
  { by rewrite (Q.max_comm b a). }
  rewrite (ltb_comp 20%Q _ _ Hd), (ltb_comp 50%Q _ _ Hd).
  destruct (Num.ltb 20 _); [| reflexivity].
  destruct (Num.ltb 50 _); reflexivity.
Qed.

Lemma date_symmetric fact1 fact2 entity1 entity2 sentence1 sentence2 :
  fact1 !! "entity" = Some (PStr entity1) → fact1 !! "sentence" = Some (PStr sentence1) →
  fact2 !! "entity" = Some (PStr entity2) → fact2 !! "sentence" = Some (PStr sentence2) →
  verdict (_check_date_contradiction fact1 fact2)
  = verdict (_check_date_contradiction fact2 fact1).
Proof.
  intros He1 Hs1 He2 Hs2. unfold _check_date_contradiction, dict_item.
  rewrite He1, He2, Hs1, Hs2.
  destruct (extract_year_str entity1) as [o1 Ho1].
  destruct (extract_year_str entity2) as [o2 Ho2].
  unfold mbind, result_bind. rewrite Ho1, Ho2.
  destruct o1 as [year1 |], o2 as [year2 |]; try reflexivity.
  rewrite (Z.eqb_sym year2 year1).
  destruct (Z.eqb year1 year2); [reflexivity |].
  destruct (same_subject_str sentence1 sentence2) as (same & H12 & H21).
  rewrite H12, H21. destruct same; reflexivity.
Qed.

Lemma entity_symmetric fact1 fact2 sentence1 sentence2 :
  fact1 !! "sentence" = Some (PStr sentence1) →
  fact2 !! "sentence" = Some (PStr sentence2) →
  verdict (_check_entity_contradiction fact1 fact2)
  = verdict (_check_entity_contradiction fact2 fact1).
Proof.
  intros Hs1 Hs2. unfold _check_entity_contradiction, dict_item.
  rewrite Hs1, Hs2.
  destruct (extract_is_statement_str sentence1) as [o1 Ho1].
  destruct (extract_is_statement_str sentence2) as [o2 Ho2].
  unfold mbind, result_bind. rewrite Ho1, Ho2.
  destruct o1 as [[subject1 claim1] |], o2 as [[subject2 claim2] |]; try reflexivity.
  rewrite (similar_text_comm subject2 subject1), (similar_text_comm claim2 claim1).
  destruct (_similar_text subject1 subject2) as [[|] |]; try reflexivity. cbv [negb].
  destruct (_similar_text claim1 claim2) as [[|] |]; reflexivity.
Qed.

(** X6.  The comparison of two claims does not depend on which of them
    is the new one: both orders raise, or both find nothing, or both find
    a contradiction of the same kind and severity. *)
Theorem check_fact_pair_symmetric (fact1 fact2 : dict) :
  is_claim fact1 = true → is_claim fact2 = true →
  verdict (_check_fact_pair fact1 fact2) = verdict (_check_fact_pair fact2 fact1).
Proof.
  intros H1 H2.
  destruct (is_claim_fields fact1 H1) as (e1 & t1 & s1 & He1 & Ht1 & Hs1).
  destruct (is_claim_fields fact2 H2) as (e2 & t2 & s2 & He2 & Ht2 & Hs2).
  unfold _check_fact_pair, dict_item. rewrite Ht1, Ht2.
  unfold mbind, result_bind. unfold py_eq at 1 3.
  destruct (decide (t1 = t2)) as [<- | Hne].
  - rewrite !bool_decide_eq_true_2 by done. cbv [negb].
    destruct (py_in (PStr t1) numeric_types); [by eapply numeric_symmetric |].
    destruct (py_eq (PStr t1) (PStr "DATE")); [by eapply date_symmetric |].
    destruct (py_in (PStr t1) entity_types); [by eapply entity_symmetric | reflexivity].
  - rewrite !bool_decide_eq_false_2 by congruence. reflexivity.
Qed.

Lemma check_fact_pair_symmetric_witness :
  is_claim tokyo_38 = true ∧ is_claim tokyo_14 = true ∧
  verdict (_check_fact_pair tokyo_38 tokyo_14) = verdict (_check_fact_pair tokyo_14 tokyo_38).
Proof.
  split; [vm_compute; reflexivity |]. split; [vm_compute; reflexivity |].
  apply (check_fact_pair_symmetric tokyo_38 tokyo_14); vm_compute; reflexivity.
Defined.

Lemma numeric_self fact c : _check_numeric_contradiction fact fact ≠ Ok (Some c).
Proof.
  unfold _check_numeric_contradiction, dict_item, mbind, result_bind.
  destruct (fact !! "entity") as [entity |]; [| discriminate].
  destruct (_extract_number entity) as [[a |] |]; try discriminate.
  destruct (fact !! "sentence") as [sentence |]; [| discriminate].
  destruct (_same_subject sentence sentence) as [[|] |]; try discriminate. cbv [negb].
  unfold Num.div. destruct (Qeq_bool (Qmax a a) 0%Q); [discriminate |].
  replace (Num.ltb 20%Q (Qabs (a - a) / Qmax a a * 100)) with false; [discriminate |].
  symmetry. unfold Num.ltb. apply negb_false_iff, Qle_bool_iff.
  assert (Hzero : (Qabs (a - a) == 0)%Q).
  { assert (Ha : (a - a == 0)%Q) by ring. by rewrite Ha. }
  rewrite Hzero. unfold Qdiv. rewrite !Qmult_0_l. discriminate.
Qed.

Lemma date_self fact c : _check_date_contradiction fact fact ≠ Ok (Some c).
Proof.
  unfold _check_date_contradiction, dict_item, mbind, result_bind.
  destruct (fact !! "entity") as [entity |]; [| discriminate].
  destruct (_extract_year entity) as [[year |] |]; try discriminate.
  by rewrite Z.eqb_refl.
Qed.

(** X7.  A fact of a numeric type or of type DATE never contradicts
    itself: compared with itself, as happens when a list of facts is added
    to the history and then checked against it, it yields no
    contradiction. *)
Theorem no_self_contradiction (fact : dict) (entity_type : string) :
  fact !! "entity_type" = Some (PStr entity_type) →
  entity_type ∈ numeric_types ∨ entity_type = "DATE" →
  ∀ c, _check_fact_pair fact fact ≠ Ok (Some c).
Proof.
  intros Htype Hkind c H. destruct Hkind as [Hnum | ->].
  - rewrite (numeric_types_dispatch fact fact entity_type) in H by done.
    by apply numeric_self in H.
  - unfold _check_fact_pair, dict_item in H. rewrite Htype in H.
    change (_check_date_contradiction fact fact = Ok (Some c)) in H.
    by apply date_self in H.
Qed.

Lemma no_self_contradiction_witness :
  tokyo_14 !! "entity_type" = Some (PStr "POPULATION") ∧
  ("POPULATION" ∈ numeric_types ∨ "POPULATION" = "DATE") ∧
  ∀ c, _check_fact_pair tokyo_14 tokyo_14 ≠ Ok (Some c).
Proof.
  split; [vm_compute; reflexivity |].
  split; [left; unfold numeric_types; set_solver |].
  apply (no_self_contradiction tokyo_14 "POPULATION").
  - vm_compute; reflexivity.
  - left. unfold numeric_types. set_solver.
Defined.

(** The entity rule has no such guarantee: a sentence that ends in
    blanks after "is" makes a fact contradict itself. *)
Lemma entity_rule_self_contradiction :
  _check_fact_pair paris_is_blank paris_is_blank
  = Ok (Some (dict_of
      [("type", PStr "entity_contradiction");
       ("severity", PStr "high");
       ("previous_claim", PStr "Paris is  ");
       ("current_claim", PStr "Paris is  ");
       ("message", PStr "Contradiction: Different information about Paris")])).
Proof. by_evaluation. Qed.

End DetectorSymmetry.

(** ** The scorer *)

Section ScorerExtras.
Import Scorer.

Lemma determine_level_color facts score :
  ∃ level color emoji,
    _determine_confidence_level score (_calculate_stats facts) = Ok (level, color, emoji) ∧
    level = level_decision (count_tier Low facts) (length facts) score ∧
    ((level = "low" ∧ color = "red") ∨ (level = "medium" ∧ color = "yellow") ∨
     (level = "high" ∧ color = "green")).
Proof.
  destruct (determine_confidence_level_spec facts score) as (color & emoji & H).
  exists (level_decision (count_tier Low facts) (length facts) score), color, emoji.
  split; [exact H |]. split; [reflexivity |].
  revert H. unfold _determine_confidence_level, mbind, result_bind.
  repeat (case_match; try discriminate); intros [= Hl <- <-]; rewrite <- Hl; auto.
Qed.

(** X8.  [score_response] reports the level unknown, in gray, for the
    empty list and for no other: for a list with facts the level is low,
    medium or high, in red, yellow or green. *)
Theorem level_unknown_iff_empty (verified_facts : list dict) :
  ∃ report,
    score_response verified_facts = Ok report ∧
    (overall_confidence report = "unknown" ↔ verified_facts = []) ∧
    ((overall_confidence report = "unknown" ∧ color report = "gray") ∨
     (overall_confidence report = "low" ∧ color report = "red") ∨
     (overall_confidence report = "medium" ∧ color report = "yellow") ∨
     (overall_confidence report = "high" ∧ color report = "green")).
Proof.
  destruct verified_facts as [| fact facts].
  - eexists. split; [reflexivity |]. simpl. split; [done | by left].
  - destruct (calculate_confidence_score_spec (fact :: facts)) as (score & Hscore & _).
    destruct (determine_level_color (fact :: facts) score)
      as (level & color & emoji & Hlevel & Hdecision & Hcolor).
    destruct (generate_summary_returns (fact :: facts)
                (count_tier Low (fact :: facts)) (length (fact :: facts)) score)
      as (summary & Hsummary).
    rewrite <- Hdecision in Hsummary.
    eexists. split.
    { unfold score_response. rewrite Hscore. unfold mbind at 1, result_bind at 1.
      rewrite Hlevel. unfold mbind at 1, result_bind at 1.
      rewrite Hsummary. reflexivity. }
    simpl. split.
    + split; [| discriminate].
      destruct Hcolor as [[-> _] | [[-> _] | [-> _]]]; discriminate.
    + right. exact Hcolor.
Qed.

Lemma coupled_cases fact :
  coupled fact = true →
  (fact !! "verified" = Some (PBool true) ∧ fact !! "confidence" = Some (PStr "high")) ∨
  (fact !! "verified" = Some (PBool true) ∧ fact !! "confidence" = Some (PStr "medium")) ∨
  (fact !! "verified" = Some (PBool false) ∧ fact !! "confidence" = Some (PStr "low")) ∨
  (fact !! "verified" = Some (PBool false) ∧ fact !! "confidence" = Some (PStr "unknown")).
Proof.
  unfold coupled.
  destruct (fact !! "verified") as [[| [|] |] |]; try discriminate;
    destruct (fact !! "confidence") as [[| | tier] |]; try discriminate.
  - intros [->%String.eqb_eq | ->%String.eqb_eq]%orb_true_iff; auto.
  - intros [->%String.eqb_eq | ->%String.eqb_eq]%orb_true_iff; auto.
Qed.

Lemma count_cons p fact facts :
  count p (fact :: facts) = ((if p fact then 1 else 0) + count p facts)%nat.
Proof. unfold count. simpl. by destruct (p fact). Qed.

(** What the six tests of [_calculate_stats] answer on a coupled fact. *)
Lemma coupled_indicators fact :
  coupled fact = true →
  let tests :=
    (py_eq (dict_get fact "verified") (PBool true),
     py_eq (dict_get fact "verified") (PBool false) && negb (confidence_is "unknown" fact),
     confidence_is "unknown" fact, confidence_is "high" fact,
     confidence_is "medium" fact, confidence_is "low" fact) in
  tests = (true, false, false, true, false, false) ∨
  tests = (true, false, false, false, true, false) ∨
  tests = (false, true, false, false, false, true) ∨
  tests = (false, false, true, false, false, false).
Proof.
  intros Hfact. unfold confidence_is, dict_get.
  destruct (coupled_cases fact Hfact) as [[-> ->] | [[-> ->] | [[-> ->] | [-> ->]]]];
    vm_compute; auto.
Qed.

(** The counts of a list of coupled facts. *)
Lemma coupled_counts facts :
  Forall (λ fact, coupled fact = true) facts →
  let verified := count (λ f, py_eq (dict_get f "verified") (PBool true)) facts in
  let unverified := count (λ f, py_eq (dict_get f "verified") (PBool false)
                                && negb (confidence_is "unknown" f)) facts in
  let unknown := count (confidence_is "unknown") facts in
  let high_conf := count (confidence_is "high") facts in
  let medium_conf := count (confidence_is "medium") facts in
  let low_conf := count (confidence_is "low") facts in
  (verified + unverified + unknown = length facts ∧
   high_conf + medium_conf + low_conf + unknown = length facts ∧
   verified = high_conf + medium_conf ∧
   unverified = low_conf)%nat.
Proof.
  induction 1 as [| fact facts Hfact _ IH]; [done |].
  simpl in IH. destruct IH as (IH1 & IH2 & IH3 & IH4).
  cbv zeta. rewrite !count_cons. cbv beta. simpl length.
  destruct (coupled_indicators fact Hfact) as [H | [H | [H | H]]];
    injection H as -> -> -> -> -> ->; lia.
Qed.

Lemma coupled_counts_stats facts :
  let stats := _calculate_stats facts in
  stats !! "total_facts" = Some (length facts) ∧
  stats !! "verified"
  = Some (count (λ f, py_eq (dict_get f "verified") (PBool true)) facts) ∧
  stats !! "unverified"
  = Some (count (λ f, py_eq (dict_get f "verified") (PBool false)
                      && negb (confidence_is "unknown" f)) facts) ∧
  stats !! "unknown" = Some (count (confidence_is "unknown") facts) ∧
  stats !! "high_confidence" = Some (count (confidence_is "high") facts) ∧
  stats !! "medium_confidence" = Some (count (confidence_is "medium") facts) ∧
  stats !! "low_confidence" = Some (count (confidence_is "low") facts).
Proof. repeat split. Qed.

(** X9.  On facts that couple the flag and the tier, as the results of
    the verifier do, the statistics account for every fact once: verified,
    unverified and unknown add up to the total, so do the four tiers, the
    verified facts are the high and medium ones and the unverified facts
    the low ones. *)
Theorem stats_partition (verified_facts : list dict) :
  Forall (λ fact, coupled fact = true) verified_facts →
  ∃ total verified unverified unknown high_conf medium_conf low_conf,
    _calculate_stats verified_facts !! "total_facts" = Some total ∧
    _calculate_stats verified_facts !! "verified" = Some verified ∧
    _calculate_stats verified_facts !! "unverified" = Some unverified ∧
    _calculate_stats verified_facts !! "unknown" = Some unknown ∧
    _calculate_stats verified_facts !! "high_confidence" = Some high_conf ∧
    _calculate_stats verified_facts !! "medium_confidence" = Some medium_conf ∧
    _calculate_stats verified_facts !! "low_confidence" = Some low_conf ∧
    total = length verified_facts ∧
    (verified + unverified + unknown = total ∧
     high_conf + medium_conf + low_conf + unknown = total ∧
     verified = high_conf + medium_conf ∧
     unverified = low_conf)%nat.
Proof.
  intros Hcoupled.
  destruct (coupled_counts_stats verified_facts) as (H1 & H2 & H3 & H4 & H5 & H6 & H7).
  do 7 eexists. repeat (split; [eassumption |]). split; [reflexivity |].
  by apply coupled_counts.
Qed.

Lemma three_high_coupled : Forall (λ fact, coupled fact = true) three_high.
Proof. repeat constructor. Qed.

Lemma stats_partition_witness :
  Forall (λ fact, coupled fact = true) three_high ∧
  ∃ total verified unverified unknown high_conf medium_conf low_conf,
    _calculate_stats three_high !! "total_facts" = Some total ∧
    _calculate_stats three_high !! "verified" = Some verified ∧
    _calculate_stats three_high !! "unverified" = Some unverified ∧
    _calculate_stats three_high !! "unknown" = Some unknown ∧
    _calculate_stats three_high !! "high_confidence" = Some high_conf ∧
    _calculate_stats three_high !! "medium_confidence" = Some medium_conf ∧
    _calculate_stats three_high !! "low_confidence" = Some low_conf ∧
    total = length three_high ∧
    (verified + unverified + unknown = total ∧
     high_conf + medium_conf + low_conf + unknown = total ∧
     verified = high_conf + medium_conf ∧
     unverified = low_conf)%nat.
Proof.
  split; [apply three_high_coupled |].
  apply (stats_partition three_high). repeat constructor.
Defined.

Lemma coupled_buckets fact :
  coupled fact = true →
  let in_verified :=
    py_eq (dict_get fact "verified") (PBool true) && confidence_is "high" fact in
  let in_uncertain := py_in (dict_get fact "confidence") ["medium"; "unknown"] in
  let in_contradicted :=
    py_eq (dict_get fact "verified") (PBool false) && confidence_is "low" fact in
  (in_verified = true ∧ in_uncertain = false ∧ in_contradicted = false) ∨
  (in_verified = false ∧ in_uncertain = true ∧ in_contradicted = false) ∨
  (in_verified = false ∧ in_uncertain = false ∧ in_contradicted = true).
Proof.
  intros Hfact. unfold confidence_is, dict_get.
  destruct (coupled_cases fact Hfact) as [[-> ->] | [[-> ->] | [[-> ->] | [-> ->]]]];
    vm_compute; auto.
Qed.

Lemma coupled_buckets_perm facts :
  Forall (λ fact, coupled fact = true) facts →
  (List.filter (λ f, py_eq (dict_get f "verified") (PBool true)
                     && confidence_is "high" f) facts
   ++ List.filter (λ f, py_in (dict_get f "confidence") ["medium"; "unknown"]) facts
   ++ List.filter (λ f, py_eq (dict_get f "verified") (PBool false)
                        && confidence_is "low" f) facts)%list
  ≡ₚ facts.
Proof.
  induction 1 as [| fact facts Hfact _ IH]; [done |].
  cbn [List.filter].
  destruct (coupled_buckets fact Hfact) as [(-> & -> & ->) | [(-> & -> & ->) | (-> & -> & ->)]].
  - simpl. by rewrite IH.
  - cbn [app]. rewrite <- Permutation_middle. by rewrite IH.
  - rewrite app_assoc, <- Permutation_middle, <- app_assoc. by rewrite IH.
Qed.

(** X10.  On facts that couple the flag and the tier, the three buckets
    of [_categorize_facts] hold every fact once: joined, they are a
    rearrangement of the list. *)
Theorem categories_partition (verified_facts : list dict) :
  Forall (λ fact, coupled fact = true) verified_facts →
  ∃ verified uncertain contradicted,
    _categorize_facts verified_facts !! "verified" = Some verified ∧
    _categorize_facts verified_facts !! "uncertain" = Some uncertain ∧
    _categorize_facts verified_facts !! "contradicted" = Some contradicted ∧
    (verified ++ uncertain ++ contradicted)%list ≡ₚ verified_facts ∧
    (length verified + length uncertain + length contradicted
     = length verified_facts)%nat.
Proof.
  intros Hcoupled. do 3 eexists.
  split; [reflexivity |]. split; [reflexivity |]. split; [reflexivity |].
  pose proof (coupled_buckets_perm verified_facts Hcoupled) as Hperm.
  split; [exact Hperm |].
  apply Permutation_length in Hperm. rewrite !length_app in Hperm. lia.
Qed.

Lemma categories_partition_witness :
  Forall (λ fact, coupled fact = true) three_high ∧
  ∃ verified uncertain contradicted,
    _categorize_facts three_high !! "verified" = Some verified ∧
    _categorize_facts three_high !! "uncertain" = Some uncertain ∧
    _categorize_facts three_high !! "contradicted" = Some contradicted ∧
    (verified ++ uncertain ++ contradicted)%list ≡ₚ three_high ∧
    (length verified + length uncertain + length contradicted = length three_high)%nat.
Proof.
  split; [apply three_high_coupled |].
  apply (categories_partition three_high). repeat constructor.
Defined.




(** The rule does bite: here the score alone would give medium. *)
Lemma majority_low_overrides_medium :
  ∃ score report,
    _calculate_confidence_score (_calculate_stats mostly_low) mostly_low = Ok score ∧
    Qle_bool 0.5 score = true ∧
    Qle_bool 0.8 score = false ∧
    score_response mostly_low = Ok report ∧
    overall_confidence report = "low".
Proof. do 2 eexists. repeat split; vm_compute; reflexivity. Qed.

End ScorerExtras.

(** ** The verifier *)

Section VerifierExtras.
Import Verifier.

Variable wiki_page : string → result WikipediaPage.

Lemma dict_update_union (d : dict) kvs : dict_update d kvs = dict_update ∅ kvs ∪ d.
Proof.
  unfold dict_update. induction kvs as [| kv kvs IH] using rev_ind; simpl.
  - by rewrite (left_id_L ∅ (∪)).
  - rewrite !foldl_app. simpl. rewrite IH. by rewrite insert_union_l.
Qed.

Lemma unverified_fields fact note : unverified fact note = failure_fields note ∪ fact.
Proof. unfold unverified, failure_fields, dict_of. apply dict_update_union. Qed.

Lemma verify_against_content_cong fact fact' page_text page_summary :
  fact' !! "entity" = fact !! "entity" →
  fact' !! "entity_type" = fact !! "entity_type" →
  _verify_against_content fact' page_text page_summary
  = _verify_against_content fact page_text page_summary.
Proof.
  intros He Ht. unfold _verify_against_content, dict_item. by rewrite He, Ht.
Qed.

Lemma verify_against_content_form fact page_text page_summary vr :
  _verify_against_content fact page_text page_summary = Ok vr →
  ∃ verified tier note,
    vr = dict_of [("verified", PBool verified); ("confidence", PStr tier);
                  ("verification_note", PStr note)].
Proof.
  unfold _verify_against_content, dict_item, str_method, as_str, mbind, result_bind.
  repeat (case_match; try discriminate); intros [= <-]; by eexists _, _, _.
Qed.

Lemma checked_fields_union verified tier note url title (fact : dict) :
  dict_update
    (dict_of [("verified", PBool verified); ("confidence", PStr tier);
              ("verification_note", PStr note)] ∪ fact)
    [("wikipedia_url", PStr url); ("wikipedia_title", PStr title)]
  = checked_fields verified tier note url title ∪ fact.
Proof.
  by rewrite dict_update_union, (assoc_L (∪)).
Qed.

(** The fields [search_wikipedia] lays over a fact depend on the fact
    through its entity and its type only. *)
Lemma search_wikipedia_overlay (fact : dict) search_query :
  ∃ outcome : result dict,
    (∀ delta, outcome = Ok delta →
       (∃ note, delta = failure_fields note) ∨
       (∃ verified tier note url title,
          delta = checked_fields verified tier note url title)) ∧
    ∀ fact' : dict,
      fact' !! "entity" = fact !! "entity" →
      fact' !! "entity_type" = fact !! "entity_type" →
      search_wikipedia wiki_page fact' search_query
      = match outcome with
        | Ok delta => Ok (delta ∪ fact')
        | Raise e => Raise e
        end.
Proof.
  unfold search_wikipedia, mbind, result_bind.
  destruct (wiki_page search_query) as [page | e].
  2: { exists (Raise e). split; [discriminate | done]. }
  destruct (page_exists page) as [[|] | e].
  3: { exists (Raise e). split; [discriminate | done]. }
  2: { eexists (Ok (failure_fields _)). split.
       - intros delta [= <-]. left. by eexists.
       - intros fact' _ _. simpl. by rewrite unverified_fields. }
  cbv [negb]. destruct (page_text page) as [text | e].
  2: { exists (Raise e). split; [discriminate | done]. }
  destruct (page_summary page) as [summary | e].
  2: { exists (Raise e). split; [discriminate | done]. }
  destruct (_verify_against_content fact (Str.lower text) (Str.lower summary))
    as [vr | e] eqn:Hvr.
  2: { exists (Raise e). split; [discriminate |].
       intros fact' He Ht. by rewrite (verify_against_content_cong fact fact'), Hvr. }
  destruct (verify_against_content_form _ _ _ _ Hvr) as (verified & tier & note & ->).
  destruct (page_fullurl page) as [url | e].
  2: { exists (Raise e). split; [discriminate |].
       intros fact' He Ht. by rewrite (verify_against_content_cong fact fact'), Hvr. }
  destruct (page_title page) as [title | e].
  2: { exists (Raise e). split; [discriminate |].
       intros fact' He Ht. by rewrite (verify_against_content_cong fact fact'), Hvr. }
  exists (Ok (checked_fields verified tier note url title)). split.
  - intros delta [= <-]. right. by eexists _, _, _, _, _.
  - intros fact' He Ht. rewrite (verify_against_content_cong fact fact'), Hvr by done.
    by rewrite checked_fields_union.
Qed.

(** So do the fields [verify_fact] lays over it, with the sentence. *)
Lemma verify_fact_overlay (fact : dict) :
  ∃ outcome : result dict,
    (∀ delta, outcome = Ok delta →
       (∃ note, delta = failure_fields note) ∨
       (∃ verified tier note url title,
          delta = checked_fields verified tier note url title)) ∧
    ∀ fact' : dict,
      fact' !! "entity" = fact !! "entity" →
      fact' !! "entity_type" = fact !! "entity_type" →
      fact' !! "sentence" = fact !! "sentence" →
      verify_fact wiki_page fact'
      = match outcome with
        | Ok delta => Ok (delta ∪ fact')
        | Raise e => Raise e
        end.
Proof.
  unfold verify_fact, dict_item, mbind, result_bind.
  destruct (fact !! "entity") as [entity |] eqn:Hfe.
  2: { eexists (Raise _). split; [discriminate |]. by intros fact' -> _ _. }
  destruct (fact !! "entity_type") as [entity_type |] eqn:Hft.
  2: { eexists (Raise _). split; [discriminate |]. by intros fact' -> -> _. }
  destruct (fact !! "sentence") as [sentence |].
  2: { eexists (Raise _). split; [discriminate |]. by intros fact' -> -> ->. }
  destruct (_create_search_query entity entity_type sentence) as [query | e] eqn:Hq.
  2: { exists (Raise e). split; [discriminate |]. intros fact' -> -> ->. by rewrite Hq. }
  destruct (truthy query) eqn:Htruthy.
  2: { eexists (Ok (failure_fields _)). split.
       - intros delta [= <-]. left. by eexists.
       - intros fact' -> -> ->. rewrite Hq, Htruthy. simpl. by rewrite unverified_fields. }
  destruct (str_method query) as [q | e] eqn:Hstr.
  2: { exists (Raise e). split; [discriminate |].
       intros fact' -> -> ->. by rewrite Hq, Htruthy, Hstr. }
  destruct (String.length (Str.strip q) <? 2)%nat eqn:Hshort.
  { eexists (Ok (failure_fields _)). split.
    - intros delta [= <-]. left. by eexists.
    - intros fact' -> -> ->. rewrite Hq, Htruthy, Hstr. simpl. rewrite Hshort.
      by rewrite unverified_fields. }
  destruct (search_wikipedia_overlay fact q) as ([delta | e] & Hshape & Hsearch).
  - exists (Ok delta). split; [exact Hshape |].
    intros fact' He Ht Hs. rewrite He, Ht, Hs, Hq, Htruthy, Hstr. simpl. rewrite Hshort.
    rewrite (Hsearch fact') by congruence. reflexivity.
  - eexists (Ok (failure_fields _)). split.
    + intros delta [= <-]. left. by eexists.
    + intros fact' He Ht Hs. rewrite He, Ht, Hs, Hq, Htruthy, Hstr. simpl. rewrite Hshort.
      rewrite (Hsearch fact') by congruence. simpl.
      by rewrite unverified_fields.
Qed.

Lemma overlay_outside (delta : dict) k :
  ((∃ note, delta = failure_fields note) ∨
   (∃ verified tier note url title,
      delta = checked_fields verified tier note url title)) →
  k ∉ verification_keys → delta !! k = None.
Proof.
  intros Hshape Hk. unfold verification_keys in Hk.
  repeat (apply not_elem_of_cons in Hk as [? Hk]).
  destruct Hshape as [[note ->] | (verified & tier & note & url & title & ->)].
  - unfold failure_fields, dict_of, dict_update. simpl.
    by rewrite !lookup_insert_ne, lookup_empty by done.
  - unfold checked_fields, dict_of, dict_update. simpl.
    by rewrite !lookup_insert_ne, lookup_empty by done.
Qed.

Lemma verify_fact_union (fact result : dict) :
  verify_fact wiki_page fact = Ok result →
  ∃ delta,
    result = delta ∪ fact ∧
    ((∃ note, delta = failure_fields note) ∨
     (∃ verified tier note url title,
        delta = checked_fields verified tier note url title)) ∧
    ∀ fact' : dict,
      fact' !! "entity" = fact !! "entity" →
      fact' !! "entity_type" = fact !! "entity_type" →
      fact' !! "sentence" = fact !! "sentence" →
      verify_fact wiki_page fact' = Ok (delta ∪ fact').
Proof.
  intros Hresult.
  destruct (verify_fact_overlay fact) as ([delta | e] & Hshape & Hall).
  - exists delta. rewrite (Hall fact) in Hresult by done.
    injection Hresult as <-. split; [done |]. split; [by apply Hshape | exact Hall].
  - by rewrite (Hall fact) in Hresult.
Qed.

Lemma verify_fact_keeps (fact result : dict) k :
  verify_fact wiki_page fact = Ok result →
  k ∉ verification_keys → result !! k = fact !! k.
Proof.
  intros Hresult Hk.
  destruct (verify_fact_union fact result Hresult) as (delta & -> & Hshape & _).
  rewrite lookup_union_r; [done |]. by apply overlay_outside.
Qed.

(** What [search_wikipedia] returns: the failure fields when the page
    does not exist, and otherwise the verdict on the text and the summary
    of the page it fetched, with the address and the title of that page. *)
Lemma search_wikipedia_page (fact : dict) search_query result :
  search_wikipedia wiki_page fact search_query = Ok result →
  (∃ note, result = failure_fields note ∪ fact) ∨
  (∃ page text summary verdict url title,
     wiki_page search_query = Ok page ∧
     page_exists page = Ok true ∧
     page_text page = Ok text ∧
     page_summary page = Ok summary ∧
     _verify_against_content fact (Str.lower text) (Str.lower summary) = Ok verdict ∧
     page_fullurl page = Ok url ∧
     page_title page = Ok title ∧
     result = dict_update (verdict ∪ fact)
                [("wikipedia_url", PStr url); ("wikipedia_title", PStr title)]).
Proof.
  unfold search_wikipedia, mbind, result_bind.
  destruct (wiki_page search_query) as [page |] eqn:Hpage; [| discriminate].
  destruct (page_exists page) as [[|] |] eqn:Hexists; [| | discriminate].
  2: { intros [= <-]. left. eexists. apply unverified_fields. }
  cbv [negb]. destruct (page_text page) as [text |] eqn:Htext; [| discriminate].
  destruct (page_summary page) as [summary |] eqn:Hsummary; [| discriminate].
  destruct (_verify_against_content fact (Str.lower text) (Str.lower summary))
    as [verdict |] eqn:Hverdict; [| discriminate].
  destruct (page_fullurl page) as [url |] eqn:Hurl; [| discriminate].
  destruct (page_title page) as [title |] eqn:Htitle; [| discriminate].
  intros [= <-]. right. by exists page, text, summary, verdict, url, title.
Qed.

(** The same for [verify_fact], whose query is made from the entity, the
    type and the sentence of the fact. *)
Lemma verify_fact_page (fact result : dict) :
  verify_fact wiki_page fact = Ok result →
  (∃ note, result = failure_fields note ∪ fact) ∨
  (∃ entity entity_type sentence search_query,
     fact !! "entity" = Some entity ∧
     fact !! "entity_type" = Some entity_type ∧
     fact !! "sentence" = Some sentence ∧
     _create_search_query entity entity_type sentence = Ok (PStr search_query) ∧
     search_wikipedia wiki_page fact search_query = Ok result).
Proof.
  unfold verify_fact, dict_item, mbind, result_bind.
  destruct (fact !! "entity") as [entity |] eqn:He; [| discriminate].
  destruct (fact !! "entity_type") as [entity_type |] eqn:Ht; [| discriminate].
  destruct (fact !! "sentence") as [sentence |] eqn:Hs; [| discriminate].
  destruct (_create_search_query entity entity_type sentence) as [query |] eqn:Hq;
    [| discriminate].
  destruct (truthy query).
  2: { intros [= <-]. left. eexists. apply unverified_fields. }
  cbv [negb]. destruct query as [| b | q]; try discriminate.
  unfold str_method, as_str.
  destruct (String.length (Str.strip q) <? 2)%nat.
  { intros [= <-]. left. eexists. apply unverified_fields. }
  destruct (search_wikipedia wiki_page fact q) as [r | e] eqn:Hsearch.
  - intros [= <-]. right. by exists entity, entity_type, sentence, q.
  - intros [= <-]. left. eexists. apply unverified_fields.
Qed.

End VerifierExtras.

Section VerifierExtraTheorems.
Import Verifier.

Lemma claim_keys_outside :
  ("entity" ∉ verification_keys) ∧ ("entity_type" ∉ verification_keys) ∧
  ("sentence" ∉ verification_keys).
Proof.
  unfold verification_keys.
  repeat split; intros H;
    repeat (apply elem_of_cons in H as [H | H]; [discriminate |]);
    by apply elem_of_nil in H.
Qed.

(** X12.  [verify_facts] returns the facts it was given, in their order,
    each with the verification fields laid over it: a result differs from
    its fact at most under the five keys the verifier writes. *)
Theorem verify_facts_keep_claims
    (wiki_page : string → result WikipediaPage) (facts results : list dict) :
  verify_facts wiki_page facts = Ok results →
  Forall2 (λ fact result : dict,
             ∀ k, k ∉ verification_keys → result !! k = fact !! k)
          facts results.
Proof.
  revert results. induction facts as [| fact facts IH]; intros results; simpl.
  - intros [= <-]. constructor.
  - unfold mbind, result_bind.
    destruct (verify_fact wiki_page fact) as [r |] eqn:Hr; [| discriminate].
    destruct (verify_facts wiki_page facts) as [rs |]; [| discriminate].
    intros [= <-]. constructor; [| by apply IH].
    intros k Hk. by eapply verify_fact_keeps.
Qed.

Lemma verify_two_claims :
  verify_facts small_wiki [tokyo_14; paris_2] = Ok [tokyo_14_verified; paris_2_failed].
Proof. by_evaluation. Qed.

Lemma verify_facts_keep_claims_witness :
  verify_facts small_wiki [tokyo_14; paris_2] = Ok [tokyo_14_verified; paris_2_failed] ∧
  Forall2 (λ fact result : dict,
             ∀ k, k ∉ verification_keys → result !! k = fact !! k)
          [tokyo_14; paris_2] [tokyo_14_verified; paris_2_failed].
Proof.
  split; [apply verify_two_claims |].
  apply (verify_facts_keep_claims small_wiki [tokyo_14; paris_2]).
  apply verify_two_claims.
Defined.

(** X13.  Verifying a result again changes nothing: against the same
    reference source, [verify_fact] on what it returned returns it
    again. *)
Theorem verify_fact_idempotent
    (wiki_page : string → result WikipediaPage) (fact result : dict) :
  verify_fact wiki_page fact = Ok result →
  verify_fact wiki_page result = Ok result.
Proof.
  intros Hresult.
  destruct (verify_fact_union wiki_page fact result Hresult) as (delta & -> & Hshape & Hall).
  destruct claim_keys_outside as (He & Ht & Hs).
  rewrite (Hall (delta ∪ fact)).
  - by rewrite (assoc_L (∪)), (idemp_L (∪) delta).
  - rewrite lookup_union_r; [done |]. by apply overlay_outside.
  - rewrite lookup_union_r; [done |]. by apply overlay_outside.
  - rewrite lookup_union_r; [done |]. by apply overlay_outside.
Qed.

Lemma verify_tokyo_14 : verify_fact small_wiki tokyo_14 = Ok tokyo_14_verified.
Proof. by_evaluation. Qed.

Lemma verify_fact_idempotent_witness :
  verify_fact small_wiki tokyo_14 = Ok tokyo_14_verified ∧
  verify_fact small_wiki tokyo_14_verified = Ok tokyo_14_verified.
Proof.
  split; [apply verify_tokyo_14 |].
  apply (verify_fact_idempotent small_wiki tokyo_14). apply verify_tokyo_14.
Defined.

(** X14.  A result of [verify_fact] has a note and either has no link and
    unknown confidence, or was checked against a page: the page that the
    source returns for the query made from the fact exists, the result has
    the verdict, the confidence and the note that
    [_verify_against_content] draws from the text and the summary of that
    page, and it has the address and the title of that page.  A result of
    high, medium or low confidence therefore always carries the link of
    the page it was checked against. *)
Theorem result_link_or_unknown
    (wiki_page : string → result WikipediaPage) (fact result : dict) :
  verify_fact wiki_page fact = Ok result →
  (∃ note, result !! "verification_note" = Some (PStr note)) ∧
  ((result !! "wikipedia_url" = Some PNone ∧
    result !! "confidence" = Some (PStr "unknown")) ∨
   (∃ entity entity_type sentence search_query page text summary verdict url title,
      fact !! "entity" = Some entity ∧
      fact !! "entity_type" = Some entity_type ∧
      fact !! "sentence" = Some sentence ∧
      _create_search_query entity entity_type sentence = Ok (PStr search_query) ∧
      wiki_page search_query = Ok page ∧
      page_exists page = Ok true ∧
      page_text page = Ok text ∧
      page_summary page = Ok summary ∧
      _verify_against_content fact (Str.lower text) (Str.lower summary) = Ok verdict ∧
      page_fullurl page = Ok url ∧
      page_title page = Ok title ∧
      result !! "verified" = verdict !! "verified" ∧
      result !! "confidence" = verdict !! "confidence" ∧
      result !! "verification_note" = verdict !! "verification_note" ∧
      result !! "wikipedia_url" = Some (PStr url) ∧
      result !! "wikipedia_title" = Some (PStr title))).
Proof.
  intros Hresult.
  destruct (verify_fact_page wiki_page fact result Hresult)
    as [[note ->] | (entity & entity_type & sentence & query & He & Ht & Hs & Hq & Hsearch)].
  { split; [exists note; by apply lookup_union_Some_l |].
    left. split; by apply lookup_union_Some_l. }
  destruct (search_wikipedia_page wiki_page fact query result Hsearch)
    as [[note ->] | (page & text & summary & verdict & url & title
                     & Hpage & Hexists & Htext & Hsummary & Hverdict & Hurl & Htitle & ->)].
  { split; [exists note; by apply lookup_union_Some_l |].
    left. split; by apply lookup_union_Some_l. }
  destruct (verify_against_content_form _ _ _ _ Hverdict) as (verified & tier & note & Hform).
  assert (∀ k v, verdict !! k = Some v → k ≠ "wikipedia_url" → k ≠ "wikipedia_title" →
            dict_update (verdict ∪ fact)
              [("wikipedia_url", PStr url); ("wikipedia_title", PStr title)] !! k
            = verdict !! k) as Hkeep.
  { intros k v Hk Hne1 Hne2. unfold dict_update. simpl.
    rewrite !lookup_insert_ne by done. rewrite Hk. by apply lookup_union_Some_l. }
  split.
  - exists note. rewrite (Hkeep "verification_note" (PStr note)); [| | done | done];
      by rewrite Hform.
  - right. exists entity, entity_type, sentence, query, page, text, summary, verdict, url, title.
    repeat (split; [done |]).
    split; [apply (Hkeep "verified" (PBool verified)); [by rewrite Hform | done | done] |].
    split; [apply (Hkeep "confidence" (PStr tier)); [by rewrite Hform | done | done] |].
    split; [apply (Hkeep "verification_note" (PStr note)); [by rewrite Hform | done | done] |].
    unfold dict_update. simpl. split.
    + rewrite lookup_insert_ne by done. apply lookup_insert_eq.
    + apply lookup_insert_eq.
Qed.

Lemma result_link_or_unknown_witness :
  verify_fact small_wiki tokyo_14 = Ok tokyo_14_verified ∧
  (∃ note, tokyo_14_verified !! "verification_note" = Some (PStr note)) ∧
  ((tokyo_14_verified !! "wikipedia_url" = Some PNone ∧
    tokyo_14_verified !! "confidence" = Some (PStr "unknown")) ∨
   (∃ entity entity_type sentence search_query page text summary verdict url title,
      tokyo_14 !! "entity" = Some entity ∧
      tokyo_14 !! "entity_type" = Some entity_type ∧
      tokyo_14 !! "sentence" = Some sentence ∧
      _create_search_query entity entity_type sentence = Ok (PStr search_query) ∧
      small_wiki search_query = Ok page ∧
      page_exists page = Ok true ∧
      page_text page = Ok text ∧
      page_summary page = Ok summary ∧
      _verify_against_content tokyo_14 (Str.lower text) (Str.lower summary) = Ok verdict ∧
      page_fullurl page = Ok url ∧
      page_title page = Ok title ∧
      tokyo_14_verified !! "verified" = verdict !! "verified" ∧
      tokyo_14_verified !! "confidence" = verdict !! "confidence" ∧
      tokyo_14_verified !! "verification_note" = verdict !! "verification_note" ∧
      tokyo_14_verified !! "wikipedia_url" = Some (PStr url) ∧
      tokyo_14_verified !! "wikipedia_title" = Some (PStr title))).
Proof.
  split; [apply verify_tokyo_14 |].
  apply (result_link_or_unknown small_wiki tokyo_14). apply verify_tokyo_14.
Defined.

End VerifierExtraTheorems.

(** ** The formatter *)

Section FormatterExtras.
Import Formatter.

Lemma contradicted_entities_spec contradictions : ∀ contradicted,
  contradicted_entities contradictions = Ok contradicted →
  Forall readable contradictions ∧
  ∀ entity, Str.lower entity ∈ contradicted ↔ named_by contradictions entity.
Proof.
  induction contradictions as [| cont contradictions IH]; intros contradicted; simpl.
  - intros [= <-]. split; [constructor |]. intros entity. split.
    + intros H. by apply not_elem_of_empty in H.
    + intros (c & v & Hc & _). by apply elem_of_nil in Hc.
  - unfold mbind, result_bind, str_method, as_str.
    destruct (cont !! "current_value") as [[| b | v] |] eqn:Hcv; try discriminate.
    + destruct (contradicted_entities contradictions) as [others |]; [| discriminate].
      intros [= <-]. destruct (IH others eq_refl) as [Hread Hmem].
      split; [constructor; [right; by eexists | done] |].
      intros entity. rewrite elem_of_union, elem_of_singleton, Hmem. split.
      * intros [Heq | (c & w & Hc & Hw & Hl)].
        -- exists cont, v. split; [by left |]. done.
        -- exists c, w. split; [by right |]. done.
      * intros (c & w & [-> | Hc]%elem_of_cons & Hw & Hl).
        -- left. rewrite Hcv in Hw. by injection Hw as ->.
        -- right. by exists c, w.
    + destruct (contradicted_entities contradictions) as [others |]; [| discriminate].
      intros [= <-]. destruct (IH others eq_refl) as [Hread Hmem].
      split; [constructor; [by left | done] |].
      intros entity. rewrite elem_of_union, Hmem. split.
      * intros [H | (c & w & Hc & Hw & Hl)]; [by apply not_elem_of_empty in H |].
        exists c, w. split; [by right |]. done.
      * intros (c & w & [-> | Hc]%elem_of_cons & Hw & Hl); [congruence |].
        right. by exists c, w.
Qed.

Lemma fact_span_spec contradicted fact span :
  fact_span contradicted fact = Ok span →
  fact !! "entity" = Some (PStr (text span)) ∧
  (status span = "contradicted" ↔ Str.lower (text span) ∈ contradicted) ∧
  ((status span = "contradicted" ∧ color span = "red") ∨
   (status span = "verified" ∧ color span = "green") ∨
   (status span = "uncertain" ∧ color span = "yellow") ∨
   (status span = "unverified" ∧ color span = "orange")).
Proof.
  unfold fact_span, dict_item, str_method, as_str, mbind, result_bind.
  destruct (fact !! "entity") as [[| b | entity] |]; try discriminate.
  case_bool_decide as Hin.
  { intros [= <-]. simpl. split; [done |]. split; [done | by left]. }
  destruct (truthy _ && py_eq _ (PStr "high")).
  { intros [= <-]. simpl. split; [done |]. split; [| by right; left].
    split; [discriminate | done]. }
  destruct (truthy _ && py_eq _ (PStr "medium")).
  { intros [= <-]. simpl. split; [done |]. split; [| by right; right; left].
    split; [discriminate | done]. }
  intros [= <-]. simpl. split; [done |]. split; [| by right; right; right].
  split; [discriminate | done].
Qed.

Lemma fact_spans_spec contradicted facts : ∀ spans,
  fact_spans contradicted facts = Ok spans →
  Forall2 (λ fact span,
             fact_span contradicted fact = Ok span) facts spans.
Proof.
  induction facts as [| fact facts IH]; intros spans; simpl.
  - intros [= <-]. constructor.
  - unfold mbind, result_bind.
    destruct (fact_span contradicted fact) as [span |] eqn:Hspan; [| discriminate].
    destruct (fact_spans contradicted facts) as [rest |]; [| discriminate].
    intros [= <-]. constructor; [done | by apply IH].
Qed.

(** X15.  When [_create_fact_spans] returns, it returns one span for
    each fact, in their order, whose text is the entity of the fact; the span
    is marked contradicted exactly when the entity is, ignoring case, the
    current value of one of the contradictions, whatever the verification of
    the fact says; and each status has its colour. *)
Theorem spans_follow_facts (verified_facts contradictions : list dict) (spans : list Span) :
  _create_fact_spans verified_facts contradictions = Ok spans →
  Forall2 (λ (fact : dict) span,
             fact !! "entity" = Some (PStr (text span)) ∧
             (status span = "contradicted" ↔ named_by contradictions (text span)) ∧
             ((status span = "contradicted" ∧ color span = "red") ∨
              (status span = "verified" ∧ color span = "green") ∨
              (status span = "uncertain" ∧ color span = "yellow") ∨
              (status span = "unverified" ∧ color span = "orange")))
          verified_facts spans.
Proof.
  unfold _create_fact_spans, mbind, result_bind.
  destruct (contradicted_entities contradictions) as [contradicted |] eqn:Hc;
    [| discriminate].
  destruct (contradicted_entities_spec _ _ Hc) as [_ Hnamed].
  intros Hspans. apply fact_spans_spec in Hspans.
  eapply Forall2_impl; [exact Hspans |].
  intros fact span Hspan. apply fact_span_spec in Hspan as (He & Hstatus & Hcolor).
  split; [exact He |]. split; [| exact Hcolor]. by rewrite Hstatus, Hnamed.
Qed.

Lemma tokyo_38_spans :
  _create_fact_spans [tokyo_38] [tokyo_38_contradiction] = Ok [tokyo_38_span].
Proof. by_evaluation. Qed.

Lemma spans_follow_facts_witness :
  _create_fact_spans [tokyo_38] [tokyo_38_contradiction] = Ok [tokyo_38_span] ∧
  Forall2 (λ (fact : dict) span,
             fact !! "entity" = Some (PStr (text span)) ∧
             (status span = "contradicted"
              ↔ named_by [tokyo_38_contradiction] (text span)) ∧
             ((status span = "contradicted" ∧ color span = "red") ∨
              (status span = "verified" ∧ color span = "green") ∨
              (status span = "uncertain" ∧ color span = "yellow") ∨
              (status span = "unverified" ∧ color span = "orange")))
          [tokyo_38] [tokyo_38_span].
Proof.
  split; [apply tokyo_38_spans |].
  apply (spans_follow_facts [tokyo_38] [tokyo_38_contradiction]). apply tokyo_38_spans.
Defined.

Lemma contradicted_entities_returns contradictions :
  Forall readable contradictions →
  ∃ contradicted, contradicted_entities contradictions = Ok contradicted.
Proof.
  induction 1 as [| cont contradictions Hcont _ [others IH]]; simpl.
  - by eexists.
  - unfold mbind, result_bind. rewrite IH.
    destruct Hcont as [-> | [value ->]]; by eexists.
Qed.

Lemma fact_spans_returns contradicted facts :
  forallb is_claim facts = true →
  ∃ spans, fact_spans contradicted facts = Ok spans.
Proof.
  induction facts as [| fact facts IH]; simpl.
  - by eexists.
  - intros [Hfact Hfacts]%andb_true_iff. destruct (IH Hfacts) as [spans Hspans].
    destruct (is_claim_fields fact Hfact) as (e & t & s & He & _ & _).
    unfold mbind, result_bind, fact_span, dict_item. rewrite He. simpl.
    unfold mbind, result_bind. rewrite Hspans.
    destruct (bool_decide (Str.lower e ∈ contradicted)); [by eexists |].
    destruct (truthy (dict_get fact "verified")
              && py_eq (dict_get fact "confidence") (PStr "high")); [by eexists |].
    destruct (truthy (dict_get fact "verified")
              && py_eq (dict_get fact "confidence") (PStr "medium")); by eexists.
Qed.

Lemma fact_summary_returns facts :
  forallb is_claim facts = true →
  ∃ summary, _create_fact_summary facts = Ok summary ∧ length summary = length facts.
Proof.
  induction facts as [| fact facts IH]; simpl.
  - by eexists.
  - intros [Hfact Hfacts]%andb_true_iff. destruct (IH Hfacts) as (summary & Hs & Hlen).
    destruct (is_claim_fields fact Hfact) as (e & t & s & He & Ht & _).
    unfold mbind, result_bind, dict_item. rewrite He, Ht, Hs.
    eexists. split; [reflexivity |]. simpl. by rewrite Hlen.
Qed.

Lemma format_response_returns original_text facts contradictions :
  forallb is_claim facts = true →
  Forall readable contradictions →
  ∃ formatted,
    format_response original_text facts contradictions = Ok formatted ∧
    original formatted = original_text ∧
    length (fact_summary formatted) = length facts ∧
    has_issues formatted
    = ((0 <? length contradictions)%nat
       || existsb (λ f, negb (truthy (dict_get f "verified"))) facts).
Proof.
  intros Hclaims Hreadable.
  destruct (contradicted_entities_returns _ Hreadable) as [contradicted Hc].
  destruct (fact_spans_returns contradicted _ Hclaims) as [spans Hspans].
  destruct (fact_summary_returns _ Hclaims) as (summary & Hsummary & Hlen).
  unfold format_response, _create_fact_spans, mbind, result_bind.
  rewrite Hc, Hspans, Hsummary. by eexists.
Qed.

Lemma check_fact_pair_readable fact1 fact2 c :
  is_claim fact1 = true →
  Detector._check_fact_pair fact1 fact2 = Ok (Some c) → readable c.
Proof.
  intros (e & t & s & He & _ & _)%is_claim_fields H.
  apply check_fact_pair_rule in H as [_ [H | [H | H]]].
  - apply numeric_shape in H as (_ & _ & _ & _ & _ & Hv & _).
    right. exists e. by rewrite Hv.
  - apply date_shape in H as (_ & _ & _ & _ & _ & Hv & _).
    right. exists e. by rewrite Hv.
  - apply entity_shape in H as (_ & _ & _ & _ & _ & Hv & _). by left.
Qed.

Lemma scan_history_readable new_fact history : ∀ found cs,
  is_claim new_fact = true →
  Forall readable found →
  scan_history new_fact history found = Ok cs → Forall readable cs.
Proof.
  induction history as [| old_fact history IH]; intros found cs Hclaim Hfound; simpl.
  - by intros [= <-].
  - unfold mbind, result_bind.
    destruct (Detector._check_fact_pair new_fact old_fact) as [[c |] | e] eqn:Hpair;
      [| | discriminate].
    + apply IH; [done |]. apply Forall_app. split; [done |].
      constructor; [| constructor]. by eapply check_fact_pair_readable.
    + by apply IH.
Qed.

Lemma scan_all_readable new_facts history : ∀ found cs,
  forallb is_claim new_facts = true →
  Forall readable found →
  scan_all new_facts history found = Ok cs → Forall readable cs.
Proof.
  induction new_facts as [| new_fact new_facts IH]; intros found cs; simpl.
  - by intros _ ? [= <-].
  - intros [Hfact Hfacts]%andb_true_iff Hfound. unfold mbind, result_bind.
    destruct (scan_history new_fact history found) as [found' | e] eqn:Hh;
      [| discriminate].
    apply IH; [done |]. by eapply scan_history_readable.
Qed.

End FormatterExtras.

(** ** Substitution of entities *)

Section SubstitutionExtras.
Import Re Formatter.

Lemma chars_app s1 s2 :
  list_ascii_of_string (s1 +:+ s2)
  = (list_ascii_of_string s1 ++ list_ascii_of_string s2)%list.
Proof. induction s1 as [| a s1 IH]; simpl; [done | by rewrite IH]. Qed.

Lemma append_assoc s1 s2 s3 : (s1 +:+ s2) +:+ s3 = s1 +:+ s2 +:+ s3.
Proof.
  induction s1 as [| a s1 IH]; [done |].
  change (String a ((s1 +:+ s2) +:+ s3) = String a (s1 +:+ s2 +:+ s3)).
  by rewrite IH.
Qed.

Lemma take_app pre suf : Str.take (String.length pre) (pre +:+ suf) = pre.
Proof.
  unfold Str.take. induction pre as [| a pre IH]; simpl.
  - by destruct suf.
  - by rewrite IH.
Qed.

Lemma prefix_app e suf : String.prefix e (e +:+ suf) = true.
Proof.
  induction e as [| a e IH]; simpl; [by destruct suf |].
  by destruct (ascii_dec a a).
Qed.

Lemma contains_app pre e suf : Str.contains e (pre +:+ e +:+ suf) = true.
Proof.
  induction pre as [| a pre IH].
  - change ("" +:+ e +:+ suf) with (e +:+ suf).
    pose proof (prefix_app e suf) as Hprefix.
    destruct (e +:+ suf); cbn [Str.contains]; by rewrite Hprefix.
  - simpl. rewrite IH. apply orb_true_r.
Qed.

(** A literal consumes itself and nothing else. *)
Lemma run_lit {A} e : ∀ c g (k : cursor → groups → option A) x,
  run (Lit e) c g k = Some x →
  ∃ c', rest c = e +:+ rest c' ∧ k c' g = Some x.
Proof.
  induction e as [| a e IH]; intros c g k x; simpl.
  - intros Hk. by exists c.
  - destruct (rest c) as [| b s] eqn:Hrest; [discriminate |].
    destruct (Ascii.eqb a b) eqn:Hab; [| discriminate].
    apply Ascii.eqb_eq in Hab as <-.
    intros (c' & Hs & Hk)%IH. exists c'. simpl in Hs. by rewrite Hs.
Qed.

Lemma match_entity e c m :
  match_at (entity_re e) c = Some m →
  rest c = e +:+ rest (m_end m) ∧ m_start m = pos c.
Proof.
  unfold match_at, entity_re. simpl.
  destruct (xorb (word_at (before c)) (word_at (next c))); [| discriminate].
  intros (c' & Hrest & Hk)%run_lit.
  destruct (xorb (word_at (before c')) (word_at (next c'))); [| discriminate].
  by injection Hk as <-.
Qed.

Lemma search_entity e : ∀ s b p m,
  search_from (entity_re e) b p s = Some m →
  ∃ pre, s = pre +:+ e +:+ rest (m_end m) ∧ m_start m = (p + String.length pre)%nat.
Proof.
  induction s as [| a s IH]; intros b p m; simpl.
  - destruct (match_at (entity_re e) (Cursor b p "")) as [m' |] eqn:Hm; [| discriminate].
    intros [= ->]. apply match_entity in Hm as [Hrest Hstart].
    exists "". simpl in *. split; [done | lia].
  - destruct (match_at (entity_re e) (Cursor b p (String a s))) as [m' |] eqn:Hm.
    + intros [= ->]. apply match_entity in Hm as [Hrest Hstart].
      exists "". simpl in *. split; [done | lia].
    + intros (pre & -> & Hstart)%IH. exists (String a pre). simpl. split; [done | lia].
Qed.

(** One substitution either finds no match and leaves the text, or
    replaces one occurrence of the entity. *)
Lemma sub1_entity e repl s :
  (search (entity_re e) s = None ∧ sub1 (entity_re e) repl s = s) ∨
  ∃ pre suf, s = pre +:+ e +:+ suf ∧ sub1 (entity_re e) repl s = pre +:+ repl +:+ suf.
Proof.
  unfold sub1. destruct (search (entity_re e) s) as [m |] eqn:Hsearch; [right | by left].
  apply search_entity in Hsearch as (pre & Hs & Hstart).
  exists pre, (rest (m_end m)). split; [done |].
  rewrite Hstart. simpl. rewrite Hs at 1. by rewrite take_app.
Qed.

Lemma sub1_unmentioned e repl s :
  Str.contains e s = false → sub1 (entity_re e) repl s = s.
Proof.
  intros Hno. destruct (sub1_entity e repl s) as [[_ H] | (pre & suf & -> & _)]; [done |].
  by rewrite contains_app in Hno.
Qed.

Lemma sub1_inserts e before_entity after_entity s :
  sublist (list_ascii_of_string s)
    (list_ascii_of_string
       (sub1 (entity_re e) (before_entity +:+ e +:+ after_entity) s)).
Proof.
  destruct (sub1_entity e (before_entity +:+ e +:+ after_entity) s)
    as [[_ ->] | (pre & suf & -> & ->)]; [done |].
  rewrite !chars_app, <- !(assoc_L (++)%list). apply sublist_app; [done |].
  apply sublist_inserts_l, sublist_app; [done |]. by apply sublist_inserts_l.
Qed.

Lemma html_span_around span :
  ∃ before_entity, html_span span = before_entity +:+ text span +:+ "</span>".
Proof.
  unfold html_span. destruct (truthy (wikipedia_url span)).
  - exists ("<span class=" +:+ dq +:+ "fact-" +:+ color span +:+ dq
            +:+ " title=" +:+ dq +:+ py_str (note span) +:+ dq
            +:+ " data-url=" +:+ dq +:+ py_str (wikipedia_url span) +:+ dq +:+ ">"
            +:+ emoji span +:+ " ").
    by rewrite !append_assoc.
  - exists ("<span class=" +:+ dq +:+ "fact-" +:+ color span +:+ dq
            +:+ " title=" +:+ dq +:+ py_str (note span) +:+ dq +:+ ">"
            +:+ emoji span +:+ " ").
    by rewrite !append_assoc.
Qed.

Lemma append_empty s : s +:+ "" = s.
Proof.
  induction s as [| a s IH]; [done |].
  change (String a (s +:+ "") = String a s). by rewrite IH.
Qed.

Lemma foldl_sub1_inserts (repl : Span → string) spans :
  (∀ span, ∃ before_entity after_entity,
     repl span = before_entity +:+ text span +:+ after_entity) →
  ∀ text0,
    sublist (list_ascii_of_string text0)
      (list_ascii_of_string
         (foldl (λ formatted span, sub1 (entity_re (text span)) (repl span) formatted)
                text0 spans)).
Proof.
  intros Hrepl. induction spans as [| span spans IH]; intros text0; simpl; [done |].
  etrans; [| apply IH].
  destruct (Hrepl span) as (before_entity & after_entity & ->). apply sub1_inserts.
Qed.

Lemma foldl_sub1_unmentioned (repl : Span → string) text0 spans :
  Forall (λ span, Str.contains (text span) text0 = false) spans →
  foldl (λ formatted span, sub1 (entity_re (text span)) (repl span) formatted)
        text0 spans
  = text0.
Proof.
  induction 1 as [| span spans Hspan _ IH]; simpl; [done |].
  by rewrite sub1_unmentioned.
Qed.

(** Where the markup of a span has no backslash, neither has its
    Markdown marker. *)
Lemma plain_app s1 s2 : plain (s1 +:+ s2) = plain s1 && plain s2.
Proof. unfold plain. by rewrite chars_app, forallb_app. Qed.

Lemma plain_marker span :
  plain (html_span span) = true → plain (emoji span +:+ " " +:+ text span) = true.
Proof.
  unfold html_span. destruct (truthy (wikipedia_url span)).
  all: rewrite !plain_app, !andb_true_iff; tauto.
Qed.

(** X17.  Formatting only inserts: whatever the spans, as long as
    their markup has no backslash, the original text is what is left of the
    HTML version, and of the Markdown version, when the inserted characters
    are deleted; no character of the text is removed or changed. *)
Theorem formats_only_insert (text0 : string) (fact_spans : list Span) :
  Forall (λ span, plain (html_span span) = true) fact_spans →
  sublist (list_ascii_of_string text0)
          (list_ascii_of_string (_create_html_format text0 fact_spans)) ∧
  sublist (list_ascii_of_string text0)
          (list_ascii_of_string (_create_markdown_format text0 fact_spans)).
Proof.
  intros _. split.
  - apply foldl_sub1_inserts. intros span.
    destruct (html_span_around span) as [before_entity ->]. by eexists _, _.
  - apply foldl_sub1_inserts. intros span.
    exists (emoji span +:+ " "), "". by rewrite append_empty, append_assoc.
Qed.

Lemma formats_only_insert_witness :
  Forall (λ span, plain (html_span span) = true) [tokyo_38_span] ∧
  sublist (list_ascii_of_string "Tokyo has 38 million people")
          (list_ascii_of_string
             (_create_html_format "Tokyo has 38 million people" [tokyo_38_span])) ∧
  sublist (list_ascii_of_string "Tokyo has 38 million people")
          (list_ascii_of_string
             (_create_markdown_format "Tokyo has 38 million people" [tokyo_38_span])).
Proof.
  assert (Forall (λ span, plain (html_span span) = true) [tokyo_38_span]) as Hplain
    by (constructor; [reflexivity | constructor]).
  split; [exact Hplain |].
  exact (formats_only_insert "Tokyo has 38 million people" [tokyo_38_span] Hplain).
Defined.

(** X18.  Entities the text does not mention leave it alone: when the
    text of no span occurs in the original text (and the markup has no
    backslash), the HTML version and the Markdown version are the original
    text. *)
Theorem unmentioned_entities_leave_text (text0 : string) (fact_spans : list Span) :
  Forall (λ span, plain (html_span span) = true) fact_spans →
  Forall (λ span, Str.contains (text span) text0 = false) fact_spans →
  _create_html_format text0 fact_spans = text0 ∧
  _create_markdown_format text0 fact_spans = text0.
Proof.
  intros _ Hno.
  assert (Forall (λ span, Str.contains (text span) text0 = false)
                 (sorted_spans fact_spans)) as Hsorted.
  { by rewrite (proj2 (sorted_spans_longest_first fact_spans)). }
  unfold _create_html_format, _create_markdown_format.
  split; by apply foldl_sub1_unmentioned.
Qed.

Lemma unmentioned_entities_leave_text_witness :
  Forall (λ span, plain (html_span span) = true) [tokyo_38_span] ∧
  Forall (λ span, Str.contains (text span) "Paris is the capital of France" = false)
         [tokyo_38_span] ∧
  _create_html_format "Paris is the capital of France" [tokyo_38_span]
  = "Paris is the capital of France" ∧
  _create_markdown_format "Paris is the capital of France" [tokyo_38_span]
  = "Paris is the capital of France".
Proof.
  assert (Forall (λ span, plain (html_span span) = true) [tokyo_38_span]) as Hplain
    by (constructor; [reflexivity | constructor]).
  assert (Forall (λ span, Str.contains (text span) "Paris is the capital of France" = false)
                 [tokyo_38_span]) as Hno
    by (constructor; [reflexivity | constructor]).
  split; [exact Hplain |]. split; [exact Hno |].
  exact (unmentioned_entities_leave_text "Paris is the capital of France"
           [tokyo_38_span] Hplain Hno).
Defined.

End SubstitutionExtras.

(** ** What the formatter is given *)

Section FormatterReturns.
Import Formatter.

(** The replacements made for a fact that is fit for marking have no
    backslash. *)
Lemma fact_span_plain contradicted fact span :
  fact_span contradicted fact = Ok span →
  markup_plain fact = true →
  replacements_plain span = true.
Proof.
  unfold fact_span, dict_item, str_method, as_str, mbind, result_bind, markup_plain, dict_get.
  destruct (fact !! "entity") as [[| b | entity] |]; try discriminate.
  simpl default. cbn [py_str].
  intros Hspan [[He Hnote]%andb_true_iff Hurl]%andb_true_iff.
  assert (∀ st col mark,
            plain col = true → plain mark = true →
            replacements_plain
              {| text := entity; status := st; color := col; emoji := mark;
                 confidence := dict_get_default fact "confidence" (PStr "unknown");
                 wikipedia_url := default PNone (fact !! "wikipedia_url");
                 note := dict_get_default fact "verification_note" (PStr "") |} = true)
    as Hplain.
  { intros st col mark Hcol Hmark.
    unfold replacements_plain, html_span. cbn [text color emoji wikipedia_url note].
    destruct (truthy (default PNone (fact !! "wikipedia_url")));
      rewrite !plain_app, Hcol, Hmark, He, Hnote, ?Hurl; reflexivity. }
  case_bool_decide.
  { injection Hspan as <-. by apply Hplain. }
  destruct (truthy _ && py_eq _ (PStr "high")).
  { injection Hspan as <-. by apply Hplain. }
  destruct (truthy _ && py_eq _ (PStr "medium")).
  { injection Hspan as <-. by apply Hplain. }
  injection Hspan as <-. by apply Hplain.
Qed.

Lemma fact_spans_plain contradicted facts : ∀ spans,
  fact_spans contradicted facts = Ok spans →
  Forall (λ fact, markup_plain fact = true) facts →
  Forall (λ span, replacements_plain span = true) spans.
Proof.
  induction facts as [| fact facts IH]; intros spans; simpl.
  - intros [= <-] _. constructor.
  - unfold mbind, result_bind.
    destruct (fact_span contradicted fact) as [span |] eqn:Hspan; [| discriminate].
    destruct (fact_spans contradicted facts) as [rest |]; [| discriminate].
    intros [= <-] [Hfact Hfacts]%Forall_cons. constructor.
    + by eapply fact_span_plain.
    + by apply IH.
Qed.

(** X16.  The formatter accepts what the detector returns: when the
    facts are claims whose entity, note and link have no backslash, and
    [detect_contradictions] returns a list of contradictions for them, every
    replacement that [format_response] gives to [re.sub] is free of
    backslashes, so that none is rejected, and [format_response] on the
    text, the facts and that list returns; the result keeps the text as the
    original, has one summary entry for each fact, and reports issues
    exactly when the list is not empty or some fact is not verified. *)
Theorem format_after_detect (self : Detector.ContradictionDetector)
    (session_id original_text : string) (facts contradictions : list dict) :
  forallb is_claim facts = true →
  Forall (λ fact, markup_plain fact = true) facts →
  (Detector.detect_contradictions session_id facts self).1 = Ok contradictions →
  ∃ spans formatted,
    _create_fact_spans facts contradictions = Ok spans ∧
    Forall (λ span, replacements_plain span = true) spans ∧
    format_response original_text facts contradictions = Ok formatted ∧
    original formatted = original_text ∧
    length (fact_summary formatted) = length facts ∧
    has_issues formatted
    = ((0 <? length contradictions)%nat
       || existsb (λ f, negb (truthy (dict_get f "verified"))) facts).
Proof.
  intros Hclaims Hplain Hdetect.
  assert (Forall readable contradictions) as Hreadable.
  { rewrite detect_default in Hdetect.
    destruct (Detector.session_facts self !! session_id) as [history |].
    - by eapply scan_all_readable.
    - injection Hdetect as <-. constructor. }
  destruct (contradicted_entities_returns _ Hreadable) as [contradicted Hc].
  destruct (fact_spans_returns contradicted _ Hclaims) as [spans Hspans].
  destruct (fact_summary_returns _ Hclaims) as (summary & Hsummary & Hlen).
  exists spans. eexists.
  unfold format_response, _create_fact_spans, mbind, result_bind.
  rewrite Hc, Hspans, Hsummary.
  split; [reflexivity |]. split; [by eapply fact_spans_plain |].
  split; [reflexivity |]. split; [reflexivity |]. split; [exact Hlen | reflexivity].
Qed.

Lemma format_after_detect_witness :
  forallb is_claim [tokyo_38] = true ∧
  Forall (λ fact, markup_plain fact = true) [tokyo_38] ∧
  (Detector.detect_contradictions "s" [tokyo_38] (session_with "s" [tokyo_14])).1
  = Ok [tokyo_38_contradiction] ∧
  ∃ spans formatted,
    _create_fact_spans [tokyo_38] [tokyo_38_contradiction] = Ok spans ∧
    Forall (λ span, replacements_plain span = true) spans ∧
    format_response "Tokyo has 38 million people" [tokyo_38] [tokyo_38_contradiction]
    = Ok formatted ∧
    original formatted = "Tokyo has 38 million people" ∧
    length (fact_summary formatted) = length [tokyo_38] ∧
    has_issues formatted
    = ((0 <? length [tokyo_38_contradiction])%nat
       || existsb (λ f, negb (truthy (dict_get f "verified"))) [tokyo_38]).
Proof.
  split; [reflexivity |]. split; [by repeat constructor |].
  split; [exact detect_tokyo_38_run |].
  apply (format_after_detect (session_with "s" [tokyo_14]) "s");
    [reflexivity | by repeat constructor | exact detect_tokyo_38_run].
Defined.

End FormatterReturns.

(** ** The matcher *)

Section MatcherExtras.
Import Re.

(** Whatever [run] returns, it got from its continuation at the end of
    a match. *)
Lemma run_matches {A} r : ∀ c g (k : cursor → groups → option A) x,
  run r c g k = Some x →
  ∃ c' g', matches r c g c' g' ∧ k c' g' = Some x.
Proof.
  induction r as [| p | r1 IH1 r2 IH2 | r1 IH1 r2 IH2 | r1 IH1 | i r1 IH1 | |];
    intros c g k x; simpl.
  - intros Hk. by exists c, g.
  - destruct (rest c) as [| a s] eqn:Hrest; [discriminate |].
    destruct (p a) eqn:Hp; [| discriminate].
    intros Hk. eexists _, _. split; [| exact Hk]. by exists a, s.
  - intros (c1 & g1 & H1 & H2)%IH1. apply IH2 in H2 as (c' & g' & H2 & Hk).
    exists c', g'. split; [by exists c1, g1 | done].
  - destruct (run r1 c g k) as [y |] eqn:H1.
    + intros [= ->]. apply IH1 in H1 as (c' & g' & H1 & Hk).
      exists c', g'. split; [by left | done].
    + intros (c' & g' & H2 & Hk)%IH2. exists c', g'. split; [by right | done].
  - generalize (String.length (rest c)). intros fuel. revert c g.
    induction fuel as [| fuel IHfuel]; intros c g.
    + intros Hk. exists c, g. split; [constructor | done].
    + match goal with
      | |- context [run r1 c g ?k'] => destruct (run r1 c g k') as [y |] eqn:H1
      end.
      * intros [= ->]. apply IH1 in H1 as (c1 & g1 & H1 & Hloop).
        destruct (Nat.eqb (pos c1) (pos c)); [discriminate |].
        apply IHfuel in Hloop as (c' & g' & Hrest & Hk).
        exists c', g'. split; [by econstructor | done].
      * intros Hk. exists c, g. split; [constructor | done].
  - intros (c' & g1 & H1 & Hk)%IH1. eexists c', _. split; [by exists g1 | done].
  - destruct (Nat.eqb (pos c) 0) eqn:Hpos; [| discriminate].
    apply Nat.eqb_eq in Hpos. intros Hk. by exists c, g.
  - destruct (xorb (word_at (before c)) (word_at (next c))) eqn:Hb; [| discriminate].
    intros Hk. by exists c, g.
Qed.

Lemma append_length s1 s2 :
  String.length (s1 +:+ s2) = (String.length s1 + String.length s2)%nat.
Proof.
  induction s1 as [| a s1 IH]; [done |].
  change (S (String.length (s1 +:+ s2)) = S (String.length s1 + String.length s2)).
  by rewrite IH.
Qed.

Lemma between_refl c : between c c "".
Proof. split; [done | simpl; lia]. Qed.

Lemma between_trans c1 c2 c3 mid1 mid2 :
  between c1 c2 mid1 → between c2 c3 mid2 → between c1 c3 (mid1 +:+ mid2).
Proof.
  intros [Hr1 Hp1] [Hr2 Hp2]. split.
  - by rewrite Hr1, Hr2, append_assoc.
  - rewrite Hp2, Hp1, append_length. lia.
Qed.

(** A match consumes a piece of the text and moves the offset by its
    length. *)
Lemma matches_between r : ∀ c g c' g',
  matches r c g c' g' → ∃ mid, between c c' mid.
Proof.
  induction r as [| p | r1 IH1 r2 IH2 | r1 IH1 r2 IH2 | r1 IH1 | i r1 IH1 | |];
    intros c g c' g'; simpl.
  - intros [-> _]. exists "". apply between_refl.
  - intros (a & s & Hrest & _ & -> & _). exists (String a "").
    split; simpl; [done | lia].
  - intros (c1 & g1 & [mid1 H1]%IH1 & [mid2 H2]%IH2).
    exists (mid1 +:+ mid2). by eapply between_trans.
  - intros [H | H]; [by eapply IH1 | by eapply IH2].
  - induction 1 as [c g | c g c1 g1 c2 g2 [mid1 H1]%IH1 _ [mid2 H2]].
    + exists "". apply between_refl.
    + exists (mid1 +:+ mid2). by eapply between_trans.
  - intros (g1 & H & _). by eapply IH1.
  - intros (_ & -> & _). exists "". apply between_refl.
  - intros (_ & -> & _). exists "". apply between_refl.
Qed.

Lemma match_at_matches r c m :
  match_at r c = Some m →
  m_start m = pos c ∧ matches r c [] (m_end m) (m_groups m).
Proof.
  unfold match_at. intros (c' & g' & H & Hk)%run_matches. by injection Hk as <-.
Qed.

(** A search finds a match at a cursor of the text searched. *)
Lemma search_from_matches r : ∀ s b p m,
  search_from r b p s = Some m →
  ∃ pre c0, s = pre +:+ rest c0 ∧ pos c0 = (p + String.length pre)%nat ∧
            m_start m = pos c0 ∧ matches r c0 [] (m_end m) (m_groups m).
Proof.
  induction s as [| a s IH]; intros b p m; simpl.
  - destruct (match_at r (Cursor b p "")) as [m' |] eqn:Hm; [| discriminate].
    intros [= ->]. apply match_at_matches in Hm as [Hstart Hm].
    exists "", (Cursor b p ""). simpl. repeat split; [lia | done | done].
  - destruct (match_at r (Cursor b p (String a s))) as [m' |] eqn:Hm.
    + intros [= ->]. apply match_at_matches in Hm as [Hstart Hm].
      exists "", (Cursor b p (String a s)). simpl. repeat split; [lia | done | done].
    + intros (pre & c0 & -> & Hpos & Hstart & Hm')%IH.
      exists (String a pre), c0. simpl. repeat split; [lia | done | done].
Qed.

Lemma cursor_of_between text c c' mid :
  cursor_of text c → between c c' mid → cursor_of text c'.
Proof.
  intros (pre & -> & Hpos) [Hrest Hpos']. exists (pre +:+ mid). split.
  - by rewrite Hrest, append_assoc.
  - rewrite Hpos', Hpos, append_length. done.
Qed.

Lemma cursor_of_next text c a s :
  cursor_of text c → rest c = String a s →
  cursor_of text (Cursor (Some a) (S (pos c)) s).
Proof.
  intros (pre & -> & Hpos) Hrest. exists (pre +:+ String a ""). simpl. split.
  - by rewrite Hrest, append_assoc.
  - rewrite Hpos, append_length. simpl. lia.
Qed.

Lemma finditer_from_matches r text fuel : ∀ c m,
  cursor_of text c →
  m ∈ FactExtractor.finditer_from fuel r c →
  ∃ c0, cursor_of text c0 ∧ m_start m = pos c0 ∧
        matches r c0 [] (m_end m) (m_groups m).
Proof.
  induction fuel as [| fuel IH]; intros c m Hc; simpl.
  - by intros ?%elem_of_nil.
  - destruct (search_from r (before c) (pos c) (rest c)) as [m' |] eqn:Hsearch;
      [| by intros ?%elem_of_nil].
    pose proof Hsearch as (pre & c0 & Hrest & Hpos & Hstart & Hm)%search_from_matches.
    assert (cursor_of text c0) as Hc0.
    { apply (cursor_of_between text c c0 pre); [done |]. by split. }
    intros [-> | Hin]%elem_of_cons; [by exists c0 |].
    destruct (matches_between _ _ _ _ _ Hm) as [mid Hmid].
    pose proof (cursor_of_between _ _ _ _ Hc0 Hmid) as Hend.
    destruct (Nat.eqb (pos (m_end m')) (m_start m')).
    + destruct (rest (m_end m')) as [| a s] eqn:Hr; [by apply elem_of_nil in Hin |].
      eapply IH; [| exact Hin]. by apply cursor_of_next.
    + by eapply IH.
Qed.

(** Every match [re.finditer] returns starts at a cursor of the
    text. *)
Lemma finditer_matches r text m :
  m ∈ FactExtractor.finditer r text →
  ∃ c0, cursor_of text c0 ∧ m_start m = pos c0 ∧
        matches r c0 [] (m_end m) (m_groups m).
Proof.
  apply finditer_from_matches. exists "". by split.
Qed.

(** What the pattern in a group matched is the text of the group. *)
Lemma matches_group i r c g c' g' :
  matches (Group i r) c g c' g' →
  ∃ mid, between c c' mid ∧ group i g' = mid.
Proof.
  simpl. intros (g1 & Hm & ->).
  destruct (matches_between _ _ _ _ _ Hm) as [mid [Hrest Hpos]].
  exists mid. split; [by split |].
  unfold group. simpl. rewrite Nat.eqb_refl. simpl.
  rewrite Hrest, Hpos. replace (pos c + String.length mid - pos c)%nat
    with (String.length mid) by lia.
  apply take_app.
Qed.

Lemma matches_seq r1 r2 c g c' g' :
  matches (Seq r1 r2) c g c' g' →
  ∃ c1 g1 mid, between c c1 mid ∧ matches r2 c1 g1 c' g'.
Proof.
  simpl. intros (c1 & g1 & H1 & H2).
  destruct (matches_between _ _ _ _ _ H1) as [mid Hmid]. by exists c1, g1, mid.
Qed.

End MatcherExtras.

(** ** Strings *)

Section StringExtras.

Lemma append_cons a s t : String a s +:+ t = String a (s +:+ t).
Proof. reflexivity. Qed.

Lemma append_nil t : "" +:+ t = t.
Proof. reflexivity. Qed.

Lemma lstrip_suffix s : ∃ ws, s = ws +:+ Str.lstrip s.
Proof.
  induction s as [| c s [ws IH]]; simpl.
  - by exists "".
  - destruct (Str.is_space c); [| by exists ""].
    exists (String c ws). by rewrite append_cons, <- IH.
Qed.

Lemma rstrip_prefix s : ∃ ws, s = Str.rstrip s +:+ ws.
Proof.
  induction s as [| c s [ws IH]]; simpl.
  - by exists "".
  - destruct (String.eqb (Str.rstrip s) "" && Str.is_space c) eqn:Hc.
    + by exists (String c s).
    + exists ws. by rewrite append_cons, <- IH.
Qed.

Lemma lstrip_inside a x b :
  ∃ a' b', Str.lstrip (a +:+ x +:+ b) = a' +:+ Str.lstrip x +:+ b'.
Proof.
  induction a as [| c a IH].
  - rewrite append_nil.
    induction x as [| c x IH].
    + by exists "", (Str.lstrip b).
    + rewrite append_cons. simpl.
      destruct (Str.is_space c); [exact IH | by exists "", b].
  - rewrite append_cons. simpl. destruct (Str.is_space c); [exact IH |].
    destruct (lstrip_suffix x) as [ws Hws].
    exists (String c (a +:+ ws)), b.
    by rewrite append_cons, !append_assoc, <- (append_assoc ws), <- Hws.
Qed.

Lemma append_empty_inv s t : s +:+ t = "" → s = "" ∧ t = "".
Proof. by destruct s. Qed.

Lemma rstrip_after x b : ∃ b', Str.rstrip (x +:+ b) = Str.rstrip x +:+ b'.
Proof.
  induction x as [| c x [b' IH]].
  - by exists (Str.rstrip b).
  - rewrite append_cons. simpl. rewrite IH.
    destruct (String.eqb (Str.rstrip x +:+ b') "") eqn:Ht.
    + apply String.eqb_eq, append_empty_inv in Ht as [-> ->]. simpl.
      destruct (Str.is_space c); by exists "".
    + simpl. destruct (String.eqb (Str.rstrip x) "" && Str.is_space c) eqn:Hc.
      * apply andb_true_iff in Hc as [Hx%String.eqb_eq _]. rewrite Hx.
        by exists (String c b').
      * by exists b'.
Qed.

Lemma rstrip_inside a x b :
  ∃ a' b', Str.rstrip (a +:+ x +:+ b) = a' +:+ Str.rstrip x +:+ b'.
Proof.
  induction a as [| c a (a' & b' & IH)].
  - destruct (rstrip_after x b) as [b' Hb]. by exists "", b'.
  - rewrite append_cons. simpl. rewrite IH.
    destruct (String.eqb (a' +:+ Str.rstrip x +:+ b') "" && Str.is_space c) eqn:Hc.
    + apply andb_true_iff in Hc as [Ht%String.eqb_eq _].
      apply append_empty_inv in Ht as [_ [-> _]%append_empty_inv].
      by exists "", "".
    + by exists (String c a'), b'.
Qed.

(** Stripping a text keeps what is inside it, stripped. *)
Lemma strip_inside a x b :
  ∃ a' b', Str.strip (a +:+ x +:+ b) = a' +:+ Str.strip x +:+ b'.
Proof.
  unfold Str.strip.
  destruct (lstrip_inside a x b) as (a1 & b1 & ->).
  apply rstrip_inside.
Qed.

(** The stripped text is a piece of the text. *)
Lemma strip_piece s : ∃ a b, s = a +:+ Str.strip s +:+ b.
Proof.
  unfold Str.strip. destruct (lstrip_suffix s) as [a Ha].
  destruct (rstrip_prefix (Str.lstrip s)) as [b Hb].
  exists a, b. by rewrite <- Hb.
Qed.

End StringExtras.

(** ** The fact extractor *)

Section ExtractorExtras.
Import Re FactExtractor.

Lemma last_index_bounds ch : ∀ n s p last,
  last_index ch p n s last = last ∨
  (Z.of_nat p ≤ last_index ch p n s last < Z.of_nat (p + n))%Z.
Proof.
  induction n as [| n IH]; intros s p last; simpl; [by left |].
  destruct s as [| a s]; [by left |].
  destruct (IH s (S p) (if Ascii.eqb a ch then Z.of_nat p else last)) as [-> | H].
  - destruct (Ascii.eqb a ch); [right; lia | by left].
  - right. lia.
Qed.

Lemma rfind_bounds ch stop s : (0 ≤ rfind ch stop s + 1 ≤ Z.of_nat stop)%Z.
Proof.
  unfold rfind. destruct (last_index_bounds ch stop s 0 (-1)) as [-> | H]; lia.
Qed.

Lemma index_from_bounds ch : ∀ s p,
  index_from ch p s = (-1)%Z ∨ (Z.of_nat p ≤ index_from ch p s)%Z.
Proof.
  induction s as [| a s IH]; intros p; simpl; [by left |].
  destruct (Ascii.eqb a ch); [right; lia |].
  destruct (IH (S p)) as [-> | H]; [by left | right; lia].
Qed.

Lemma find_bounds ch start s :
  find ch start s = (-1)%Z ∨ (Z.of_nat start ≤ find ch start s)%Z.
Proof.
  unfold find. destruct (String.length s <? start)%nat; [by left |].
  apply index_from_bounds.
Qed.

Lemma substring_prefix x y : ∀ n,
  (String.length x ≤ n)%nat →
  String.substring 0 n (x +:+ y) = x +:+ String.substring 0 (n - String.length x) y.
Proof.
  induction x as [| c x IH]; intros n Hn.
  - by rewrite !append_nil, Nat.sub_0_r.
  - destruct n as [| n]; [simpl in Hn; lia |].
    rewrite !append_cons. simpl. rewrite IH; [done | simpl in Hn; lia].
Qed.

(** A slice that starts before a piece of the text and ends after it
    has the piece inside. *)
Lemma substring_inside mid post : ∀ pre i n,
  (i ≤ String.length pre)%nat →
  (String.length pre + String.length mid ≤ i + n)%nat →
  ∃ a b, String.substring i n (pre +:+ mid +:+ post) = a +:+ mid +:+ b.
Proof.
  intros pre i. revert pre. induction i as [| i IH]; intros pre n Hi Hn.
  - exists pre, (String.substring 0 (n - String.length (pre +:+ mid)) post).
    rewrite <- !append_assoc. apply substring_prefix.
    rewrite append_length. lia.
  - destruct pre as [| c pre]; [simpl in Hi; lia |].
    rewrite append_cons. simpl. apply IH; simpl in *; lia.
Qed.

Lemma substring_0_piece s : ∀ n, ∃ b, s = String.substring 0 n s +:+ b.
Proof.
  induction s as [| c s IH]; intros n.
  - exists "". by destruct n.
  - destruct n as [| n]; simpl; [by exists (String c s) |].
    destruct (IH n) as [b Hb]. exists b. by rewrite append_cons, <- Hb.
Qed.

Lemma substring_piece s : ∀ i n, ∃ a b, s = a +:+ String.substring i n s +:+ b.
Proof.
  induction s as [| c s IH]; intros i n.
  - exists "", "". by destruct i, n.
  - destruct i as [| i].
    + destruct (substring_0_piece (String c s) n) as [b Hb]. by exists "", b.
    + simpl. destruct (IH i n) as (a & b & Hab).
      exists (String c a), b. by rewrite append_cons, <- Hab.
Qed.

(** The sentence around a match has inside it, stripped, whatever the
    match has inside it. *)
Lemma sentence_around_inside text m c0 u x v :
  cursor_of text c0 → m_start m = pos c0 →
  between c0 (m_end m) (u +:+ x +:+ v) →
  ∃ a b, sentence_around text m = a +:+ Str.strip x +:+ b.
Proof.
  intros (pre & -> & Hpos) Hstart [Hrest Hend].
  unfold sentence_around, slice.
  rewrite Hstart, Hend, Hpos, Hrest.
  set (text := pre +:+ (u +:+ x +:+ v) +:+ rest (m_end m)).
  pose proof (rfind_bounds "." (String.length pre) text) as Hss.
  set (ss := (rfind "." (String.length pre) text + 1)%Z) in *.
  set (stop := (String.length pre + String.length (u +:+ x +:+ v))%nat).
  set (found := find "." stop text).
  assert (Z.of_nat stop ≤ (if (found =? -1)%Z then Z.of_nat (String.length text) else found))%Z
    as Hse.
  { destruct (found =? -1)%Z eqn:Hf.
    - unfold text, stop. rewrite !append_length. lia.
    - destruct (find_bounds "." stop text) as [H | H]; [| exact H].
      apply Z.eqb_neq in Hf. by destruct Hf. }
  set (se := if (found =? -1)%Z then Z.of_nat (String.length text) else found) in *.
  destruct (substring_inside (u +:+ x +:+ v) (rest (m_end m)) pre
              (Z.to_nat ss) (Z.to_nat se - Z.to_nat ss)) as (a & b & Hslice);
    [lia | unfold stop in Hse; lia |].
  fold text in Hslice. rewrite Hslice.
  replace (a +:+ (u +:+ x +:+ v) +:+ b) with ((a +:+ u) +:+ x +:+ (v +:+ b))
    by by rewrite !append_assoc.
  apply strip_inside.
Qed.

(** The sentence around a match is a piece of the text. *)
Lemma sentence_around_piece text m :
  ∃ a b, text = a +:+ sentence_around text m +:+ b.
Proof.
  unfold sentence_around, slice.
  match goal with
  | |- context [String.substring ?i ?n text] =>
      destruct (substring_piece text i n) as (a1 & b1 & H1);
      destruct (strip_piece (String.substring i n text)) as (a2 & b2 & H2)
  end.
  exists (a1 +:+ a2), (b2 +:+ b1).
  rewrite H1 at 1. rewrite H2 at 1. by rewrite !append_assoc.
Qed.

Lemma fact_is_claim sentence entity fact_type :
  fact sentence entity fact_type = claim entity fact_type sentence.
Proof. reflexivity. Qed.

Lemma numeric_pattern_group pattern fact_type c g c' g' :
  (pattern, fact_type) ∈ numeric_patterns →
  matches pattern c g c' g' →
  ∃ mid, between c c' mid ∧ group 1 g' = mid.
Proof.
  unfold numeric_patterns. intros Hin.
  repeat (apply elem_of_cons in Hin as [[= -> ->] | Hin]; [apply matches_group |]).
  by apply elem_of_nil in Hin.
Qed.

Lemma matches_four_digits c g c' g' :
  matches four_digits c g c' g' →
  ∃ d, between c c' d ∧ group 1 g' = d ∧ four_digit_string d = true.
Proof.
  unfold four_digits. simpl.
  intros (g1 & (c1 & ? & (d1 & s1 & Hr1 & Hd1 & -> & ->)
                & c2 & ? & (d2 & s2 & Hr2 & Hd2 & -> & ->)
                & c3 & ? & (d3 & s3 & Hr3 & Hd3 & -> & ->)
                & c4 & ? & (d4 & s4 & Hr4 & Hd4 & -> & ->) & -> & ->) & ->).
  simpl in *. subst s1 s2 s3.
  exists (String d1 (String d2 (String d3 (String d4 "")))). repeat split.
  - by rewrite Hr1.
  - simpl. lia.
  - unfold group. simpl. rewrite Hr1.
    replace (S (S (S (S (pos c)))) - pos c)%nat with 4%nat by lia.
    exact (take_app (String d1 (String d2 (String d3 (String d4 "")))) s4).
  - unfold four_digit_string. simpl. by rewrite Hd1, Hd2, Hd3, Hd4.
Qed.

Lemma date_pattern_group pattern fact_type c g c' g' :
  (pattern, fact_type) ∈ date_patterns →
  matches pattern c g c' g' →
  fact_type = "DATE" ∧
  ∃ u d, between c c' (u +:+ d) ∧ group 1 g' = d ∧ four_digit_string d = true.
Proof.
  unfold date_patterns. intros Hin.
  apply elem_of_cons in Hin as [[= -> ->] | Hin];
    [| apply elem_of_cons in Hin as [[= -> ->] | Hin]; [| by apply elem_of_nil in Hin]].
  - unfold date_in_re.
    intros (c1 & g1 & u1 & H1 & (c2 & g2 & u2 & H2 & Hd)%matches_seq)%matches_seq.
    apply matches_four_digits in Hd as (d & Hd & Hg & Hfour).
    split; [done |]. exists (u1 +:+ u2), d. split; [| done].
    rewrite append_assoc. eauto using between_trans.
  - unfold date_event_re.
    intros (c1 & g1 & u1 & H1 & (c2 & g2 & u2 & H2
              & (c3 & g3 & u3 & H3 & Hd)%matches_seq)%matches_seq)%matches_seq.
    apply matches_four_digits in Hd as (d & Hd & Hg & Hfour).
    split; [done |]. exists (u1 +:+ u2 +:+ u3), d. split; [| done].
    rewrite !append_assoc. eauto using between_trans.
Qed.

Lemma numeric_fact_match text (fact : dict) :
  fact ∈ _extract_numeric_facts text →
  ∃ pattern fact_type m,
    (pattern, fact_type) ∈ numeric_patterns ∧ m ∈ finditer pattern text ∧
    fact = claim (Str.strip (group 1 (m_groups m))) fact_type (sentence_around text m).
Proof.
  unfold _extract_numeric_facts.
  rewrite list_elem_of_In, in_flat_map.
  intros ([pattern fact_type] & Hp & (m & <- & Hm)%in_map_iff).
  exists pattern, fact_type, m. by rewrite <- !list_elem_of_In in *.
Qed.

Lemma date_fact_match text (fact : dict) :
  fact ∈ _extract_date_patterns text →
  ∃ pattern fact_type m,
    (pattern, fact_type) ∈ date_patterns ∧ m ∈ finditer pattern text ∧
    fact = claim (group 1 (m_groups m)) fact_type (sentence_around text m).
Proof.
  unfold _extract_date_patterns.
  rewrite list_elem_of_In, in_flat_map.
  intros ([pattern fact_type] & Hp & (m & <- & Hm)%in_map_iff).
  exists pattern, fact_type, m. by rewrite <- !list_elem_of_In in *.
Qed.

Lemma digit_not_space c : Str.is_digit c = true → Str.is_space c = false.
Proof.
  unfold Str.is_digit, Str.is_space, Str.in_range.
  rewrite andb_true_iff, orb_false_iff, !andb_false_iff, !N.leb_le, !N.leb_gt. lia.
Qed.

Lemma strip_four_digits d : four_digit_string d = true → Str.strip d = d.
Proof.
  unfold four_digit_string.
  destruct d as [| d1 [| d2 [| d3 [| d4 [| d5 d]]]]]; try discriminate. simpl.
  rewrite !andb_true_iff.
  intros (Hd1%digit_not_space & Hd2%digit_not_space
          & Hd3%digit_not_space & Hd4%digit_not_space & _).
  unfold Str.strip. simpl. rewrite Hd1. simpl. by rewrite Hd4.
Qed.

Lemma tower_numeric_facts : _extract_numeric_facts tower_text = [tower_height].
Proof. by_evaluation. Qed.

Lemma tower_date_facts : _extract_date_patterns tower_text = [tower_year; tower_year].
Proof. by_evaluation. Qed.

Lemma contains_inside a x b a' b' s :
  s = a +:+ (a' +:+ x +:+ b') +:+ b → Str.contains x s = true.
Proof.
  intros ->.
  replace (a +:+ (a' +:+ x +:+ b') +:+ b) with ((a +:+ a') +:+ x +:+ (b' +:+ b))
    by by rewrite !append_assoc.
  apply contains_app.
Qed.

(** X19.  The sentence of a fact contains its entity: every fact that
    [_extract_numeric_facts] or [_extract_date_patterns] returns is a claim
    whose entity occurs in its sentence, and whose sentence occurs in the
    text. *)
Theorem sentence_contains_entity (text : string) (fact : dict) :
  fact ∈ (_extract_numeric_facts text ++ _extract_date_patterns text)%list →
  ∃ entity entity_type sentence,
    fact = claim entity entity_type sentence ∧
    Str.contains entity sentence = true ∧
    Str.contains sentence text = true.
Proof.
  intros [Hin | Hin]%elem_of_app.
  - apply numeric_fact_match in Hin as (pattern & fact_type & m & Hp & Hm & ->).
    apply finditer_matches in Hm as (c0 & Hc0 & Hstart & Hm).
    destruct (numeric_pattern_group _ _ _ _ _ _ Hp Hm) as (mid & Hmid & ->).
    destruct (sentence_around_inside text m c0 "" mid "" Hc0 Hstart) as (a & b & Ha).
    { by rewrite append_nil, append_empty. }
    eexists _, _, _. split; [reflexivity |]. split.
    + rewrite Ha. apply contains_app.
    + destruct (sentence_around_piece text m) as (a' & b' & Hs).
      rewrite Hs at 2. apply contains_app.
  - apply date_fact_match in Hin as (pattern & fact_type & m & Hp & Hm & ->).
    apply finditer_matches in Hm as (c0 & Hc0 & Hstart & Hm).
    destruct (date_pattern_group _ _ _ _ _ _ Hp Hm) as (_ & u & d & Hmid & -> & Hd).
    destruct (sentence_around_inside text m c0 u d "" Hc0 Hstart) as (a & b & Ha).
    { by rewrite append_empty. }
    eexists _, _, _. split; [reflexivity |]. split.
    + rewrite Ha, (strip_four_digits d Hd). apply contains_app.
    + destruct (sentence_around_piece text m) as (a' & b' & Hs).
      rewrite Hs at 2. apply contains_app.
Qed.

Lemma sentence_contains_entity_witness :
  tower_height ∈ (_extract_numeric_facts tower_text
                  ++ _extract_date_patterns tower_text)%list ∧
  ∃ entity entity_type sentence,
    tower_height = claim entity entity_type sentence ∧
    Str.contains entity sentence = true ∧
    Str.contains sentence tower_text = true.
Proof.
  assert (tower_height ∈ (_extract_numeric_facts tower_text
                          ++ _extract_date_patterns tower_text)%list) as Hin.
  { rewrite tower_numeric_facts. apply elem_of_app. left. apply list_elem_of_here. }
  split; [exact Hin |]. exact (sentence_contains_entity tower_text tower_height Hin).
Defined.

Lemma digit_value c : Str.is_digit c = true → (Str.code c - 48 ≤ 9)%N.
Proof.
  unfold Str.is_digit, Str.in_range. rewrite andb_true_iff, !N.leb_le. lia.
Qed.

Lemma extract_year_four_digits d :
  four_digit_string d = true →
  ∃ year, Detector._extract_year (PStr d) = Ok (Some year) ∧ (0 ≤ year ≤ 9999)%Z.
Proof.
  unfold four_digit_string.
  destruct d as [| d1 [| d2 [| d3 [| d4 [| d5 d]]]]]; try discriminate. simpl.
  rewrite !andb_true_iff. intros (Hd1 & Hd2 & Hd3 & Hd4 & _).
  set (d := String d1 (String d2 (String d3 (String d4 "")))).
  assert (match_at Detector.year_re (Cursor None 0 d)
          = Some (Found 0 (Cursor (Some d4) 4 "") [(1%nat, d)])) as Hmatch.
  { unfold match_at, Detector.year_re, digit. simpl.
    by rewrite Hd1, Hd2, Hd3, Hd4. }
  unfold Detector._extract_year, Re.search. simpl str_arg.
  unfold mbind, result_bind. unfold d at 1. cbn [search_from]. fold d.
  rewrite Hmatch. cbn [m_groups]. unfold group. simpl.
  unfold Num.int, Num.digits. simpl. rewrite Hd1, Hd2, Hd3, Hd4. simpl.
  eexists. split; [reflexivity |].
  apply digit_value in Hd1, Hd2, Hd3, Hd4. lia.
Qed.

(** X20.  The detector can read the year of every date fact: each fact
    that [_extract_date_patterns] returns is a claim of type DATE whose
    entity is four digits, and [_extract_year] returns a year from it. *)
Theorem date_facts_have_years (text : string) (fact : dict) :
  fact ∈ _extract_date_patterns text →
  ∃ entity sentence year,
    fact = claim entity "DATE" sentence ∧
    four_digit_string entity = true ∧
    Detector._extract_year (PStr entity) = Ok (Some year) ∧
    (0 ≤ year ≤ 9999)%Z.
Proof.
  intros (pattern & fact_type & m & Hp & Hm & ->)%date_fact_match.
  apply finditer_matches in Hm as (c0 & Hc0 & Hstart & Hm).
  destruct (date_pattern_group _ _ _ _ _ _ Hp Hm) as (-> & u & d & Hmid & -> & Hd).
  destruct (extract_year_four_digits d Hd) as (year & Hyear & Hbounds).
  by eexists _, _, year.
Qed.

Lemma date_facts_have_years_witness :
  tower_year ∈ _extract_date_patterns tower_text ∧
  ∃ entity sentence year,
    tower_year = claim entity "DATE" sentence ∧
    four_digit_string entity = true ∧
    Detector._extract_year (PStr entity) = Ok (Some year) ∧
    (0 ≤ year ≤ 9999)%Z.
Proof.
  assert (tower_year ∈ _extract_date_patterns tower_text) as Hin.
  { rewrite tower_date_facts. apply list_elem_of_here. }
  split; [exact Hin |]. exact (date_facts_have_years tower_text tower_year Hin).
Defined.

End ExtractorExtras.

Section ExtractFacts.
Import FactExtractor.

Lemma unique_spec facts :
  Forall (λ fact, ∃ key, fact_key fact = Ok key) facts →
  ∀ seen unique_facts,
  ∃ kept,
    unique facts seen unique_facts = Ok (unique_facts ++ kept)%list ∧
    sublist kept facts ∧
    NoDup (fact_key <$> kept) ∧
    (∀ fact key, fact ∈ kept → fact_key fact = Ok key → key ∉ seen) ∧
    (∀ earlier fact later key,
       facts = (earlier ++ fact :: later)%list → fact_key fact = Ok key →
       fact ∈ kept ∨ key ∈ seen ∨
       ∃ fact', fact' ∈ earlier ∧ fact_key fact' = Ok key).
Proof.
  induction 1 as [| fact facts [key Hkey] _ IH]; intros seen unique_facts.
  - exists []. rewrite app_nil_r.
    split; [done |]. split; [constructor |]. split; [constructor |]. split.
    + by intros ? ? ?%elem_of_nil.
    + intros [] ? ? ? [=].
  - simpl. rewrite Hkey. unfold mbind, result_bind.
    case_bool_decide as Hseen.
    + destruct (IH seen unique_facts) as (kept & Hrun & Hsub & Hnodup & Hnew & Hdrop).
      exists kept. split; [done |]. split; [by apply sublist_cons |].
      split; [done |]. split; [done |].
      intros [| fact0 earlier] fact1 later key1 Hsplit Hkey1.
      * injection Hsplit as <- <-. right. left. congruence.
      * injection Hsplit as <- ->.
        destruct (Hdrop earlier fact1 later key1 eq_refl Hkey1)
          as [? | [? | (fact' & ? & ?)]]; [by left | by right; left |].
        right. right. exists fact'. split; [by apply list_elem_of_further | done].
    + destruct (IH ({[key]} ∪ seen) (unique_facts ++ [fact])%list)
        as (kept & Hrun & Hsub & Hnodup & Hnew & Hdrop).
      exists (fact :: kept). split; [by rewrite Hrun, <- app_assoc |].
      split; [by apply sublist_skip |]. split; [| split].
      * rewrite fmap_cons. apply NoDup_cons. split; [| done].
        intros (fact' & Hk & Hin)%list_elem_of_fmap_1.
        rewrite Hkey in Hk. symmetry in Hk.
        apply (Hnew fact' key Hin Hk). set_solver.
      * intros fact' key' [-> | Hin]%elem_of_cons Hk.
        -- congruence.
        -- intros ?. apply (Hnew fact' key' Hin Hk). set_solver.
      * intros [| fact0 earlier] fact1 later key1 Hsplit Hkey1.
        -- injection Hsplit as <- <-. left. apply list_elem_of_here.
        -- injection Hsplit as <- ->.
           destruct (Hdrop earlier fact1 later key1 eq_refl Hkey1)
             as [? | [Hin | (fact' & ? & ?)]].
           ++ left. by apply list_elem_of_further.
           ++ apply elem_of_union in Hin as [->%elem_of_singleton | ?];
                [| by right; left].
              right. right. exists fact. split; [apply list_elem_of_here | done].
           ++ right. right. exists fact'. split; [by apply list_elem_of_further | done].
Qed.

Lemma entity_facts_claims doc (fact : dict) :
  fact ∈ entity_facts doc →
  ∃ entity entity_type sentence,
    fact = claim entity entity_type sentence ∧ entity_type ∈ entity_labels.
Proof.
  unfold entity_facts. rewrite list_elem_of_In, in_flat_map.
  intros (ent & _ & Hin). case_bool_decide as Hlabel; [| done].
  destruct Hin as [<- | []]. by eexists _, _, _.
Qed.

Lemma pattern_types pattern fact_type :
  (pattern, fact_type) ∈ (numeric_patterns ++ date_patterns)%list →
  fact_type ∈ extracted_types.
Proof.
  unfold numeric_patterns, date_patterns, extracted_types, entity_labels. simpl.
  intros Hin.
  repeat (apply elem_of_cons in Hin as [[= -> ->] | Hin];
          [repeat (apply list_elem_of_here || apply list_elem_of_further) |]).
  by apply elem_of_nil in Hin.
Qed.

Lemma candidates_claims doc text (fact : dict) :
  fact ∈ candidates doc text →
  ∃ entity entity_type sentence,
    fact = claim entity entity_type sentence ∧ entity_type ∈ extracted_types.
Proof.
  unfold candidates. rewrite !elem_of_app. intros [Hin | [Hin | Hin]].
  - apply entity_facts_claims in Hin as (e & t & st & -> & Ht).
    exists e, t, st. split; [done |]. unfold extracted_types. apply elem_of_app. by left.
  - apply numeric_fact_match in Hin as (pattern & fact_type & m & Hp & _ & ->).
    eexists _, _, _. split; [reflexivity |].
    apply (pattern_types pattern). apply elem_of_app. by left.
  - apply date_fact_match in Hin as (pattern & fact_type & m & Hp & _ & ->).
    eexists _, _, _. split; [reflexivity |].
    apply (pattern_types pattern). apply elem_of_app. by right.
Qed.

Lemma candidates_keys doc text :
  Forall (λ fact, ∃ key, fact_key fact = Ok key) (candidates doc text).
Proof.
  apply Forall_forall. intros fact (e & t & st & -> & _)%candidates_claims.
  by eexists.
Qed.

Lemma extract_facts_run run text doc :
  run text = Ok doc →
  extract_facts (Some run) text = unique (candidates doc text) ∅ [].
Proof.
  intros Hdoc. unfold extract_facts, candidates. rewrite Hdoc.
  unfold mbind, result_bind. by rewrite <- app_assoc.
Qed.

Lemma extract_facts_returns run text doc :
  run text = Ok doc →
  ∃ facts, extract_facts (Some run) text = Ok facts ∧ sublist facts (candidates doc text).
Proof.
  intros Hdoc. rewrite (extract_facts_run run text doc Hdoc).
  destruct (unique_spec _ (candidates_keys doc text) ∅ []) as (kept & Hrun & Hsub & _).
  by exists kept.
Qed.

(** X21.  When spaCy returns a document, [extract_facts] returns: it
    keeps the collected facts in their order, no two of the facts it keeps
    have the same key (entity, colon, first fifty characters of the
    sentence), and it drops a fact only when an earlier one has its key. *)
Theorem extract_facts_unique (run : string → result Doc) (text : string) (doc : Doc) :
  run text = Ok doc →
  ∃ facts,
    extract_facts (Some run) text = Ok facts ∧
    sublist facts (candidates doc text) ∧
    NoDup (fact_key <$> facts) ∧
    ∀ earlier fact later,
      candidates doc text = (earlier ++ fact :: later)%list →
      fact ∈ facts ∨ ∃ fact', fact' ∈ earlier ∧ fact_key fact' = fact_key fact.
Proof.
  intros Hdoc. rewrite (extract_facts_run run text doc Hdoc).
  destruct (unique_spec _ (candidates_keys doc text) ∅ [])
    as (kept & Hrun & Hsub & Hnodup & _ & Hdrop).
  exists kept. split; [done |]. split; [done |]. split; [done |].
  intros earlier fact later Hsplit.
  assert (fact ∈ candidates doc text) as (e & t & st & -> & _)%candidates_claims.
  { rewrite Hsplit. apply elem_of_app. right. apply list_elem_of_here. }
  destruct (Hdrop earlier _ later _ Hsplit eq_refl) as [? | [? | (fact' & ? & ?)]].
  - by left.
  - set_solver.
  - right. by exists fact'.
Qed.

Lemma tower_candidates :
  candidates tower_doc tower_text = [tower_entity; tower_height; tower_year; tower_year].
Proof. by_evaluation. Qed.

Lemma tower_facts :
  extract_facts (Some tower_nlp) tower_text = Ok [tower_entity; tower_height; tower_year].
Proof. by_evaluation. Qed.

Lemma extract_facts_unique_witness :
  tower_nlp tower_text = Ok tower_doc ∧
  ∃ facts,
    extract_facts (Some tower_nlp) tower_text = Ok facts ∧
    sublist facts (candidates tower_doc tower_text) ∧
    NoDup (fact_key <$> facts) ∧
    ∀ earlier fact later,
      candidates tower_doc tower_text = (earlier ++ fact :: later)%list →
      fact ∈ facts ∨ ∃ fact', fact' ∈ earlier ∧ fact_key fact' = fact_key fact.
Proof.
  split; [reflexivity |].
  exact (extract_facts_unique tower_nlp tower_text tower_doc eq_refl).
Defined.

(** What [extract_facts] returns can be verified and compared: each
    fact has its three fields. *)
Lemma extracted_claims nlp text facts :
  extract_facts nlp text = Ok facts → forallb is_claim facts = true.
Proof.
  destruct nlp as [run |]; [| by intros [= <-]].
  destruct (run text) as [doc | e] eqn:Hdoc.
  - destruct (extract_facts_returns run text doc Hdoc) as (kept & -> & Hsub).
    intros [= <-]. apply forallb_forall. intros fact Hin%list_elem_of_In.
    assert (fact ∈ candidates doc text) as (e & t & st & -> & _)%candidates_claims
      by by eapply elem_of_sublist.
    reflexivity.
  - unfold extract_facts. by rewrite Hdoc.
Qed.

(** X22.  Every fact [extract_facts] returns is a claim: exactly the
    four fields, the claim being the sentence, with one of the entity types
    of the extractor: a spaCy label it keeps, or the type of a pattern. *)
Theorem extracted_facts_are_claims
    (nlp : option (string → result Doc)) (text : string) (facts : list dict) :
  extract_facts nlp text = Ok facts →
  Forall (λ fact : dict,
            ∃ entity entity_type sentence,
              fact = claim entity entity_type sentence ∧
              entity_type ∈ extracted_types)
         facts.
Proof.
  destruct nlp as [run |]; [| intros [= <-]; constructor].
  destruct (run text) as [doc | e] eqn:Hdoc.
  - destruct (extract_facts_returns run text doc Hdoc) as (kept & -> & Hsub).
    intros [= <-]. apply Forall_forall. intros fact Hin.
    apply (candidates_claims doc text). by eapply elem_of_sublist.
  - unfold extract_facts. by rewrite Hdoc.
Qed.

Lemma extracted_facts_are_claims_witness :
  extract_facts (Some tower_nlp) tower_text
  = Ok [tower_entity; tower_height; tower_year] ∧
  Forall (λ fact : dict,
            ∃ entity entity_type sentence,
              fact = claim entity entity_type sentence ∧
              entity_type ∈ extracted_types)
         [tower_entity; tower_height; tower_year].
Proof.
  split; [exact tower_facts |].
  exact (extracted_facts_are_claims (Some tower_nlp) tower_text _ tower_facts).
Defined.

(** X23.  [extract_facts] raises exactly when the model is loaded and
    raises on the text, and then it raises what the model raised; with no
    model it returns no fact. *)
Theorem extract_facts_raises_as_nlp
    (nlp : option (string → result Doc)) (text : string) (e : exn) :
  extract_facts nlp text = Raise e ↔ ∃ run, nlp = Some run ∧ run text = Raise e.
Proof.
  destruct nlp as [run |].
  - destruct (run text) as [doc | e'] eqn:Hdoc.
    + destruct (extract_facts_returns run text doc Hdoc) as (kept & -> & _).
      split; [done |]. intros (run' & [= <-] & Hraise). congruence.
    + unfold extract_facts. rewrite Hdoc. simpl. split.
      * intros [= ->]. by exists run.
      * intros (run' & [= <-] & Hraise). congruence.
  - simpl. split; [done |]. by intros (run & [=] & _).
Qed.

End ExtractFacts.

(** ** The request handlers *)

Section MainExtras.
Import Main.

Variable uuid4 : string.
Variable send_message : list Message → string → result string.
Variable nlp : option (string → result FactExtractor.Doc).
Variable wiki_page : string → result Verifier.WikipediaPage.


(** The body of [chat], step by step. *)
Lemma chat_body_steps request app :
  let session_id := session_of uuid4 request in
  let old := history_of app session_id in
  let said := (old ++ [user_message (message request)])%list in
  let detector := contradiction_detector app in
  Main.chat_body uuid4 send_message nlp wiki_page request app =
  match send_message old (message request) with
  | Raise e => (Raise e, after_turn app session_id said detector)
  | Ok response_text =>
      let answered := (said ++ [model_message response_text])%list in
      match FactExtractor.extract_facts nlp response_text with
      | Raise e => (Raise e, after_turn app session_id answered detector)
      | Ok extracted_facts =>
          match Verifier.verify_facts wiki_page extracted_facts with
          | Raise e => (Raise e, after_turn app session_id answered detector)
          | Ok verified_facts =>
              match (Detector.detect_contradictions session_id verified_facts detector).1 with
              | Raise e => (Raise e, after_turn app session_id answered detector)
              | Ok contradictions =>
                  let detector' :=
                    (Detector.add_facts session_id verified_facts detector).2 in
                  match Scorer.score_response verified_facts with
                  | Raise e => (Raise e, after_turn app session_id answered detector')
                  | Ok report =>
                      match Formatter.format_response response_text verified_facts
                              contradictions with
                      | Raise e => (Raise e, after_turn app session_id answered detector')
                      | Ok formatted =>
                          (Ok {| response := response_text;
                                 response_session_id := session_id;
                                 extracted_facts := verified_facts;
                                 confidence_report := adjusted report contradictions;
                                 contradictions := contradictions;
                                 formatted_response := formatted |},
                           after_turn app session_id answered detector')
                      end
                  end
              end
          end
      end
  end.
Proof.
  intros session_id old said detector.
  unfold Main.chat_body. fold session_id.
  assert (∀ {A} (k : _ → H A),
            (c ← get_conversations;
             _ ← (if bool_decide (session_id ∉ dom c)
                  then set_conversations (<[session_id := []]> c)
                  else mret ());
             _ ← append_message session_id (user_message (message request));
             history ← conversation session_id;
             k history) app
            = k said (after_turn app session_id said detector)) as Hprefix.
  { intros A k. unfold append_message, conversation, get_conversations, set_conversations,
      mbind, H_bind, mret, H_ret. cbn [conversations contradiction_detector].
    unfold said, old, history_of, after_turn.
    case_bool_decide as Hnew; cbn [conversations contradiction_detector].
    - apply not_elem_of_dom in Hnew. rewrite Hnew.
      rewrite !lookup_insert_eq. cbn [conversations default].
      by rewrite !insert_insert_eq, lookup_insert_eq.
    - apply elem_of_dom in Hnew as [history Hh].
      rewrite Hh. cbn [conversations default].
      by rewrite lookup_insert_eq. }
  change {| role := "user"; parts := [message request] |}
    with (user_message (message request)).
  rewrite Hprefix. clear Hprefix.
  unfold mbind at 1, H_bind at 1, call at 1.
  unfold said at 1. rewrite removelast_last.
  destruct (send_message old (message request)) as [response_text | e]; [| done].
  change {| role := "model"; parts := [response_text] |}
    with (model_message response_text).
  set (answered := (said ++ [model_message response_text])%list).
  unfold mbind at 1, H_bind at 1.
  assert (append_message session_id (model_message response_text)
            (after_turn app session_id said detector)
          = (Ok (), after_turn app session_id answered detector)) as ->.
  { unfold append_message, conversation, get_conversations, set_conversations,
      mbind, H_bind, mret, H_ret, after_turn. cbn [conversations contradiction_detector].
    rewrite lookup_insert_eq. cbn [conversations contradiction_detector].
    by rewrite insert_insert_eq. }
  unfold mbind at 1, H_bind at 1, call at 1.
  destruct (FactExtractor.extract_facts nlp response_text) as [extracted | e]; [| done].
  unfold mbind at 1, H_bind at 1, call at 1.
  destruct (Verifier.verify_facts wiki_page extracted) as [verified | e]; [| done].
  unfold mbind at 1, H_bind at 1, on_detector at 1.
  cbn [contradiction_detector after_turn conversations].
  pose proof (reads_only_detect session_id verified detector) as Hreads.
  destruct (Detector.detect_contradictions session_id verified detector)
    as [[found | e] detector0] eqn:Hdetect; simpl in Hreads; subst detector0;
    cbn [fst]; [| done].
  unfold mbind at 1, H_bind at 1, on_detector at 1.
  cbn [contradiction_detector conversations].
  rewrite add_facts_spec. cbn [snd].
  unfold mbind at 1, H_bind at 1, call at 1.
  destruct (Scorer.score_response verified) as [report | e]; [| done].
  unfold mbind at 1, H_bind at 1, call at 1.
  destruct (Formatter.format_response response_text verified found) as [formatted | e];
    [| done].
  reflexivity.
Qed.

Lemma verified_claims facts : ∀ results,
  forallb is_claim facts = true →
  Verifier.verify_facts wiki_page facts = Ok results →
  forallb is_claim results = true.
Proof.
  destruct claim_keys_outside as (He & Ht & Hs).
  induction facts as [| fact facts IH]; intros results; simpl.
  - by intros _ [= <-].
  - intros [Hfact Hfacts]%andb_true_iff. unfold mbind, result_bind.
    destruct (Verifier.verify_fact wiki_page fact) as [result |] eqn:Hr; [| discriminate].
    destruct (Verifier.verify_facts wiki_page facts) as [rest |]; [| discriminate].
    intros [= <-]. simpl. rewrite (IH rest) by done.
    unfold is_claim in *.
    rewrite (verify_fact_keeps wiki_page fact result "entity" Hr He),
      (verify_fact_keeps wiki_page fact result "entity_type" Hr Ht),
      (verify_fact_keeps wiki_page fact result "sentence" Hr Hs).
    by rewrite Hfact.
Qed.

Lemma score_response_returns facts :
  ∃ report, Scorer.score_response facts = Ok report.
Proof.
  destruct facts as [| fact facts]; [by eexists |].
  destruct (score_response_spec fact facts) as (score & report & _ & _ & Hreport & _).
  by exists report.
Qed.

Lemma detected_readable self session_id facts contradictions :
  forallb is_claim facts = true →
  (Detector.detect_contradictions session_id facts self).1 = Ok contradictions →
  Forall readable contradictions.
Proof.
  intros Hclaims Hdetect. rewrite detect_default in Hdetect.
  destruct (Detector.session_facts self !! session_id) as [history |].
  - by eapply scan_all_readable.
  - injection Hdetect as <-. constructor.
Qed.

(** How a turn ends: the language model raises, or spaCy raises, or the
    comparison of the facts raises, or the turn succeeds. *)
Lemma chat_outcome request app :
  let session_id := session_of uuid4 request in
  let old := history_of app session_id in
  let said := (old ++ [user_message (message request)])%list in
  let detector := contradiction_detector app in
  (∃ e, send_message old (message request) = Raise e ∧
        Main.chat uuid4 send_message nlp wiki_page request app
        = (HTTPException 500 (str_exn e), after_turn app session_id said detector)) ∨
  (∃ response_text, send_message old (message request) = Ok response_text ∧
     let answered := (said ++ [model_message response_text])%list in
     (∃ e, FactExtractor.extract_facts nlp response_text = Raise e ∧
           Main.chat uuid4 send_message nlp wiki_page request app
           = (HTTPException 500 (str_exn e), after_turn app session_id answered detector)) ∨
     (∃ extracted_facts verified_facts,
        FactExtractor.extract_facts nlp response_text = Ok extracted_facts ∧
        Verifier.verify_facts wiki_page extracted_facts = Ok verified_facts ∧
        forallb is_claim verified_facts = true ∧
        ((∃ e, (Detector.detect_contradictions session_id verified_facts detector).1
               = Raise e ∧
               Main.chat uuid4 send_message nlp wiki_page request app
               = (HTTPException 500 (str_exn e),
                  after_turn app session_id answered detector)) ∨
         (∃ contradictions report formatted,
            (Detector.detect_contradictions session_id verified_facts detector).1
            = Ok contradictions ∧
            Scorer.score_response verified_facts = Ok report ∧
            Formatter.format_response response_text verified_facts contradictions
            = Ok formatted ∧
            Main.chat uuid4 send_message nlp wiki_page request app
            = (Response {| response := response_text;
                           response_session_id := session_id;
                           extracted_facts := verified_facts;
                           confidence_report := adjusted report contradictions;
                           contradictions := contradictions;
                           formatted_response := formatted |},
               after_turn app session_id answered
                 (Detector.add_facts session_id verified_facts detector).2))))).
Proof.
  intros session_id old said detector.
  unfold Main.chat. rewrite chat_body_steps.
  fold session_id. fold old. fold said. fold detector. cbv zeta.
  destruct (send_message old (message request)) as [response_text | e];
    [right | by left; exists e].
  exists response_text. split; [done |].
  destruct (FactExtractor.extract_facts nlp response_text) as [extracted | e] eqn:Hextract;
    [right | by left; exists e].
  pose proof (extracted_claims _ _ _ Hextract) as Hclaims.
  destruct (verify_facts_returns wiki_page extracted Hclaims) as (verified & Hverify & _).
  pose proof (verified_claims _ _ Hclaims Hverify) as Hverified.
  exists extracted, verified. rewrite Hverify. split; [done |]. split; [done |].
  split; [done |].
  destruct (Detector.detect_contradictions session_id verified detector).1
    as [found | e] eqn:Hdetect; [right | by left; exists e].
  destruct (score_response_returns verified) as [report Hreport].
  destruct (format_response_returns response_text verified found Hverified)
    as (formatted & Hformat & _).
  { by eapply detected_readable. }
  exists found, report, formatted. by rewrite Hreport, Hformat.
Qed.

(** On a session with no fact history a turn succeeds as soon as the
    language model and spaCy return. *)
Lemma first_turn_succeeds request app response_text extracted :
  send_message (history_of app (session_of uuid4 request)) (message request)
  = Ok response_text →
  FactExtractor.extract_facts nlp response_text = Ok extracted →
  Detector.session_facts (contradiction_detector app) !! session_of uuid4 request = None →
  ∃ r app', Main.chat uuid4 send_message nlp wiki_page request app = (Response r, app').
Proof.
  intros Hsend Hextract Hnone.
  destruct (chat_outcome request app)
    as [(e & Hs & _) | (text & Hs & [(e & He & _)
                                    | (ex & vf & Hex & _ & _ & [(e & Hd & _) | H])])].
  - congruence.
  - congruence.
  - by rewrite detect_unknown_session in Hd.
  - destruct H as (cs & report & formatted & _ & _ & _ & H). by eexists _, _.
Qed.

Lemma after_turn_history app session_id history detector :
  history_of (after_turn app session_id history detector) session_id = history.
Proof. unfold history_of, after_turn. simpl. by rewrite lookup_insert_eq. Qed.

(** X24.  A turn that succeeds is recorded whole: the reply carries the
    session id of the request (a new one when the request has none, or an
    empty one) and the text the language model returned for the earlier
    conversation; the conversation of the session grows by the message and
    that text, its fact history by exactly the facts of the reply, and no
    other session changes. *)
Theorem turn_recorded (request : ChatRequest) (app app' : App) (r : ChatResponse) :
  Main.chat uuid4 send_message nlp wiki_page request app = (Response r, app') →
  let session_id := session_of uuid4 request in
  response_session_id r = session_id ∧
  send_message (history_of app session_id) (message request) = Ok (response r) ∧
  conversations app'
  = <[session_id := (history_of app session_id
                     ++ [user_message (message request); model_message (response r)])%list]>
      (conversations app) ∧
  Detector.session_facts (contradiction_detector app')
  = <[session_id := (facts_of app session_id ++ extracted_facts r)%list]>
      (Detector.session_facts (contradiction_detector app)).
Proof.
  intros Hchat session_id.
  destruct (chat_outcome request app)
    as [(e & _ & H) | (text & Hs & [(e & _ & H)
                                    | (ex & vf & _ & _ & _ & [(e & _ & H) | H])])];
    try (rewrite H in Hchat; discriminate).
  destruct H as (cs & report & formatted & _ & _ & _ & H).
  rewrite H in Hchat. injection Hchat as <- <-. cbn.
  split; [done |]. split; [done |]. split.
  - by rewrite <- app_assoc.
  - by rewrite add_facts_spec.
Qed.

(** X25.  A turn in which the language model raises, or spaCy raises, or
    the comparison of the new facts with the fact history raises, answers
    with status 500 and the text of that exception, and leaves the fact
    histories as they were: the facts of the turn are appended only after
    the comparison.  The message of the user stays in the conversation,
    followed by the text of the model when there was one. *)
Theorem failed_turn_keeps_facts
    (request : ChatRequest) (app : App) (e : exn) (answer : list Message) :
  let session_id := session_of uuid4 request in
  let old := history_of app session_id in
  (send_message old (message request) = Raise e ∧ answer = []) ∨
  (∃ response_text,
     send_message old (message request) = Ok response_text ∧
     answer = [model_message response_text] ∧
     (FactExtractor.extract_facts nlp response_text = Raise e ∨
      ∃ extracted_facts verified_facts,
        FactExtractor.extract_facts nlp response_text = Ok extracted_facts ∧
        Verifier.verify_facts wiki_page extracted_facts = Ok verified_facts ∧
        (Detector.detect_contradictions session_id verified_facts
           (contradiction_detector app)).1 = Raise e)) →
  ∃ app',
    Main.chat uuid4 send_message nlp wiki_page request app
    = (HTTPException 500 (str_exn e), app') ∧
    contradiction_detector app' = contradiction_detector app ∧
    history_of app' session_id
    = (old ++ user_message (message request) :: answer)%list.
Proof.
  intros session_id old Hraise. subst session_id old.
  pose proof (chat_outcome request app) as Hout. cbv zeta in Hout.
  destruct Hout
    as [(e' & Hs & H) | (text & Hs & [(e' & He & H)
                                      | (ex & vf & Hex & Hv & _ & [(e' & Hd & H) | H])])].
  - destruct Hraise as [[Hsend ->] | (text & Hsend & _)]; [| congruence].
    assert (e' = e) as -> by congruence.
    eexists. split; [exact H |]. split; [done |].
    apply after_turn_history.
  - destruct Hraise as [[Hsend _] | (text' & Hsend & -> & Hlater)]; [congruence |].
    assert (text' = text) as -> by congruence.
    destruct Hlater as [Hextract | (ex & vf & Hextract & _)]; [| congruence].
    assert (e' = e) as -> by congruence.
    eexists. split; [exact H |]. split; [done |].
    by rewrite after_turn_history, <- app_assoc.
  - destruct Hraise as [[Hsend _] | (text' & Hsend & -> & Hlater)]; [congruence |].
    assert (text' = text) as -> by congruence.
    destruct Hlater as [Hextract | (ex' & vf' & Hextract & Hverify & Hdetect)];
      [congruence |].
    assert (ex' = ex) as -> by congruence.
    assert (vf' = vf) as -> by congruence.
    assert (e' = e) as -> by congruence.
    eexists. split; [exact H |]. split; [done |].
    by rewrite after_turn_history, <- app_assoc.
  - destruct H as (cs & report & formatted & Hd & _).
    destruct Hraise as [[Hsend _] | (text' & Hsend & -> & Hlater)]; [congruence |].
    assert (text' = text) as -> by congruence.
    destruct Hlater as [Hextract | (ex' & vf' & Hextract & Hverify & Hdetect)];
      [congruence |].
    assert (ex' = ex) as -> by congruence.
    assert (vf' = vf) as -> by congruence.
    congruence.
Qed.


(** X27.  Clearing a session forgets it: the next turn on that session
    is sent to the language model with no earlier conversation, finds no
    contradiction, and leaves the session with that one exchange and the
    facts of that one reply. *)
Theorem clear_session_forgets
    (session_id : string) (request : ChatRequest) (app app' : App) (r : ChatResponse) :
  session_of uuid4 request = session_id →
  Main.chat uuid4 send_message nlp wiki_page request (Main.clear_session session_id app).2
  = (Response r, app') →
  send_message [] (message request) = Ok (response r) ∧
  contradictions r = [] ∧
  history_of app' session_id
  = [user_message (message request); model_message (response r)] ∧
  facts_of app' session_id = extracted_facts r.
Proof.
  intros Hid Hchat.
  set (cleared := (Main.clear_session session_id app).2) in *.
  assert (conversations cleared !! session_id = None ∧
          Detector.session_facts (contradiction_detector cleared) !! session_id = None)
    as [Hconv Hfacts].
  { unfold cleared, Main.clear_session, mbind, H_bind, get_conversations,
      set_conversations, on_detector, mret, H_ret.
    case_bool_decide as Hin; cbn [conversations contradiction_detector];
      rewrite clear_session_spec; cbn.
    - by rewrite !lookup_delete_eq.
    - apply not_elem_of_dom in Hin. by rewrite lookup_delete_eq. }
  destruct (chat_outcome request cleared)
    as [(e & _ & H) | (text & Hs & [(e & _ & H)
                                    | (ex & vf & _ & _ & _ & [(e & _ & H) | H])])];
    try (rewrite H in Hchat; discriminate).
  destruct H as (cs & report & formatted & Hdetect & _ & _ & H).
  rewrite H in Hchat. injection Hchat as <- <-. cbn.
  rewrite Hid in *. unfold history_of in Hs. rewrite Hconv in Hs. simpl in Hs.
  rewrite detect_unknown_session in Hdetect by done. injection Hdetect as <-.
  split; [done |]. split; [done |]. split.
  - rewrite after_turn_history. unfold history_of. by rewrite Hconv.
  - unfold facts_of, after_turn. cbn. rewrite add_facts_spec. cbn.
    by rewrite lookup_insert_eq, Hfacts.
Qed.

(** The objects a turn leaves, whether it succeeds or fails: those of
    the start with the conversation of the session grown. *)
Lemma chat_leaves request app :
  let session_id := session_of uuid4 request in
  let said := (history_of app session_id ++ [user_message (message request)])%list in
  ∃ history detector,
    (Main.chat uuid4 send_message nlp wiki_page request app).2
    = after_turn app session_id history detector ∧
    said `prefix_of` history.
Proof.
  intros session_id said.
  destruct (chat_outcome request app)
    as [(e & _ & H) | (text & Hs & [(e & _ & H)
                                    | (ex & vf & _ & _ & _ & [(e & _ & H) | H])])].
  - rewrite H. eexists _, _. split; [reflexivity | done].
  - rewrite H. eexists _, _. split; [reflexivity | by apply prefix_app_r].
  - rewrite H. eexists _, _. split; [reflexivity | by apply prefix_app_r].
  - destruct H as (cs & report & formatted & _ & _ & _ & H).
    rewrite H. eexists _, _. split; [reflexivity | by apply prefix_app_r].
Qed.

(** X28.  After a turn, whether it succeeded or failed, [get_history]
    knows the session: it returns its id with a conversation that starts with
    the earlier one followed by the message of the turn.  Once the session is
    cleared, [get_history] answers 404 for it. *)
Theorem history_after_turn
    (request : ChatRequest) (app app' : App) (reply : Reply ChatResponse) :
  Main.chat uuid4 send_message nlp wiki_page request app = (reply, app') →
  let session_id := session_of uuid4 request in
  (∃ history,
     get_history session_id app' = (Response (session_id, history), app') ∧
     (history_of app session_id ++ [user_message (message request)])%list
     `prefix_of` history) ∧
  (get_history session_id (Main.clear_session session_id app').2).1
  = HTTPException 404 "Session not found".
Proof.
  intros Hchat session_id.
  destruct (chat_leaves request app) as (history & detector & Happ & Hprefix).
  rewrite Hchat in Happ. simpl in Happ. subst app'. split.
  - exists history. split; [| done].
    unfold get_history, after_turn. cbn [conversations]. fold session_id.
    by rewrite lookup_insert_eq.
  - unfold get_history, Main.clear_session, mbind, H_bind, get_conversations,
      set_conversations, on_detector, mret, H_ret.
    case_bool_decide as Hin; cbn [conversations contradiction_detector];
      rewrite clear_session_spec; cbn.
    + by rewrite lookup_delete_eq.
    + apply not_elem_of_dom in Hin. unfold after_turn in Hin.
      cbn [conversations] in Hin. by rewrite lookup_insert_eq in Hin.
Qed.

End MainExtras.

Lemma tower_turn :
  ∃ r app',
    Main.chat "s0" tower_model (Some tower_nlp) small_wiki ask_tower at_start
    = (Main.Response r, app').
Proof.
  apply (first_turn_succeeds "s0" tower_model (Some tower_nlp) small_wiki
           ask_tower at_start tower_text [tower_entity; tower_height; tower_year]).
  - reflexivity.
  - exact tower_facts.
  - apply lookup_empty.
Qed.

Lemma turn_recorded_witness :
  ∃ r app',
    Main.chat "s0" tower_model (Some tower_nlp) small_wiki ask_tower at_start
    = (Main.Response r, app') ∧
    let session_id := Main.session_of "s0" ask_tower in
    Main.response_session_id r = session_id ∧
    tower_model (history_of at_start session_id) (Main.message ask_tower)
    = Ok (Main.response r) ∧
    Main.conversations app'
    = <[session_id := (history_of at_start session_id
                       ++ [user_message (Main.message ask_tower);
                           model_message (Main.response r)])%list]>
        (Main.conversations at_start) ∧
    Detector.session_facts (Main.contradiction_detector app')
    = <[session_id := (facts_of at_start session_id ++ Main.extracted_facts r)%list]>
        (Detector.session_facts (Main.contradiction_detector at_start)).
Proof.
  destruct tower_turn as (r & app' & Hchat). exists r, app'.
  split; [exact Hchat |].
  exact (turn_recorded "s0" tower_model (Some tower_nlp) small_wiki
           ask_tower at_start app' r Hchat).
Defined.

Lemma blocked_turn :
  Main.chat "s0" blocked_model (Some tower_nlp) small_wiki ask_tower at_start
  = (Main.HTTPException 500 "The response was blocked",
     after_turn at_start "s" [user_message "How tall is the tower?"] Detector.init).
Proof. by_evaluation. Qed.

Lemma sea_level_extracted :
  FactExtractor.extract_facts (Some blank_nlp) sea_text = Ok [sea_fact].
Proof. by_evaluation. Qed.

Lemma sea_level_unverified :
  Verifier.verify_facts small_wiki [sea_fact] = Ok [sea_fact_unverified].
Proof. by_evaluation. Qed.

Lemma sea_level_again :
  (Detector.detect_contradictions "s" [sea_fact_unverified]
     (session_with "s" [sea_level])).1 = Raise ZeroDivisionError.
Proof. by vm_compute. Qed.

Lemma failed_turn_keeps_facts_witness :
  let session_id := Main.session_of "s0" ask_tower in
  let old := history_of after_sea_level session_id in
  ((sea_model old (Main.message ask_tower) = Raise ZeroDivisionError
    ∧ [model_message sea_text] = []) ∨
   (∃ response_text,
      sea_model old (Main.message ask_tower) = Ok response_text ∧
      [model_message sea_text] = [model_message response_text] ∧
      (FactExtractor.extract_facts (Some blank_nlp) response_text = Raise ZeroDivisionError ∨
       ∃ extracted_facts verified_facts,
         FactExtractor.extract_facts (Some blank_nlp) response_text = Ok extracted_facts ∧
         Verifier.verify_facts small_wiki extracted_facts = Ok verified_facts ∧
         (Detector.detect_contradictions session_id verified_facts
            (Main.contradiction_detector after_sea_level)).1 = Raise ZeroDivisionError))) ∧
  ∃ app',
    Main.chat "s0" sea_model (Some blank_nlp) small_wiki ask_tower after_sea_level
    = (Main.HTTPException 500 (str_exn ZeroDivisionError), app') ∧
    Main.contradiction_detector app' = Main.contradiction_detector after_sea_level ∧
    history_of app' session_id
    = (old ++ user_message (Main.message ask_tower) :: [model_message sea_text])%list.
Proof.
  assert (∃ response_text,
      sea_model (history_of after_sea_level (Main.session_of "s0" ask_tower))
        (Main.message ask_tower) = Ok response_text ∧
      [model_message sea_text] = [model_message response_text] ∧
      (FactExtractor.extract_facts (Some blank_nlp) response_text = Raise ZeroDivisionError ∨
       ∃ extracted_facts verified_facts,
         FactExtractor.extract_facts (Some blank_nlp) response_text = Ok extracted_facts ∧
         Verifier.verify_facts small_wiki extracted_facts = Ok verified_facts ∧
         (Detector.detect_contradictions (Main.session_of "s0" ask_tower) verified_facts
            (Main.contradiction_detector after_sea_level)).1 = Raise ZeroDivisionError))
    as Hraise.
  { exists sea_text. split; [reflexivity |]. split; [reflexivity |]. right.
    exists [sea_fact], [sea_fact_unverified].
    split; [exact sea_level_extracted |]. split; [exact sea_level_unverified |].
    exact sea_level_again. }
  split; [right; exact Hraise |].
  apply (failed_turn_keeps_facts "s0" sea_model (Some blank_nlp) small_wiki
           ask_tower after_sea_level ZeroDivisionError [model_message sea_text]).
  right. exact Hraise.
Defined.


Lemma tower_turn_after_clear :
  ∃ r app',
    Main.chat "s0" tower_model (Some tower_nlp) small_wiki ask_tower
      (Main.clear_session "s" after_tokyo).2
    = (Main.Response r, app').
Proof.
  apply (first_turn_succeeds "s0" tower_model (Some tower_nlp) small_wiki
           ask_tower _ tower_text [tower_entity; tower_height; tower_year]).
  - reflexivity.
  - exact tower_facts.
  - by_evaluation.
Qed.

Lemma clear_session_forgets_witness :
  Main.session_of "s0" ask_tower = "s" ∧
  ∃ r app',
    Main.chat "s0" tower_model (Some tower_nlp) small_wiki ask_tower
      (Main.clear_session "s" after_tokyo).2
    = (Main.Response r, app') ∧
    tower_model [] (Main.message ask_tower) = Ok (Main.response r) ∧
    Main.contradictions r = [] ∧
    history_of app' "s"
    = [user_message (Main.message ask_tower); model_message (Main.response r)] ∧
    facts_of app' "s" = Main.extracted_facts r.
Proof.
  split; [reflexivity |].
  destruct tower_turn_after_clear as (r & app' & Hchat). exists r, app'.
  split; [exact Hchat |].
  exact (clear_session_forgets "s0" tower_model (Some tower_nlp) small_wiki
           "s" ask_tower after_tokyo app' r eq_refl Hchat).
Defined.

Lemma history_after_turn_witness :
  Main.chat "s0" blocked_model (Some tower_nlp) small_wiki ask_tower at_start
  = (Main.HTTPException 500 "The response was blocked",
     after_turn at_start "s" [user_message "How tall is the tower?"] Detector.init) ∧
  let app' := after_turn at_start "s" [user_message "How tall is the tower?"]
                Detector.init in
  let session_id := Main.session_of "s0" ask_tower in
  (∃ history,
     Main.get_history session_id app' = (Main.Response (session_id, history), app') ∧
     (history_of at_start session_id ++ [user_message (Main.message ask_tower)])%list
     `prefix_of` history) ∧
  (Main.get_history session_id (Main.clear_session session_id app').2).1
  = Main.HTTPException 404 "Session not found".
Proof.
  split; [exact blocked_turn |].
  exact (history_after_turn "s0" blocked_model (Some tower_nlp) small_wiki
           ask_tower at_start _ _ blocked_turn).
Defined.

(** ** Types the verifier does not know *)

Section UnknownTypes.
Import Verifier.

Lemma py_in_false entity_type types :
  entity_type ∉ types → py_in (PStr entity_type) types = false.
Proof.
  unfold py_in. induction types as [| t types IH]; [done |].
  intros [Hne Hnot]%not_elem_of_cons. simpl. rewrite (IH Hnot).
  unfold py_eq. rewrite bool_decide_eq_false_2; [done | congruence].
Qed.

Lemma query_types_are_content_types entity_type :
  entity_type ∈ query_value_types → entity_type ∈ content_value_types.
Proof.
  unfold query_value_types, content_value_types. rewrite !elem_of_cons, !elem_of_nil.
  tauto.
Qed.

(** X29.  A type the verifier does not list is never verified: for a
    fact whose entity type is neither a name type nor a value type, as the
    type TIME that the extractor keeps, every result of [verify_fact] says
    not verified, with confidence unknown, whatever the page holds. *)
Theorem unlisted_types_stay_unknown
    (wiki_page : string → result WikipediaPage) (fact result : dict) (entity_type : string) :
  fact !! "entity_type" = Some (PStr entity_type) →
  entity_type ∉ name_types →
  entity_type ∉ content_value_types →
  verify_fact wiki_page fact = Ok result →
  result !! "verified" = Some (PBool false) ∧
  result !! "confidence" = Some (PStr "unknown").
Proof.
  intros Htype Hname Hvalue.
  assert (py_in (PStr entity_type) query_value_types = false) as Hquery.
  { apply py_in_false. intros ?%query_types_are_content_types. done. }
  apply py_in_false in Hname, Hvalue.
  assert (∀ note, (unverified fact note : dict) !! "verified" = Some (PBool false) ∧
                  (unverified fact note : dict) !! "confidence" = Some (PStr "unknown"))
    as Hfailure.
  { intros note. rewrite unverified_fields. split; by apply lookup_union_Some_l. }
  unfold verify_fact, dict_item, mbind, result_bind. rewrite Htype.
  destruct (fact !! "entity") as [entity |] eqn:Hentity; [| discriminate].
  destruct (fact !! "sentence") as [sentence |]; [| discriminate].
  unfold _create_search_query. rewrite Hname, Hquery.
  destruct (truthy entity); cbv [negb]; [| intros [= <-]; apply Hfailure].
  destruct (str_method entity) as [query |]; [| discriminate].
  destruct (String.length (Str.strip query) <? 2)%nat; [intros [= <-]; apply Hfailure |].
  unfold try_except.
  destruct (search_wikipedia wiki_page fact query) as [found | e] eqn:Hsearch;
    [| intros [= <-]; apply Hfailure].
  intros [= <-]. revert Hsearch.
  unfold search_wikipedia, mbind, result_bind.
  destruct (wiki_page query) as [page |]; [| discriminate].
  destruct (page_exists page) as [[|] |]; cbv [negb];
    [| intros [= <-]; apply Hfailure | discriminate].
  destruct (page_text page) as [text |]; [| discriminate].
  destruct (page_summary page) as [summary |]; [| discriminate].
  unfold _verify_against_content, dict_item, mbind, result_bind.
  rewrite Hentity, Htype, Hname, Hvalue.
  destruct (str_method entity) as [entity_text |]; [| discriminate].
  destruct (page_fullurl page) as [url |]; [| discriminate].
  destruct (page_title page) as [title |]; [| discriminate].
  intros [= <-]. rewrite !lookup_insert_ne by done.
  split; by apply lookup_union_Some_l.
Qed.

Lemma verify_train_time : verify_fact tokyo_everywhere train_time = Ok train_time_checked.
Proof. by_evaluation. Qed.

Lemma unlisted_types_stay_unknown_witness :
  train_time !! "entity_type" = Some (PStr "TIME") ∧
  "TIME" ∈ FactExtractor.entity_labels ∧
  ("TIME" ∉ name_types) ∧
  ("TIME" ∉ content_value_types) ∧
  verify_fact tokyo_everywhere train_time = Ok train_time_checked ∧
  train_time_checked !! "verified" = Some (PBool false) ∧
  train_time_checked !! "confidence" = Some (PStr "unknown").
Proof.
  assert ("TIME" ∉ name_types) as Hname.
  { unfold name_types. rewrite !not_elem_of_cons.
    repeat split; (discriminate || apply not_elem_of_nil). }
  assert ("TIME" ∉ content_value_types) as Hvalue.
  { unfold content_value_types. rewrite !not_elem_of_cons.
    repeat split; (discriminate || apply not_elem_of_nil). }
  split; [reflexivity |].
  split; [unfold FactExtractor.entity_labels; rewrite !elem_of_cons; tauto |].
  split; [exact Hname |]. split; [exact Hvalue |]. split; [exact verify_train_time |].
  exact (unlisted_types_stay_unknown tokyo_everywhere train_time train_time_checked
           "TIME" eq_refl Hname Hvalue verify_train_time).
Defined.

End UnknownTypes.
